(** * Open-Sora-Plan: the DiT backbone (opensora/models/diffusion/dit/dit.py)

    A shallow embedding of the Diffusion-Transformer module and the
    properties its design document states about it.

    Conventions of the embedding.
    - Tensors inside a layer are nested lists in row-major order
      ([vec], [mat], [t3], [t4], [t5]); tensors that cross the public
      interface of [DiT] carry their shape explicitly ([Tensor]), because
      [forward] and [unpatchify] inspect [x.ndim] and [x.shape].
    - float32/float64 arithmetic is idealised: layer code is generic over a
      [Scalar] structure and proved from the laws of [ScalarLaws]; the
      closed-form sinusoidal tables are stated over the real numbers.
    - Python-level failures ([assert], [raise], tuple unpacking, unbound
      names, missing attributes, integer division by zero) are values of
      [exn] in the [result] monad, and so are the failures of the views,
      reshapes and rearrangements which the module writes itself.  Shape
      mismatches that torch rejects at run time inside an arithmetic
      kernel ([nn.Linear], [@]) are outside the model: the theorems about
      layer arithmetic assume well-shaped inputs.
    - Code of torch, numpy, einops, timm and of the sibling module
      VisionRoPE is not part of dit.py; it enters as section variables. *)

From Stdlib Require Import String.
From Stdlib Require Import List Permutation Arith ZArith QArith Qround Reals Bool Lia Lra.
Import ListNotations.

Close Scope Q_scope.
Close Scope R_scope.
Close Scope Z_scope.
Open Scope nat_scope.
Open Scope list_scope.

Set Implicit Arguments.

(** ** Python exceptions and the result monad *)

Inductive exn : Type :=
| AssertionError
| NotImplementedError
| TypeError (msg : string)
| NameError (name : string)
| AttributeError (name : string)
| ValueError (msg : string)
| ZeroDivisionError
| IndexError
| RuntimeError (msg : string).

Inductive result (X : Type) : Type :=
| Ok (x : X)
| Raise (e : exn).

Arguments Ok {X} x.
Arguments Raise {X} e.

Definition bind {X Y : Type} (m : result X) (k : X -> result Y) : result Y :=
  match m with
  | Ok x => k x
  | Raise e => Raise e
  end.

Declare Scope result_scope.
Delimit Scope result_scope with result.
Notation "x <- m ;; k" := (bind m (fun x => k))
  (at level 61, m at next level, right associativity) : result_scope.

Definition is_ok {X : Type} (m : result X) : bool :=
  match m with Ok _ => true | Raise _ => false end.

Fixpoint mapM {X Y : Type} (f : X -> result Y) (l : list X) : result (list Y) :=
  match l with
  | [] => Ok []
  | x :: l' => (y <- f x ;; ys <- mapM f l' ;; Ok (y :: ys))%result
  end.

(** ** List helpers shared by the layers *)

(** [zip_with f a b]: the element-wise combination of two equally long
    lists (an element-wise tensor operation along one axis). *)
Fixpoint zip_with {X Y Z : Type} (f : X -> Y -> Z) (a : list X) (b : list Y) : list Z :=
  match a, b with
  | x :: a', y :: b' => f x y :: zip_with f a' b'
  | _, _ => []
  end.

(** [chunks n l]: consecutive blocks of [n] elements of [l]; the last block
    is shorter when [n] does not divide the length.  [fuel] bounds the
    recursion by the length of the list. *)
Fixpoint chunks_fuel {X : Type} (fuel n : nat) (l : list X) : list (list X) :=
  match fuel with
  | O => []
  | S fuel' =>
      match l with
      | [] => []
      | _ => firstn n l :: chunks_fuel fuel' n (skipn n l)
      end
  end.

Definition chunks {X : Type} (n : nat) (l : list X) : list (list X) :=
  match n with
  | O => []
  | _ => chunks_fuel (length l) n l
  end.

Definition prod_list (l : list nat) : nat := fold_right Nat.mul 1 l.

Fixpoint shape_eqb (a b : list nat) : bool :=
  match a, b with
  | [], [] => true
  | x :: a', y :: b' => Nat.eqb x y && shape_eqb a' b'
  | _, _ => false
  end.

(** ** Sine/cosine positional embedding functions (numpy, float64 as reals) *)

Module SinCos.

Open Scope R_scope.

(** [get_1d_sincos_pos_embed_from_grid(embed_dim, pos)], lines 483-501.
    [pos] is the already flattened position array ([pos.reshape(-1)]). *)
Definition get_1d_sincos_pos_embed_from_grid (embed_dim : nat) (pos : list R)
  : result (list (list R)) :=
  if negb (Nat.eqb (embed_dim mod 2) 0) then Raise AssertionError
  else
    let omega := map INR (seq 0 (embed_dim / 2)) in
    let omega := map (fun w => w / (INR embed_dim / 2)) omega in
    let omega := map (fun w => 1 / Rpower 10000 w) omega in
    let out := map (fun p => map (fun w => p * w) omega) pos in
    let emb_sin := map (map sin) out in
    let emb_cos := map (map cos) out in
    Ok (zip_with (@app R) emb_sin emb_cos).

(** [get_1d_sincos_temp_embed(embed_dim, length)], lines 450-452:
    positions [0 .. length-1]. *)
Definition get_1d_sincos_temp_embed (embed_dim length : nat) : result (list (list R)) :=
  get_1d_sincos_pos_embed_from_grid embed_dim (map INR (seq 0 length)).

(** [get_2d_sincos_pos_embed_from_grid(embed_dim, grid)], lines 472-480;
    [grid] is the pair [(grid[0], grid[1])] of flattened coordinate arrays. *)
Definition get_2d_sincos_pos_embed_from_grid (embed_dim : nat) (grid : list R * list R)
  : result (list (list R)) :=
  if negb (Nat.eqb (embed_dim mod 2) 0) then Raise AssertionError
  else
    (emb_h <- get_1d_sincos_pos_embed_from_grid (embed_dim / 2) (fst grid) ;;
     emb_w <- get_1d_sincos_pos_embed_from_grid (embed_dim / 2) (snd grid) ;;
     Ok (zip_with (@app R) emb_h emb_w))%result.

(** [get_2d_sincos_pos_embed(embed_dim, grid_size)], lines 454-469, with
    the default [cls_token=False].  [np.meshgrid(grid_w, grid_h)] puts the
    column coordinate in [grid[0]] and the row coordinate in [grid[1]]. *)
Definition get_2d_sincos_pos_embed (embed_dim grid_size : nat) : result (list (list R)) :=
  let grid_h := map INR (seq 0 grid_size) in
  let grid_w := map INR (seq 0 grid_size) in
  let grid0 := flat_map (fun _ => grid_w) grid_h in
  let grid1 := flat_map (fun h => map (fun _ => h) grid_w) grid_h in
  get_2d_sincos_pos_embed_from_grid embed_dim (grid0, grid1).

(** The words of the design document: for position [p] and frequency index
    [i] in [[0, dim/2)] the angle is [p / 10000^(2i/dim)]; a row is the sine
    half followed by the cosine half. *)
Definition sincos_angle (dim : nat) (p : R) (i : nat) : R :=
  p / Rpower 10000 (2 * INR i / INR dim).

Definition sincos_1d_row (dim : nat) (p : R) : list R :=
  map (fun i => sin (sincos_angle dim p i)) (seq 0 (dim / 2))
  ++ map (fun i => cos (sincos_angle dim p i)) (seq 0 (dim / 2)).

Definition sincos_1d (dim : nat) (pos : list R) : list (list R) :=
  map (sincos_1d_row dim) pos.

Close Scope R_scope.

End SinCos.

(** ** Embedding layers for timesteps and class labels *)

Module TimestepEmbedder.

Open Scope R_scope.

(** [TimestepEmbedder.timestep_embedding(t, dim, max_period)], lines
    157-176.  [math.log] raises [ValueError] outside its domain. *)
Definition timestep_embedding (t : list R) (dim : nat) (max_period : R)
  : result (list (list R)) :=
  let half := (dim / 2)%nat in
  if Rle_dec max_period 0 then Raise (ValueError "math domain error")
  else
    let freqs := map (fun i => exp ((- ln max_period) * INR i / INR half)) (seq 0 half) in
    let args := map (fun tv => map (fun f => tv * f) freqs) t in
    let embedding := zip_with (@app R) (map (map cos) args) (map (map sin) args) in
    if negb (Nat.eqb (dim mod 2) 0)
    then Ok (zip_with (@app R) embedding
               (map (fun row => map (fun _ => 0) (firstn 1 row)) embedding))
    else Ok embedding.

(** The number of columns of that table: [2 * half] for the cosines and
    sines, and for an odd [dim] the columns of [embedding[:, :1]]. *)
Definition embedding_width (dim : nat) : nat :=
  let half := (dim / 2)%nat in
  if negb (Nat.eqb (dim mod 2) 0)
  then (half + half + Nat.min 1 (half + half))%nat
  else (half + half)%nat.

(** The words of the design document: [half = dim/2]; frequencies
    [exp(-ln(max_period) * i / half)]; a row is the cosine half, the sine
    half and, for an odd [dim], one zero column. *)
Definition frequency (max_period : R) (half i : nat) : R :=
  exp (- ln max_period * INR i / INR half).

Definition embedding_row (dim : nat) (max_period tv : R) : list R :=
  map (fun i => cos (tv * frequency max_period (dim / 2) i)) (seq 0 (dim / 2))
  ++ map (fun i => sin (tv * frequency max_period (dim / 2) i)) (seq 0 (dim / 2))
  ++ (if Nat.odd dim then [0] else []).

Definition embedding (t : list R) (dim : nat) (max_period : R) : list (list R) :=
  map (embedding_row dim max_period) t.

Close Scope R_scope.

End TimestepEmbedder.

Module LabelEmbedder.

Section Rows.

(** A row of the embedding table (a vector of [hidden_size] weights). *)
Variable E : Type.

Record module : Type := {
  embedding_table : list E;
  num_classes : Z;
  dropout_prob : Q
}.

Definition Qltb (a b : Q) : bool := if Qlt_le_dec a b then true else false.

(** [LabelEmbedder.__init__], lines 188-193; [rows i] is the initial value
    torch gives row [i] of the table. *)
Definition init (num_classes : Z) (dropout_prob : Q) (rows : nat -> E) : module :=
  let use_cfg_embedding := Qltb 0 dropout_prob in
  {| embedding_table :=
       map rows (seq 0 (Z.to_nat (num_classes + (if use_cfg_embedding then 1 else 0))));
     num_classes := num_classes;
     dropout_prob := dropout_prob |}.

(** [torch.where(cond, scalar, tensor)] on 1-D operands, with torch's
    broadcasting of a length-one operand. *)
Definition where_scalar (cond : list bool) (a : Z) (b : list Z) : result (list Z) :=
  if Nat.eqb (length cond) (length b)
  then Ok (zip_with (fun (c : bool) l => if c then a else l) cond b)
  else if Nat.eqb (length cond) 1
  then Ok (map (fun l => if hd false cond then a else l) b)
  else if Nat.eqb (length b) 1
  then Ok (map (fun c : bool => if c then a else hd 0%Z b) cond)
  else Raise (RuntimeError "The size of tensor a must match the size of tensor b").

(** [torch.rand(n)]: the draws of one call, each in [[0, 1)]. *)
Definition unit_draws (rand : nat -> list Q) : Prop :=
  forall n, length (rand n) = n /\ Forall (fun r => (0 <= r)%Q /\ (r < 1)%Q) (rand n).

Section Draws.

Variable rand : nat -> list Q.

(** [LabelEmbedder.token_drop], lines 195-204. *)
Definition token_drop (self : module) (labels : list Z) (force_drop_ids : option (list Z))
  : result (list Z) :=
  let drop_ids :=
    match force_drop_ids with
    | None => map (fun r => Qltb r (dropout_prob self)) (rand (length labels))
    | Some ids => map (fun d => Z.eqb d 1) ids
    end in
  where_scalar drop_ids (num_classes self) labels.

(** [self.embedding_table(labels)]: row lookup; an index outside the table
    raises [IndexError]. *)
Definition embedding_lookup (table : list E) (labels : list Z) : result (list E) :=
  fold_right
    (fun l acc =>
       match (if (l <? 0)%Z then None else nth_error table (Z.to_nat l)) with
       | Some row => (rows <- acc ;; Ok (row :: rows))%result
       | None => Raise IndexError
       end)
    (Ok []) labels.

(** [LabelEmbedder.forward], lines 206-211. *)
Definition forward (self : module) (labels : list Z) (train : bool)
    (force_drop_ids : option (list Z)) : result (list E) :=
  let use_dropout := Qltb 0 (dropout_prob self) in
  (labels <- (if (train && use_dropout)
                 || (match force_drop_ids with Some _ => true | None => false end)
              then token_drop self labels force_drop_ids
              else Ok labels) ;;
   embedding_lookup (embedding_table self) labels)%result.

End Draws.

End Rows.

End LabelEmbedder.

(** ** Properties of the sine/cosine tables *)

Lemma zip_with_app_map {X Y : Type} (f g : X -> list Y) (l : list X) :
  zip_with (@app Y) (map f l) (map g l) = map (fun x => f x ++ g x) l.
Proof.
  induction l as [|x l IH]; simpl; [reflexivity | now rewrite IH].
Qed.

Lemma zip_with_app_self {X : Type} (g : list X -> list X) (l : list (list X)) :
  zip_with (@app X) l (map g l) = map (fun x => x ++ g x) l.
Proof.
  induction l as [|x l IH]; simpl; [reflexivity | now rewrite IH].
Qed.

Lemma zip_with_length {X Y Z : Type} (f : X -> Y -> Z) (a : list X) (b : list Y) :
  length (zip_with f a b) = Nat.min (length a) (length b).
Proof.
  revert b; induction a as [|x a IH]; intros [|y b]; simpl; auto.
Qed.

Lemma firstn_app_exact {X : Type} (n : nat) (a b : list X) :
  length a = n -> firstn n (a ++ b) = a.
Proof.
  intros <-. rewrite firstn_app, Nat.sub_diag, firstn_O, app_nil_r.
  apply firstn_all.
Qed.

Lemma skipn_app_exact {X : Type} (n : nat) (a b : list X) :
  length a = n -> skipn n (a ++ b) = b.
Proof.
  intros <-. rewrite skipn_app, Nat.sub_diag, skipn_all. reflexivity.
Qed.

Lemma even_half_double (n : nat) : n mod 2 = 0 -> n / 2 + n / 2 = n.
Proof.
  intros H. pose proof (Nat.div_mod_eq n 2). lia.
Qed.

Lemma sincos_angle_code (dim i : nat) (p : R) :
  i < dim / 2 ->
  (p * (1 / Rpower 10000 (INR i / (INR dim / 2))))%R = SinCos.sincos_angle dim p i.
Proof.
  intros Hi. unfold SinCos.sincos_angle.
  assert (Hd : (INR dim <> 0)%R).
  { apply not_0_INR. intros ->. simpl in Hi. lia. }
  replace (INR i / (INR dim / 2))%R with (2 * INR i / INR dim)%R by (field; exact Hd).
  unfold Rdiv. ring.
Qed.

Lemma sincos_1d_row_length (dim : nat) (p : R) :
  dim mod 2 = 0 -> length (SinCos.sincos_1d_row dim p) = dim.
Proof.
  intros H. unfold SinCos.sincos_1d_row.
  rewrite length_app, !length_map, !length_seq. now apply even_half_double.
Qed.

(** C4. The 1-D sine/cosine embedding: for an even [embed_dim] the call
    returns the table whose row for position [p] is the sine half followed
    by the cosine half of the angles [p / 10000^(2i/dim)], [i] in
    [[0, dim/2)], of shape [(len(pos), dim)]; for an odd [embed_dim] the
    assertion fails; and equal arguments give equal results. *)
Theorem get_1d_sincos_pos_embed_from_grid_spec (embed_dim : nat) (pos : list R) :
  (if Nat.even embed_dim
   then SinCos.get_1d_sincos_pos_embed_from_grid embed_dim pos
          = Ok (SinCos.sincos_1d embed_dim pos)
        /\ length (SinCos.sincos_1d embed_dim pos) = length pos
        /\ Forall (fun row => length row = embed_dim) (SinCos.sincos_1d embed_dim pos)
   else SinCos.get_1d_sincos_pos_embed_from_grid embed_dim pos = Raise AssertionError)
  /\ (forall embed_dim' pos', embed_dim' = embed_dim -> pos' = pos ->
        SinCos.get_1d_sincos_pos_embed_from_grid embed_dim' pos'
        = SinCos.get_1d_sincos_pos_embed_from_grid embed_dim pos).
Proof.
  split; [| intros ? ? -> ->; reflexivity].
  unfold SinCos.get_1d_sincos_pos_embed_from_grid.
  destruct (Nat.even embed_dim) eqn:He.
  - apply Nat.even_spec in He.
    assert (Hm : embed_dim mod 2 = 0).
    { destruct He as [k ->]. rewrite Nat.mul_comm. apply Nat.Div0.mod_mul. }
    rewrite Hm. simpl negb. cbv iota.
    split; [| split].
    + f_equal. rewrite !map_map, zip_with_app_map.
      unfold SinCos.sincos_1d. apply map_ext. intros p.
      unfold SinCos.sincos_1d_row. rewrite !map_map.
      f_equal; apply map_ext_in; intros i Hi; apply in_seq in Hi;
        f_equal; apply sincos_angle_code; lia.
    + unfold SinCos.sincos_1d. apply length_map.
    + unfold SinCos.sincos_1d. apply Forall_forall. intros row Hin.
      apply in_map_iff in Hin. destruct Hin as [p [<- _]].
      now apply sincos_1d_row_length.
  - assert (Hm : embed_dim mod 2 = 1).
    { rewrite <- Nat.negb_odd in He. apply negb_false_iff in He.
      apply Nat.odd_spec in He. destruct He as [k ->].
      rewrite Nat.add_comm, Nat.mul_comm. rewrite Nat.Div0.mod_add. reflexivity. }
    rewrite Hm. reflexivity.
Qed.

(** ** Properties of the timestep embedding *)

Lemma zip_with_app_nil_r {X : Type} (l : list (list X)) :
  zip_with (@app X) l (map (fun _ => []) l) = l.
Proof.
  induction l as [|x l IH]; simpl; [reflexivity | now rewrite app_nil_r, IH].
Qed.

Lemma odd_mod2 (n : nat) : Nat.eqb (n mod 2) 0 = negb (Nat.odd n).
Proof.
  rewrite <- Nat.negb_even, negb_involutive.
  destruct (Nat.even n) eqn:He.
  - apply Nat.even_spec in He. destruct He as [k ->].
    rewrite Nat.mul_comm, Nat.Div0.mod_mul. reflexivity.
  - rewrite <- Nat.negb_odd in He. apply negb_false_iff in He.
    apply Nat.odd_spec in He. destruct He as [k ->].
    rewrite Nat.add_comm, Nat.mul_comm, Nat.Div0.mod_add. reflexivity.
Qed.

(** X3. Away from [dim = 1] the code computes the table of the design
    document: cosine half, sine half, and a zero column for odd [dim]. *)
Lemma timestep_embedding_general (t : list R) (dim : nat) (max_period : R) :
  (0 < max_period)%R -> dim <> 1 ->
  TimestepEmbedder.timestep_embedding t dim max_period
  = Ok (TimestepEmbedder.embedding t dim max_period).
Proof.
  intros Hp Hd. unfold TimestepEmbedder.timestep_embedding.
  destruct (Rle_dec max_period 0) as [Hle|_]; [lra|].
  rewrite !map_map, zip_with_app_map, odd_mod2, negb_involutive.
  unfold TimestepEmbedder.embedding, TimestepEmbedder.embedding_row,
    TimestepEmbedder.frequency.
  destruct (Nat.odd dim) eqn:Ho.
  - f_equal. rewrite map_map, zip_with_app_map. apply map_ext. intros tv.
    rewrite !map_map, <- app_assoc. do 2 f_equal.
    assert (Hh : 1 <= dim / 2).
    { apply Nat.odd_spec in Ho. destruct Ho as [k ->].
      assert (k <> 0) by lia.
      replace (2 * k + 1) with (1 + k * 2) by lia.
      rewrite Nat.div_add by lia. simpl. lia. }
    destruct (dim / 2) as [|h]; [lia|]. reflexivity.
  - f_equal. apply map_ext. intros tv. rewrite !map_map, app_nil_r. reflexivity.
Qed.

(** X4. For [t = 0] every angle is [0]: the cosine half is all ones and
    the sine half all zeros, for every [dim]. *)
Lemma timestep_embedding_at_zero (n dim : nat) (max_period : R) :
  (0 < max_period)%R ->
  exists rows,
    TimestepEmbedder.timestep_embedding (repeat 0%R n) dim max_period = Ok rows
    /\ length rows = n
    /\ Forall (fun row =>
         firstn (dim / 2) row = repeat 1%R (dim / 2)
         /\ firstn (dim / 2) (skipn (dim / 2) row) = repeat 0%R (dim / 2)) rows.
Proof.
  intros Hp. unfold TimestepEmbedder.timestep_embedding.
  destruct (Rle_dec max_period 0) as [Hle|_]; [lra|].
  rewrite !map_map, zip_with_app_map.
  set (half := dim / 2).
  assert (Hrow : forall fr : list R,
    map cos (map (fun f => (0 * f)%R) fr) = repeat 1%R (length fr)
    /\ map sin (map (fun f => (0 * f)%R) fr) = repeat 0%R (length fr)).
  { induction fr as [|f fr [IHc IHs]]; simpl; [split; reflexivity|].
    rewrite Rmult_0_l, cos_0, sin_0, IHc, IHs. split; reflexivity. }
  set (fr := map (fun i => exp (- ln max_period * INR i / INR half)) (seq 0 half)).
  assert (Hfr : length fr = half) by (unfold fr; now rewrite length_map, length_seq).
  destruct (Hrow fr) as [Hc Hs]. rewrite Hfr in Hc, Hs.
  assert (Hmap : map (fun tv : R => map cos (map (fun f => (tv * f)%R) fr)
                          ++ map sin (map (fun f => (tv * f)%R) fr)) (repeat 0%R n)
                 = repeat (repeat 1%R half ++ repeat 0%R half) n).
  { clear -Hc Hs. induction n as [|n IH]; simpl; [reflexivity|].
    now rewrite Hc, Hs, IH. }
  rewrite Hmap.
  assert (Hgood : forall tl : list R,
    firstn half ((repeat 1%R half ++ repeat 0%R half) ++ tl) = repeat 1%R half
    /\ firstn half (skipn half ((repeat 1%R half ++ repeat 0%R half) ++ tl))
       = repeat 0%R half).
  { intros tl. rewrite <- app_assoc. split.
    - apply firstn_app_exact, repeat_length.
    - rewrite skipn_app_exact by apply repeat_length.
      apply firstn_app_exact, repeat_length. }
  destruct (negb (Nat.eqb (dim mod 2) 0)).
  - eexists; split; [reflexivity|]. split.
    + rewrite zip_with_length, length_map, Nat.min_id. apply repeat_length.
    + rewrite zip_with_app_self. apply Forall_forall. intros row Hin.
      apply in_map_iff in Hin. destruct Hin as [r [<- Hr]].
      apply repeat_spec in Hr. subst r. apply Hgood.
  - eexists; split; [reflexivity|]. split; [apply repeat_length|].
    apply Forall_forall. intros row Hr. apply repeat_spec in Hr. subst row.
    specialize (Hgood []). rewrite app_nil_r in Hgood. exact Hgood.
Qed.

(** C5 (the code departs from the design document at [dim = 1]).  With [dim = 1] the
    slice [embedding[:, :1]] of the empty-column table is itself empty, so
    no zero column is appended: the result has shape (N, 0), while the
    design document (and the docstring, "dim: the dimension of the output")
    asks for the single zero column of shape (N, 1). *)
Theorem timestep_embedding_dim1_no_padding :
  TimestepEmbedder.timestep_embedding [0%R] 1 10000 = Ok [[]]
  /\ TimestepEmbedder.embedding [0%R] 1 10000 = [[0%R]]
  /\ TimestepEmbedder.timestep_embedding [0%R] 1 10000
     <> Ok (TimestepEmbedder.embedding [0%R] 1 10000).
Proof.
  assert (H : TimestepEmbedder.timestep_embedding [0%R] 1 10000 = Ok [[]]).
  { unfold TimestepEmbedder.timestep_embedding.
    destruct (Rle_dec 10000 0) as [Hle|_]; [lra|]. reflexivity. }
  split; [exact H|]. split; [reflexivity|].
  rewrite H. intros E. inversion E.
Qed.

(** ** Properties of the label embedder *)

Lemma zip_with_const_false (a : Z) (bs : list bool) (l : list Z) :
  length bs = length l -> Forall (fun b => b = false) bs ->
  zip_with (fun (c : bool) x => if c then a else x) bs l = l.
Proof.
  revert l; induction bs as [|b bs IH]; intros [|x l] Hlen Hall; simpl in *;
    try discriminate; [reflexivity|].
  inversion Hall; subst. rewrite IH by (auto; lia). reflexivity.
Qed.

Lemma zip_with_const_true (a : Z) (bs : list bool) (l : list Z) :
  length bs = length l -> Forall (fun b => b = true) bs ->
  zip_with (fun (c : bool) x => if c then a else x) bs l = map (fun _ => a) l.
Proof.
  revert l; induction bs as [|b bs IH]; intros [|x l] Hlen Hall; simpl in *;
    try discriminate; [reflexivity|].
  inversion Hall; subst. rewrite IH by (auto; lia). reflexivity.
Qed.

Lemma zip_with_map_l {X X' Y Z : Type} (g : X -> X') (f : X' -> Y -> Z)
    (a : list X) (b : list Y) :
  zip_with f (map g a) b = zip_with (fun x y => f (g x) y) a b.
Proof.
  revert b; induction a as [|x a IH]; intros [|y b]; simpl; auto.
  now rewrite IH.
Qed.

Lemma token_drop_no_dropout (E : Type) (rand : nat -> list Q)
    (self : LabelEmbedder.module E) (labels : list Z) :
  LabelEmbedder.unit_draws rand ->
  (LabelEmbedder.dropout_prob self == 0)%Q ->
  LabelEmbedder.token_drop rand self labels None = Ok labels.
Proof.
  intros Hr Hp. unfold LabelEmbedder.token_drop, LabelEmbedder.where_scalar.
  destruct (Hr (length labels)) as [Hlen Hall].
  rewrite length_map, Hlen, Nat.eqb_refl. f_equal.
  apply zip_with_const_false; [now rewrite length_map|].
  apply Forall_forall. intros b Hin. apply in_map_iff in Hin.
  destruct Hin as [r [<- Hin]].
  rewrite Forall_forall in Hall. destruct (Hall r Hin) as [H0 _].
  unfold LabelEmbedder.Qltb. destruct (Qlt_le_dec r _) as [Hlt|_]; [|reflexivity].
  rewrite Hp in Hlt. exfalso. exact (Qle_not_lt _ _ H0 Hlt).
Qed.

Lemma token_drop_full_dropout (E : Type) (rand : nat -> list Q)
    (self : LabelEmbedder.module E) (labels : list Z) :
  LabelEmbedder.unit_draws rand ->
  (LabelEmbedder.dropout_prob self == 1)%Q ->
  LabelEmbedder.token_drop rand self labels None
  = Ok (map (fun _ => LabelEmbedder.num_classes self) labels).
Proof.
  intros Hr Hp. unfold LabelEmbedder.token_drop, LabelEmbedder.where_scalar.
  destruct (Hr (length labels)) as [Hlen Hall].
  rewrite length_map, Hlen, Nat.eqb_refl. f_equal.
  apply zip_with_const_true; [now rewrite length_map|].
  apply Forall_forall. intros b Hin. apply in_map_iff in Hin.
  destruct Hin as [r [<- Hin]].
  rewrite Forall_forall in Hall. destruct (Hall r Hin) as [_ H1].
  unfold LabelEmbedder.Qltb. destruct (Qlt_le_dec r _) as [_|Hle]; [reflexivity|].
  rewrite Hp in Hle. exfalso. exact (Qle_not_lt _ _ Hle H1).
Qed.

Lemma token_drop_forced (E : Type) (rand : nat -> list Q)
    (self : LabelEmbedder.module E) (labels ids : list Z) :
  length ids = length labels ->
  LabelEmbedder.token_drop rand self labels (Some ids)
  = Ok (zip_with (fun d l => if Z.eqb d 1 then LabelEmbedder.num_classes self else l)
          ids labels).
Proof.
  intros Hlen. unfold LabelEmbedder.token_drop, LabelEmbedder.where_scalar.
  rewrite length_map, Hlen, Nat.eqb_refl. f_equal. apply zip_with_map_l.
Qed.

(** C6. Label dropout.  With [dropout_prob = 0] and no [force_drop_ids]
    no label is replaced, whatever the training flag; with
    [dropout_prob = 1] and [train = True] every label becomes the
    unconditional id [num_classes]; and when [force_drop_ids] is supplied,
    exactly the positions where it equals 1 are sent to the unconditional
    id and every other position keeps its label, whatever the training
    flag and the dropout probability. *)
Theorem label_embedder_dropout_policy (E : Type) (rand : nat -> list Q)
    (self : LabelEmbedder.module E) (labels : list Z) :
  LabelEmbedder.unit_draws rand ->
  ((LabelEmbedder.dropout_prob self == 0)%Q ->
     LabelEmbedder.token_drop rand self labels None = Ok labels
     /\ forall train,
          LabelEmbedder.forward rand self labels train None
          = LabelEmbedder.embedding_lookup (LabelEmbedder.embedding_table self) labels)
  /\ ((LabelEmbedder.dropout_prob self == 1)%Q ->
       LabelEmbedder.forward rand self labels true None
       = LabelEmbedder.embedding_lookup (LabelEmbedder.embedding_table self)
           (map (fun _ => LabelEmbedder.num_classes self) labels))
  /\ (forall (train : bool) (ids : list Z),
       length ids = length labels ->
       LabelEmbedder.forward rand self labels train (Some ids)
       = LabelEmbedder.embedding_lookup (LabelEmbedder.embedding_table self)
           (zip_with (fun d l => if Z.eqb d 1 then LabelEmbedder.num_classes self else l)
              ids labels)).
Proof.
  intros Hr. split; [|split].
  - intros Hp. split; [now apply token_drop_no_dropout|].
    intros train. unfold LabelEmbedder.forward.
    assert (Hu : LabelEmbedder.Qltb 0 (LabelEmbedder.dropout_prob self) = false).
    { unfold LabelEmbedder.Qltb. destruct (Qlt_le_dec 0 _) as [Hlt|_]; [|reflexivity].
      rewrite Hp in Hlt. exfalso. exact (Qlt_irrefl _ Hlt). }
    rewrite Hu, andb_false_r. reflexivity.
  - intros Hp. unfold LabelEmbedder.forward.
    assert (Hu : LabelEmbedder.Qltb 0 (LabelEmbedder.dropout_prob self) = true).
    { unfold LabelEmbedder.Qltb. destruct (Qlt_le_dec 0 _) as [_|Hle]; [reflexivity|].
      rewrite Hp in Hle. exfalso. revert Hle. apply Qlt_not_le. reflexivity. }
    rewrite Hu. simpl orb. cbv iota.
    rewrite token_drop_full_dropout by assumption. reflexivity.
  - intros train ids Hlen. unfold LabelEmbedder.forward.
    rewrite orb_true_r. rewrite token_drop_forced by assumption. reflexivity.
Qed.

Definition half_draws (n : nat) : list Q := repeat (1 # 2)%Q n.

Lemma label_embedder_dropout_policy_witness :
  LabelEmbedder.forward half_draws
    (LabelEmbedder.init 3 1 (fun i => i)) [0; 2; 1]%Z true None = Ok [3; 3; 3]
  /\ LabelEmbedder.forward half_draws
       (LabelEmbedder.init 3 0 (fun i => i)) [0; 2; 1]%Z true None = Ok [0; 2; 1]
  /\ LabelEmbedder.forward half_draws
       (LabelEmbedder.init 3 (1 # 10) (fun i => i)) [0; 2; 1]%Z false (Some [1; 0; 1]%Z)
     = Ok [3; 2; 3].
Proof.
  assert (Hr : LabelEmbedder.unit_draws half_draws).
  { intros n. unfold half_draws. split; [apply repeat_length|].
    apply Forall_forall. intros r Hin. apply repeat_spec in Hin. subst r.
    split; [discriminate | reflexivity]. }
  pose proof (label_embedder_dropout_policy
                (LabelEmbedder.init 3 1 (fun i => i)) [0; 2; 1]%Z Hr) as [_ [H1 _]].
  pose proof (label_embedder_dropout_policy
                (LabelEmbedder.init 3 0 (fun i => i)) [0; 2; 1]%Z Hr) as [H0 _].
  pose proof (label_embedder_dropout_policy
                (LabelEmbedder.init 3 (1 # 10) (fun i => i)) [0; 2; 1]%Z Hr) as [_ [_ H2]].
  split; [|split].
  - rewrite H1 by reflexivity. reflexivity.
  - destruct (H0 ltac:(reflexivity)) as [_ H0']. rewrite H0'. reflexivity.
  - rewrite (H2 false [1; 0; 1]%Z) by reflexivity. reflexivity.
Defined.

(** ** Scalars: the arithmetic the layers use *)

(** The scalar operations of the layer code.  [s_isnan] is [torch.isnan]
    on one element and [s_neg_1e8] the literal [-1e8]. *)
Class Scalar (A : Type) : Type := {
  s_zero : A;
  s_one : A;
  s_add : A -> A -> A;
  s_sub : A -> A -> A;
  s_mul : A -> A -> A;
  s_eqb : A -> A -> bool;
  s_isnan : A -> bool;
  s_neg_1e8 : A
}.

(** The laws the proofs rely on; they hold in exact arithmetic and, for
    finite values, in IEEE arithmetic. *)
Class ScalarLaws (A : Type) {S : Scalar A} : Prop := {
  s_add_zero_r : forall a : A, s_add a s_zero = a;
  s_mul_zero_l : forall a : A, s_mul s_zero a = s_zero;
  s_mul_zero_r : forall a : A, s_mul a s_zero = s_zero;
  s_eqb_one : s_eqb s_one s_one = true
}.

Arguments ScalarLaws A {S}.

#[global] Instance Z_Scalar : Scalar Z := {|
  s_zero := 0%Z;
  s_one := 1%Z;
  s_add := Z.add;
  s_sub := Z.sub;
  s_mul := Z.mul;
  s_eqb := Z.eqb;
  s_isnan := fun _ => false;
  s_neg_1e8 := (-100000000)%Z
|}.

#[global] Instance Z_ScalarLaws : ScalarLaws Z.
Proof.
  split; simpl; intros; try lia; reflexivity.
Qed.

#[global] Instance R_Scalar : Scalar R := {|
  s_zero := 0%R;
  s_one := 1%R;
  s_add := Rplus;
  s_sub := Rminus;
  s_mul := Rmult;
  s_eqb := fun a b => if Req_dec_T a b then true else false;
  s_isnan := fun _ => false;
  s_neg_1e8 := (-100000000)%R
|}.

#[global] Instance R_ScalarLaws : ScalarLaws R.
Proof.
  split; simpl; intros; try ring.
  destruct (Req_dec_T 1 1) as [_|H]; [reflexivity | now elim H].
Qed.

(** ** Tensors inside a layer and [nn.Linear] *)

Section Tensors.

Context {A : Type} {SA : Scalar A}.

Local Abbreviation vec := (list A).
Local Abbreviation mat := (list (list A)).
Local Abbreviation t3 := (list (list (list A))).
Local Abbreviation t4 := (list (list (list (list A)))).
Local Abbreviation t5 := (list (list (list (list (list A))))).

Definition dot (a b : vec) : A :=
  fold_left (fun acc p => s_add acc (s_mul (fst p) (snd p))) (combine a b) s_zero.

(** [nn.Linear]: [weight] has one row per output feature. *)
Record Linear : Type := {
  weight : mat;
  bias : option vec
}.

(** [F.linear] on one token: [x @ weight^T + bias]. *)
Definition linear (l : Linear) (x : vec) : vec :=
  let y := map (fun w => dot x w) (weight l) in
  match bias l with
  | Some b => zip_with s_add y b
  | None => y
  end.

Definition linear3 (l : Linear) (x : t3) : t3 := map (map (linear l)) x.

Definition map4 (f : A -> A) (t : t4) : t4 := map (map (map (map f))) t.

Definition zip4 (f : A -> A -> A) (a b : t4) : t4 :=
  zip_with (zip_with (zip_with (zip_with f))) a b.

(** [nn.Dropout]: the identity unless the module is in training mode with
    a positive rate; [drop p] is the random masking and rescaling torch
    then applies to a row. *)
Definition dropout (drop : Q -> vec -> vec) (p : Q) (training : bool) (row : vec) : vec :=
  if training && LabelEmbedder.Qltb 0 p then drop p row else row.

End Tensors.

Arguments Linear A : clear implicits.

(** ** Attention *)

(** The flags of [torch.backends.cuda.sdp_kernel]. *)
Record sdp_kernel : Type := {
  enable_math : bool;
  enable_flash : bool;
  enable_mem_efficient : bool
}.

Section Attention.

Context {A : Type} {SA : Scalar A}.

Local Abbreviation vec := (list A).
Local Abbreviation mat := (list (list A)).
Local Abbreviation t3 := (list (list (list A))).
Local Abbreviation t4 := (list (list (list (list A)))).
Local Abbreviation t5 := (list (list (list (list (list A))))).

(** The module-level optional imports, lines 23-33: each name is bound
    only when its package could be imported. *)
Record imports : Type := {
  parallel_rebased : option (t4 -> t4 -> t4 -> t4);
  ring_flash_attn_cuda : option (t4 -> t4 -> t4 -> t4)
}.

(** The state of an [Attention] module after [__init__], lines 39-76.
    [q_norm] and [k_norm] are built by the constructor and never used by
    [forward]; the rotary tables live in [rope] below. *)
Record Attention : Type := {
  num_heads : nat;
  head_dim : nat;
  scale : A;
  attention_mode : string;
  attention_pe_mode : string;
  qkv : Linear A;
  attn_drop : Q;
  proj : Linear A;
  proj_drop : Q;
  hw : nat * nat;
  training : bool
}.

(** What dit.py takes from torch and from the sibling module VisionRoPE. *)
Variable softmax : vec -> vec.
Variable drop : Q -> vec -> vec.
Variable scaled_dot_product_attention :
  sdp_kernel -> t4 -> t4 -> t4 -> option t4 -> Q -> A -> result t4.
Variable rope : t5 -> t5.
Variable env : imports.

(** [Attention.__init__], lines 39-76, as [DiTBlock] calls it
    ([qkv_bias=True], no dropout, [hw] and [pt_hw] through [to_2tuple]).
    [gen] gives the initial values of the linear layers and
    [inv_sqrt n] is [n ** -0.5]. *)
Definition Attention_init (gen : nat -> nat -> A) (inv_sqrt : nat -> A)
    (dim n_heads : nat) (mode pe_mode : string) (hw_ : nat) : result Attention :=
  if Nat.eqb n_heads 0 then Raise ZeroDivisionError
  else if negb (Nat.eqb (dim mod n_heads) 0) then Raise AssertionError
  else if Nat.eqb (dim / n_heads) 0 then Raise ZeroDivisionError
  else Ok {| num_heads := n_heads;
             head_dim := dim / n_heads;
             scale := inv_sqrt (dim / n_heads);
             attention_mode := mode;
             attention_pe_mode := pe_mode;
             qkv := {| weight := map (fun i => map (fun j => gen i j) (seq 0 dim))
                                     (seq 0 (dim * 3));
                       bias := Some (map (fun i => gen i dim) (seq 0 (dim * 3))) |};
             attn_drop := 0%Q;
             proj := {| weight := map (fun i => map (fun j => gen i j) (seq 0 dim))
                                      (seq 0 dim);
                        bias := Some (map (fun i => gen i dim) (seq 0 dim)) |};
             proj_drop := 0%Q;
             hw := (hw_, hw_);
             training := true |}.

(** [Attention.make_attn_bias], lines 131-134. *)
Definition make_attn_bias (attn_mask : t4) : t4 :=
  let attn_bias := map4 (fun m => if s_eqb m s_zero then s_neg_1e8 else m) attn_mask in
  zip4 (fun m b => if s_eqb m s_one then s_zero else b) attn_mask attn_bias.

(** [self.qkv(x).reshape(B, N, 3, H, C // H).permute(2, 0, 3, 1, 4)] and
    [unbind(0)]: component [s] of the fused projection, split by head. *)
Definition split_heads (H c_head s : nat) (y : t3) : t4 :=
  map (fun sample =>
         map (fun h => map (fun row => firstn c_head (skipn ((s * H + h) * c_head) row)) sample)
             (seq 0 H))
      y.

(** [self.rope] on the frames of [hw[0] * hw[1]] positions of each head,
    and the view back to [(B, H, N, C // H)], lines 87-88 and 91-92. *)
Definition rope_frames (self : Attention) (q : t4) : t4 :=
  let q_t := map (map (chunks (fst (hw self) * snd (hw self)))) q in
  let ro_q_t := rope q_t in
  map (map (@concat vec)) ro_q_t.

(** [q.view(B, H, -1, hw[0] * hw[1], C // H)], lines 86 and 90, infers
    the axis [-1]: torch accepts the view only when the product of the
    sizes that are given, [B * H * hw[0] * hw[1] * (C // H)], is positive
    and divides the number [B * H * N * (C // H)] of elements of [q].
    [H] and [C // H] are positive in every layer [__init__] returns
    (lines 55-58), so this is: a batch that is not empty, and whole
    frames of [hw[0] * hw[1]] tokens. *)
Definition rope_view_ok (self : Attention) (B N : nat) : bool :=
  negb (Nat.eqb B 0)
  && negb (Nat.eqb (fst (hw self) * snd (hw self)) 0)
  && Nat.eqb (N mod (fst (hw self) * snd (hw self))) 0.

(** Lines 86-88 (and 90-92 for [k]): the view, [self.rope], the view
    back. *)
Definition apply_rope (self : Attention) (B N : nat) (q : t4) : result t4 :=
  if rope_view_ok self B N then Ok (rope_frames self q)
  else Raise (RuntimeError "shape is invalid for input size").

(** [(q @ k.transpose(-2, -1)) * self.scale]. *)
Definition scores (sc : A) (q k : t4) : t4 :=
  zip_with (zip_with (fun qh kh =>
    map (fun qi => map (fun kj => s_mul (dot qi kj) sc) kh) qh)) q k.

(** [attn @ v] on one head; [c_head] is the width of [v]. *)
Definition matmul (c_head : nat) (a v : mat) : mat :=
  map (fun row => map (fun d => dot row (map (fun vj => nth d vj s_zero) v)) (seq 0 c_head)) a.

(** [.transpose(1, 2).reshape(B, N, C)]: for each token, the heads side by
    side. *)
Definition merge_heads (N : nat) (y : t4) : t3 :=
  map (fun heads => map (fun n => concat (map (fun head => nth n head []) heads)) (seq 0 N)) y.

(** [.reshape(B, N, C)] without a transposition, as the fused-kernel
    branches do. *)
Definition reshape_heads (C : nat) (y : t4) : t3 :=
  map (fun heads => chunks C (concat (concat heads))) y.

Definition any_isnan (t : t4) : bool :=
  existsb (existsb (existsb (existsb s_isnan))) t.

(** The branch [attention_mode == 'math'], lines 106-116; [c_head] is the
    width [C // num_heads] of a head. *)
Definition math_attention (self : Attention) (N c_head : nat) (q k v : t4)
    (attn_mask : option t4) : t3 :=
  let attn := scores (scale self) q k in
  let attn :=
    match attn_mask with
    | Some m => zip4 s_add attn (make_attn_bias m)
    | None => attn
    end in
  let attn := map (map (map softmax)) attn in
  let attn :=
    if any_isnan attn
    then map4 (fun a => if s_isnan a then s_zero else a) attn
    else attn in
  let attn := map (map (map (dropout drop (attn_drop self) (training self)))) attn in
  merge_heads N (zip_with (zip_with (matmul c_head)) attn v).

(** [Attention.forward], lines 78-129. *)
Definition Attention_forward (self : Attention) (x : t3) (attn_mask : option t4) : result t3 :=
  let B := length x in
  let N := length (hd [] x) in
  let C := length (hd [] (hd [] x)) in
  let y := linear3 (qkv self) x in
  let q := split_heads (num_heads self) (C / num_heads self) 0 y in
  let k := split_heads (num_heads self) (C / num_heads self) 1 y in
  let v := split_heads (num_heads self) (C / num_heads self) 2 y in
  let attn_mask :=
    option_map (map (fun m => concat (repeat m (num_heads self)))) attn_mask in
  let rotary := String.eqb (attention_pe_mode self) "2d_rope" in
  (q <- (if rotary then apply_rope self B N q else Ok q) ;;
   k <- (if rotary then apply_rope self B N k else Ok k) ;;
   x <-
     (if String.eqb (attention_mode self) "xformers" then
        (o <- scaled_dot_product_attention
                {| enable_math := false; enable_flash := false; enable_mem_efficient := true |}
                q k v attn_mask (attn_drop self) (scale self) ;;
         Ok (reshape_heads C o))
      else if String.eqb (attention_mode self) "flash" then
        (o <- scaled_dot_product_attention
                {| enable_math := false; enable_flash := true; enable_mem_efficient := false |}
                q k v attn_mask (attn_drop self) (scale self) ;;
         Ok (reshape_heads C o))
      else if String.eqb (attention_mode self) "math" then
        Ok (math_attention self N (C / num_heads self) q k v attn_mask)
      else if String.eqb (attention_mode self) "rebased" then
        match parallel_rebased env with
        | None => Raise (NameError "parallel_rebased")
        | Some _ => Raise (AttributeError "eps")
        end
      else if String.eqb (attention_mode self) "ring" then
        match ring_flash_attn_cuda env with
        | None => Raise (NameError "ring_flash_attn_cuda")
        | Some _ => Raise (AttributeError "causal")
        end
      else Raise (TypeError "exceptions must derive from BaseException")) ;;
   let x := linear3 (proj self) x in
   Ok (map (map (dropout drop (proj_drop self) (training self))) x))%result.

(** The backends [Attention.forward] dispatches on. *)
Definition supported_modes : list string :=
  ["xformers"; "flash"; "math"; "rebased"; "ring"]%string.

(** An all-ones tensor of shape [(B, H, N, M)], and the all-zero one. *)
Definition full4 (a : A) (B H N M : nat) : t4 :=
  repeat (repeat (repeat (repeat a M) N) H) B.

(** Dropout is disabled: evaluation mode, or both rates are zero. *)
Definition dropout_disabled (self : Attention) : Prop :=
  training self
  && (LabelEmbedder.Qltb 0 (attn_drop self) || LabelEmbedder.Qltb 0 (proj_drop self))
  = false.

(** The tensor [b] has the shape of [a], down to the length of each row
    of tokens. *)
Definition same_rows (a b : t5) : Prop :=
  map (map (map (@length vec))) a = map (map (map (@length vec))) b.

End Attention.

Arguments Attention A : clear implicits.
Arguments imports A : clear implicits.

(** ** Properties of attention *)

(** A tensor of shape [(B, N, C)], and one of shape [(B, H, N, M)]. *)
Definition has_shape3 {X : Type} (B N C : nat) (x : list (list (list X))) : Prop :=
  length x = B
  /\ Forall (fun sample => length sample = N
                           /\ Forall (fun tok => length tok = C) sample) x.

Definition has_shape4 {X : Type} (B H N M : nat) (t : list (list (list (list X)))) : Prop :=
  length t = B /\ Forall (has_shape3 H N M) t.

(** The layer suits inputs of [N] tokens of width [C]: the heads divide
    the width, the two projections have the sizes the constructor gives
    them, and with rotary embeddings the tokens fill whole frames of
    [hw[0] * hw[1]] positions. *)
Definition attention_suits {A : Type} (self : Attention A) (N C : nat) : Prop :=
  num_heads self <> 0
  /\ C mod num_heads self = 0
  /\ length (weight (qkv self)) = 3 * C
  /\ Forall (fun w => length w = C) (weight (qkv self))
  /\ length (weight (proj self)) = C
  /\ Forall (fun w => length w = C) (weight (proj self))
  /\ option_map (@length A) (bias (proj self)) = Some C
  /\ (attention_pe_mode self = "2d_rope"%string ->
      fst (hw self) * snd (hw self) <> 0 /\ N mod (fst (hw self) * snd (hw self)) = 0).

Definition fit3 {X : Type} (B H N : nat) (q : list (list (list X))) : Prop :=
  length q <= B /\ Forall (fun s => length s <= H /\ Forall (fun h => length h <= N) s) q.

Definition fit4 {X : Type} (B H N M : nat) (t : list (list (list (list X)))) : Prop :=
  length t <= B
  /\ Forall (fun s => length s <= H
               /\ Forall (fun h => length h <= N /\ Forall (fun r => length r <= M) h) s) t.

Lemma zip_with_repeat_r {X Y : Type} (f : X -> Y -> X) (z : Y) (a : list X) (n : nat) :
  (forall x, In x a -> f x z = x) -> length a <= n -> zip_with f a (repeat z n) = a.
Proof.
  revert n; induction a as [|x a IH]; intros [|n] Hf Hn; simpl in *; try reflexivity; try lia.
  rewrite Hf by auto. rewrite IH; auto. lia.
Qed.

Lemma zip_with_repeat_both {X Y Z : Type} (f : X -> Y -> Z) (x : X) (y : Y) (n : nat) :
  zip_with f (repeat x n) (repeat y n) = repeat (f x y) n.
Proof.
  induction n as [|n IH]; simpl; [reflexivity | now rewrite IH].
Qed.

Lemma Forall_zip_with {X Y Z : Type} (P : Z -> Prop) (f : X -> Y -> Z)
    (a : list X) (b : list Y) :
  (forall x y, In x a -> In y b -> P (f x y)) -> Forall P (zip_with f a b).
Proof.
  revert b; induction a as [|x a IH]; intros [|y b] Hf; simpl; constructor.
  - apply Hf; left; reflexivity.
  - apply IH. intros; apply Hf; right; assumption.
Qed.

Lemma zip_with_length_le_l {X Y Z : Type} (f : X -> Y -> Z) (a : list X) (b : list Y) :
  length (zip_with f a b) <= length a.
Proof.
  rewrite zip_with_length. apply Nat.le_min_l.
Qed.

Lemma concat_repeat_singleton {X : Type} (x : X) (n : nat) :
  concat (repeat [x] n) = repeat x n.
Proof.
  induction n as [|n IH]; simpl; [reflexivity | now rewrite IH].
Qed.

Lemma concat_chunks_fuel {X : Type} (fuel n : nat) (l : list X) :
  0 < n -> length l <= fuel -> concat (chunks_fuel fuel n l) = l.
Proof.
  intros Hn. revert l; induction fuel as [|fuel IH]; intros l Hl.
  - destruct l; [reflexivity | simpl in Hl; lia].
  - destruct l as [|x l]; [reflexivity|].
    cbn [chunks_fuel concat]. rewrite IH.
    + apply firstn_skipn.
    + rewrite length_skipn. cbn [length] in *. lia.
Qed.

Lemma concat_chunks_length {X : Type} (n : nat) (l : list X) :
  length (concat (chunks n l)) <= length l.
Proof.
  unfold chunks. destruct n as [|n]; [simpl; lia|].
  rewrite concat_chunks_fuel by lia. lia.
Qed.

Section AttentionProperties.

Context {A : Type} {SA : Scalar A}.

Local Abbreviation vec := (list A).
Local Abbreviation mat := (list (list A)).
Local Abbreviation t3 := (list (list (list A))).
Local Abbreviation t4 := (list (list (list (list A)))).
Local Abbreviation t5 := (list (list (list (list (list A))))).

Variable softmax : vec -> vec.
Variable scaled_dot_product_attention :
  sdp_kernel -> t4 -> t4 -> t4 -> option t4 -> Q -> A -> result t4.
Variable rope : t5 -> t5.
Variable env : imports A.

Lemma make_attn_bias_ones {L : ScalarLaws A} (B H N M : nat) :
  make_attn_bias (full4 s_one B H N M) = full4 s_zero B H N M.
Proof.
  unfold make_attn_bias, full4, map4, zip4.
  rewrite !map_repeat, !zip_with_repeat_both, s_eqb_one. reflexivity.
Qed.

Lemma zip4_add_zeros {L : ScalarLaws A} (B H N M : nat) (t : t4) :
  fit4 B H N M t -> zip4 s_add t (full4 s_zero B H N M) = t.
Proof.
  intros [HB Ht]. unfold zip4, full4. rewrite Forall_forall in Ht.
  apply zip_with_repeat_r; [|exact HB]. intros s Hs.
  destruct (Ht s Hs) as [HH Hs']. rewrite Forall_forall in Hs'.
  apply zip_with_repeat_r; [|exact HH]. intros h Hh.
  destruct (Hs' h Hh) as [HN Hh']. rewrite Forall_forall in Hh'.
  apply zip_with_repeat_r; [|exact HN]. intros r Hr.
  apply zip_with_repeat_r; [|exact (Hh' r Hr)]. intros a _. apply s_add_zero_r.
Qed.

Lemma scores_fit (sc : A) (B H N M : nat) (q k : t4) :
  fit3 B H N q -> fit3 B H M k -> fit4 B H N M (scores sc q k).
Proof.
  intros [HqB Hq] [HkB Hk]. unfold scores. split.
  - etransitivity; [apply zip_with_length_le_l | exact HqB].
  - rewrite Forall_forall in Hq, Hk.
    apply Forall_zip_with. intros qs ks Hqs Hks.
    destruct (Hq qs Hqs) as [HqH Hqs']. destruct (Hk ks Hks) as [HkH Hks'].
    split.
    + etransitivity; [apply zip_with_length_le_l | exact HqH].
    + rewrite Forall_forall in Hqs', Hks'.
      apply Forall_zip_with. intros qh kh Hqh Hkh. split.
      * rewrite length_map. auto.
      * apply Forall_forall. intros r Hr. apply in_map_iff in Hr.
        destruct Hr as [qi [<- _]]. rewrite length_map. auto.
Qed.

Lemma split_heads_fit (H c s N : nat) (y : t3) :
  Forall (fun sample => length sample <= N) y ->
  fit3 (length y) H N (split_heads H c s y).
Proof.
  intros Hy. unfold split_heads. split; [now rewrite length_map|].
  apply Forall_forall. intros hs Hin. apply in_map_iff in Hin.
  destruct Hin as [sample [<- Hs]]. rewrite Forall_forall in Hy.
  split; [now rewrite length_map, length_seq|].
  apply Forall_forall. intros h Hh. apply in_map_iff in Hh.
  destruct Hh as [i [<- _]]. rewrite length_map. auto.
Qed.

Lemma linear3_rows (l : Linear A) (N : nat) (x : t3) :
  Forall (fun sample => length sample = N) x ->
  length (linear3 l x) = length x
  /\ Forall (fun sample => length sample <= N) (linear3 l x).
Proof.
  intros Hx. unfold linear3. split; [apply length_map|].
  apply Forall_forall. intros s Hs. apply in_map_iff in Hs.
  destruct Hs as [s0 [<- Hs0]]. rewrite length_map.
  rewrite Forall_forall in Hx. rewrite (Hx s0 Hs0). lia.
Qed.

Hypothesis rope_shape : forall t, same_rows (rope t) t.

Lemma rope_frames_fit (self : Attention A) (B H N : nat) (q : t4) :
  fit3 B H N q -> fit3 B H N (rope_frames rope self q).
Proof.
  intros [HB Hq]. unfold rope_frames. cbv zeta.
  set (n := fst (hw self) * snd (hw self)).
  pose proof (rope_shape (map (map (chunks n)) q)) as Hr. unfold same_rows in Hr.
  assert (Hsk : map (map (fun fr : mat => length fr)) (map (map (@concat vec)) (rope (map (map (chunks n)) q)))
                = map (map (fun h : mat => length (concat (chunks n h)))) q).
  { rewrite map_map.
    erewrite (map_ext (fun x => map _ (map _ x))) by (intros; apply map_map).
    transitivity (map (map (fun sizes => list_sum sizes))
                    (map (map (map (@length vec))) (rope (map (map (chunks n)) q)))).
    - rewrite map_map. apply map_ext. intros hs. rewrite map_map.
      apply map_ext. intros fr. apply length_concat.
    - rewrite Hr. rewrite !map_map. apply map_ext. intros hs. rewrite !map_map.
      apply map_ext. intros h. symmetry. apply length_concat. }
  set (q' := map (map (@concat vec)) (rope (map (map (chunks n)) q))) in *.
  assert (Hlen : length q' = length q).
  { apply (f_equal (@length _)) in Hsk. now rewrite !length_map in Hsk. }
  split; [rewrite Hlen; exact HB|].
  apply Forall_forall. intros s' Hs'.
  apply In_nth_error in Hs'. destruct Hs' as [i Hi].
  assert (Hi' : nth_error (map (map (fun fr : mat => length fr)) q') i
                = Some (map (fun fr : mat => length fr) s')).
  { rewrite nth_error_map, Hi. reflexivity. }
  rewrite Hsk, nth_error_map in Hi'.
  destruct (nth_error q i) as [s|] eqn:Hs; [|discriminate]. simpl in Hi'.
  injection Hi' as Hi'.
  rewrite Forall_forall in Hq. destruct (Hq s (nth_error_In _ _ Hs)) as [HH Hs0].
  assert (Hl : length s' = length s).
  { apply (f_equal (@length _)) in Hi'. now rewrite !length_map in Hi'. }
  split; [lia|].
  apply Forall_forall. intros h' Hh'.
  apply In_nth_error in Hh'. destruct Hh' as [j Hj].
  assert (Hj' : nth_error (map (fun fr : mat => length fr) s') j = Some (length h')).
  { rewrite nth_error_map, Hj. reflexivity. }
  rewrite <- Hi', nth_error_map in Hj'.
  destruct (nth_error s j) as [h|] eqn:Hh; [|discriminate]. simpl in Hj'.
  injection Hj' as Hj'. rewrite Forall_forall in Hs0.
  pose proof (Hs0 h (nth_error_In _ _ Hh)). pose proof (concat_chunks_length n h). lia.
Qed.

(** In the math branch an all-ones mask changes nothing: its bias is zero
    everywhere. *)
Lemma math_attention_all_ones_mask {L : ScalarLaws A} (drop : Q -> vec -> vec)
    (self : Attention A) (x : t3) (N : nat) :
  attention_mode self = "math"%string ->
  Forall (fun sample => length sample = N) x ->
  Attention_forward softmax drop scaled_dot_product_attention rope env self x
    (Some (full4 s_one (length x) 1 N N))
  = Attention_forward softmax drop scaled_dot_product_attention rope env self x None.
Proof.
  intros Hmode Hx. unfold Attention_forward. rewrite Hmode. simpl String.eqb.
  cbv iota zeta. simpl option_map.
  set (y := linear3 (qkv self) x).
  set (c := length (hd [] (hd [] x)) / num_heads self).
  destruct (linear3_rows (qkv self) Hx) as [Hlen Hrows]. fold y in Hlen, Hrows.
  assert (Hbias : map (fun m : t3 => concat (repeat m (num_heads self)))
                    (full4 s_one (length x) 1 N N)
                  = full4 s_one (length x) (num_heads self) N N).
  { unfold full4. rewrite map_repeat. simpl repeat at 2.
    now rewrite concat_repeat_singleton. }
  assert (Hkey : forall q k : t4,
             fit3 (length x) (num_heads self) N q ->
             fit3 (length x) (num_heads self) N k ->
             math_attention softmax drop self (length (hd [] x)) c q k
               (split_heads (num_heads self) c 2 y)
               (Some (full4 s_one (length x) (num_heads self) N N))
             = math_attention softmax drop self (length (hd [] x)) c q k
                 (split_heads (num_heads self) c 2 y) None).
  { intros q k Hq Hk. unfold math_attention. cbv zeta.
    rewrite make_attn_bias_ones, zip4_add_zeros by (now apply scores_fit).
    reflexivity. }
  assert (Hsplit : forall s, fit3 (length x) (num_heads self) N
                               (split_heads (num_heads self) c s y)).
  { intros s. rewrite <- Hlen. now apply split_heads_fit. }
  rewrite Hbias.
  destruct (String.eqb (attention_pe_mode self) "2d_rope").
  - unfold apply_rope. destruct (rope_view_ok _ _ _); [|reflexivity].
    cbn [bind]. rewrite Hkey by (apply rope_frames_fit; apply Hsplit). reflexivity.
  - cbn [bind]. rewrite Hkey by apply Hsplit. reflexivity.
Qed.

Lemma map_id_ext {X : Type} (f : X -> X) (l : list X) :
  (forall x, f x = x) -> map f l = l.
Proof.
  intros Hf. induction l as [|x l IH]; simpl; [reflexivity | now rewrite Hf, IH].
Qed.

Lemma dropout_off (drop : Q -> vec -> vec) (self : Attention A) :
  dropout_disabled self ->
  (forall row, dropout drop (attn_drop self) (training self) row = row)
  /\ (forall row, dropout drop (proj_drop self) (training self) row = row).
Proof.
  unfold dropout_disabled, dropout. intros Hd.
  destruct (training self); simpl in *; [|split; reflexivity].
  apply orb_false_iff in Hd. destruct Hd as [-> ->]. split; reflexivity.
Qed.

(** With dropout disabled the random masking plays no role in the math
    branch. *)
Lemma math_attention_dropout_irrelevant (drop1 drop2 : Q -> vec -> vec)
    (self : Attention A) (x : t3) (attn_mask : option t4) :
  attention_mode self = "math"%string -> dropout_disabled self ->
  Attention_forward softmax drop1 scaled_dot_product_attention rope env self x attn_mask
  = Attention_forward softmax drop2 scaled_dot_product_attention rope env self x attn_mask.
Proof.
  intros Hmode Hd. unfold Attention_forward. rewrite Hmode. simpl String.eqb.
  cbv iota zeta.
  destruct (if String.eqb (attention_pe_mode self) "2d_rope" then _ else _) as [q|e];
    [|reflexivity].
  cbn [bind].
  destruct (if String.eqb (attention_pe_mode self) "2d_rope" then _ else _) as [k|e];
    [|reflexivity].
  unfold bind, math_attention. cbv zeta.
  destruct (dropout_off drop1 Hd) as [Ha1 Hp1].
  destruct (dropout_off drop2 Hd) as [Ha2 Hp2].
  rewrite !(map_id_ext (map (dropout drop1 (proj_drop self) (training self))))
    by (intros; now apply map_id_ext).
  rewrite !(map_id_ext (map (dropout drop2 (proj_drop self) (training self))))
    by (intros; now apply map_id_ext).
  rewrite !(map_id_ext (map (map (dropout drop1 (attn_drop self) (training self)))))
    by (intros; apply map_id_ext; intros; now apply map_id_ext).
  rewrite !(map_id_ext (map (map (dropout drop2 (attn_drop self) (training self)))))
    by (intros; apply map_id_ext; intros; now apply map_id_ext).
  reflexivity.
Qed.

(** C9. Math backend, dropout disabled: a call with the fully valid
    (all-ones) mask of shape [(B, 1, N, N)] returns what a call without a
    mask returns, for every input sequence of [B] samples of [N] tokens
    and whatever random draws the two calls would see.  The mask enters
    the scores only as the additive bias of [make_attn_bias], which is
    zero wherever the mask is one. *)
Theorem attention_all_ones_mask_is_no_mask {L : ScalarLaws A}
    (drop1 drop2 : Q -> vec -> vec) (self : Attention A) (x : t3) (N : nat) :
  attention_mode self = "math"%string ->
  dropout_disabled self ->
  Forall (fun sample => length sample = N) x ->
  Attention_forward softmax drop1 scaled_dot_product_attention rope env self x
    (Some (full4 s_one (length x) 1 N N))
  = Attention_forward softmax drop2 scaled_dot_product_attention rope env self x None.
Proof.
  intros Hmode Hd Hx.
  rewrite (math_attention_all_ones_mask drop1 self Hmode Hx).
  now apply math_attention_dropout_irrelevant.
Qed.

End AttentionProperties.

Section AttentionBackends.

Context {A : Type} {SA : Scalar A}.

Local Abbreviation vec := (list A).
Local Abbreviation t3 := (list (list (list A))).
Local Abbreviation t4 := (list (list (list (list A)))).
Local Abbreviation t5 := (list (list (list (list (list A))))).

Variable softmax : vec -> vec.
Variable drop : Q -> vec -> vec.
Variable scaled_dot_product_attention :
  sdp_kernel -> t4 -> t4 -> t4 -> option t4 -> Q -> A -> result t4.
Variable rope : t5 -> t5.
Variable env : imports A.

(** The fused kernel which the flags [flags] enable is unavailable:
    torch's call raises whatever it is given. *)
Definition kernel_unavailable (flags : sdp_kernel) : Prop :=
  forall q k v m p s,
    is_ok (scaled_dot_product_attention flags q k v m p s) = false.

(** With rotary embeddings, an input of whole frames passes the two views
    of lines 86 and 90. *)
Lemma rope_view_ok_suits (self : Attention A) (B N C : nat) (x : t3) :
  0 < B -> has_shape3 B N C x -> attention_suits self N C ->
  String.eqb (attention_pe_mode self) "2d_rope" = true ->
  rope_view_ok self (length x) (length (hd [] x)) = true.
Proof.
  intros HB [HxB Hx] (_ & _ & _ & _ & _ & _ & _ & Hrope) Hpe.
  apply String.eqb_eq in Hpe. destruct (Hrope Hpe) as [HP HN].
  destruct x as [|s x']; [simpl in HxB; lia|].
  apply Forall_inv in Hx. destruct Hx as [Hs _].
  unfold rope_view_ok. cbn [hd].
  rewrite Hs, HN.
  destruct (Nat.eqb_spec (fst (hw self) * snd (hw self)) 0) as [E|_]; [contradiction|].
  reflexivity.
Qed.

(** The branch of lines 118-125 which [attention_mode] selects when it is
    none of [xformers], [flash] and [math], once the rotary views are
    passed. *)
Lemma Attention_forward_no_kernel (self : Attention A) (x : t3) (attn_mask : option t4) :
  attention_mode self <> "xformers"%string ->
  attention_mode self <> "flash"%string ->
  attention_mode self <> "math"%string ->
  (String.eqb (attention_pe_mode self) "2d_rope" = true ->
   rope_view_ok self (length x) (length (hd [] x)) = true) ->
  Attention_forward softmax drop scaled_dot_product_attention rope env self x attn_mask
  = if String.eqb (attention_mode self) "rebased" then
      match parallel_rebased env with
      | None => Raise (NameError "parallel_rebased")
      | Some _ => Raise (AttributeError "eps")
      end
    else if String.eqb (attention_mode self) "ring" then
      match ring_flash_attn_cuda env with
      | None => Raise (NameError "ring_flash_attn_cuda")
      | Some _ => Raise (AttributeError "causal")
      end
    else Raise (TypeError "exceptions must derive from BaseException").
Proof.
  intros H1 H2 H3 Hview. unfold Attention_forward. cbv zeta.
  apply String.eqb_neq in H1, H2, H3. rewrite H1, H2, H3.
  unfold apply_rope.
  destruct (String.eqb (attention_pe_mode self) "2d_rope").
  - rewrite (Hview eq_refl). cbn [bind].
    destruct (String.eqb (attention_mode self) "rebased");
      [destruct (parallel_rebased env); reflexivity|].
    destruct (String.eqb (attention_mode self) "ring");
      [destruct (ring_flash_attn_cuda env); reflexivity|].
    reflexivity.
  - cbn [bind].
    destruct (String.eqb (attention_mode self) "rebased");
      [destruct (parallel_rebased env); reflexivity|].
    destruct (String.eqb (attention_mode self) "ring");
      [destruct (ring_flash_attn_cuda env); reflexivity|].
    reflexivity.
Qed.

(** Whatever the rotary views do, a mode which is none of [xformers],
    [flash] and [math] returns no tensor, and never raises
    [NotImplementedError]. *)
Lemma Attention_forward_no_kernel_raises
    (self : Attention A) (x : t3) (attn_mask : option t4) :
  attention_mode self <> "xformers"%string ->
  attention_mode self <> "flash"%string ->
  attention_mode self <> "math"%string ->
  is_ok (Attention_forward softmax drop scaled_dot_product_attention rope env self x attn_mask)
  = false
  /\ Attention_forward softmax drop scaled_dot_product_attention rope env self x attn_mask
     <> Raise NotImplementedError.
Proof.
  intros H1 H2 H3. unfold Attention_forward. cbv zeta.
  apply String.eqb_neq in H1, H2, H3. rewrite H1, H2, H3.
  unfold apply_rope.
  destruct (String.eqb (attention_pe_mode self) "2d_rope");
    [destruct (rope_view_ok _ _ _); [|split; [reflexivity|discriminate]]|];
    cbn [bind];
    (destruct (String.eqb (attention_mode self) "rebased");
       [destruct (parallel_rebased env); (split; [reflexivity|discriminate])|]);
    (destruct (String.eqb (attention_mode self) "ring");
       [destruct (ring_flash_attn_cuda env); (split; [reflexivity|discriminate])|]);
    (split; [reflexivity|discriminate]).
Qed.

(** A fused branch hands on the failure of its kernel: it returns no
    tensor when the kernel which its flags enable is unavailable. *)
Lemma Attention_forward_fused_raises
    (self : Attention A) (x : t3) (attn_mask : option t4) :
  (attention_mode self = "xformers"%string
   /\ kernel_unavailable
        {| enable_math := false; enable_flash := false; enable_mem_efficient := true |})
  \/ (attention_mode self = "flash"%string
      /\ kernel_unavailable
           {| enable_math := false; enable_flash := true; enable_mem_efficient := false |}) ->
  is_ok (Attention_forward softmax drop scaled_dot_product_attention rope env self x attn_mask)
  = false.
Proof.
  intros [[Hm Hk]|[Hm Hk]]; unfold Attention_forward; cbv zeta; rewrite Hm;
    simpl String.eqb; cbv iota; unfold apply_rope;
    (destruct (String.eqb (attention_pe_mode self) "2d_rope");
       [destruct (rope_view_ok _ _ _); [|reflexivity]|]);
    cbn [bind];
    match goal with
    | |- context [scaled_dot_product_attention ?f ?q ?k ?v ?m ?p ?s] =>
        specialize (Hk q k v m p s);
        destruct (scaled_dot_product_attention f q k v m p s); [discriminate Hk|reflexivity]
    end.
Qed.

(** C7. What [Attention.forward] does with a backend it cannot run.
    (1) It never falls back to another backend: for every input it returns
    no tensor when [attention_mode] is outside the supported set, when it
    is [rebased] or [ring], and when it is [xformers] or [flash] and the
    fused kernel that branch enables is unavailable.  (2) For a mode
    outside the supported set the exception is never the
    [NotImplementedError] that line 125 means to raise.  (3) On an input
    [x] of shape [(B, N, C)] which the projections and the rotary views
    accept, the exception is exactly: the [TypeError] which Python raises
    for [raise NotImplemented] when the mode is outside the supported set;
    for [rebased] and for [ring] the [NameError] of the name whose import
    was swallowed at lines 23-33, and, with the package installed, the
    [AttributeError] of [self.eps] and of [self.causal], which the
    constructor never sets. *)
Theorem attention_unsupported_backend_errors
    (self : Attention A) (x : t3) (attn_mask : option t4) :
  (~ In (attention_mode self) supported_modes
   \/ attention_mode self = "rebased"%string
   \/ attention_mode self = "ring"%string
   \/ (attention_mode self = "xformers"%string
       /\ kernel_unavailable
            {| enable_math := false; enable_flash := false; enable_mem_efficient := true |})
   \/ (attention_mode self = "flash"%string
       /\ kernel_unavailable
            {| enable_math := false; enable_flash := true; enable_mem_efficient := false |}) ->
   is_ok (Attention_forward softmax drop scaled_dot_product_attention rope env self x attn_mask)
   = false)
  /\ (~ In (attention_mode self) supported_modes ->
      Attention_forward softmax drop scaled_dot_product_attention rope env self x attn_mask
      <> Raise NotImplementedError)
  /\ (forall B N C : nat,
        0 < B -> has_shape3 B N C x -> attention_suits self N C ->
        (~ In (attention_mode self) supported_modes ->
         Attention_forward softmax drop scaled_dot_product_attention rope env self x attn_mask
         = Raise (TypeError "exceptions must derive from BaseException"))
        /\ (attention_mode self = "rebased"%string ->
            Attention_forward softmax drop scaled_dot_product_attention rope env self x attn_mask
            = Raise (match parallel_rebased env with
                     | None => NameError "parallel_rebased"
                     | Some _ => AttributeError "eps"
                     end))
        /\ (attention_mode self = "ring"%string ->
            Attention_forward softmax drop scaled_dot_product_attention rope env self x attn_mask
            = Raise (match ring_flash_attn_cuda env with
                     | None => NameError "ring_flash_attn_cuda"
                     | Some _ => AttributeError "causal"
                     end))).
Proof.
  assert (Hout : ~ In (attention_mode self) supported_modes ->
                 attention_mode self <> "xformers"%string
                 /\ attention_mode self <> "flash"%string
                 /\ attention_mode self <> "math"%string
                 /\ attention_mode self <> "rebased"%string
                 /\ attention_mode self <> "ring"%string).
  { intros Hn. unfold supported_modes in Hn.
    repeat split; intros E; apply Hn; rewrite E; simpl; tauto. }
  split; [|split].
  - intros [Hn|[Hm|[Hm|Hf]]].
    + destruct (Hout Hn) as (H1 & H2 & H3 & _).
      now apply Attention_forward_no_kernel_raises.
    + apply Attention_forward_no_kernel_raises; rewrite Hm; discriminate.
    + apply Attention_forward_no_kernel_raises; rewrite Hm; discriminate.
    + now apply Attention_forward_fused_raises.
  - intros Hn. destruct (Hout Hn) as (H1 & H2 & H3 & _).
    now apply Attention_forward_no_kernel_raises.
  - intros B N C HB Hx Hs.
    pose proof (rope_view_ok_suits HB Hx Hs) as Hview.
    split; [|split].
    + intros Hn. destruct (Hout Hn) as (H1 & H2 & H3 & H4 & H5).
      rewrite (@Attention_forward_no_kernel self x attn_mask H1 H2 H3 Hview).
      apply String.eqb_neq in H4, H5. rewrite H4, H5. reflexivity.
    + intros Hm.
      rewrite (@Attention_forward_no_kernel self x attn_mask); [| rewrite Hm; discriminate.. | exact Hview].
      rewrite Hm. simpl String.eqb. cbv iota.
      destruct (parallel_rebased env); reflexivity.
    + intros Hm.
      rewrite (@Attention_forward_no_kernel self x attn_mask); [| rewrite Hm; discriminate.. | exact Hview].
      rewrite Hm. simpl String.eqb. cbv iota.
      destruct (ring_flash_attn_cuda env); reflexivity.
Qed.

End AttentionBackends.

(** A two-token, one-head attention layer over the integers, used to run
    the definitions. *)
Definition tiny_attention (mode : string) : Attention Z := {|
  num_heads := 1;
  head_dim := 2;
  scale := 1%Z;
  attention_mode := mode;
  attention_pe_mode := "2d_rope";
  qkv := {| weight := [[1; 0]; [0; 1]; [1; 1]; [2; 0]; [0; 1]; [1; 0]]%Z;
            bias := Some [0; 0; 0; 0; 0; 0]%Z |};
  attn_drop := 0%Q;
  proj := {| weight := [[1; 0]; [0; 1]]%Z; bias := Some [0; 0]%Z |};
  proj_drop := 0%Q;
  hw := (1, 2);
  training := false
|}.

Definition tiny_sequence : list (list (list Z)) := [[[1; 2]; [3; 4]]]%Z.

Definition no_imports : imports Z :=
  {| parallel_rebased := None; ring_flash_attn_cuda := None |}.

Definition no_fused_kernel
  : sdp_kernel -> list (list (list (list Z))) -> list (list (list (list Z)))
    -> list (list (list (list Z))) -> option (list (list (list (list Z)))) -> Q -> Z
    -> result (list (list (list (list Z)))) :=
  fun _ _ _ _ _ _ _ => Raise (RuntimeError "No available kernel").

Definition rope_identity (t : list (list (list (list (list Z))))) := t.

Example tiny_attention_runs :
  Attention_forward (fun r => r) (fun _ r => r) no_fused_kernel rope_identity no_imports
    (tiny_attention "math") tiny_sequence None
  = Ok [[[90; 64]; [214; 152]]]%Z.
Proof. vm_compute. reflexivity. Qed.

Lemma attention_all_ones_mask_is_no_mask_witness :
  Attention_forward (fun r => r) (fun _ r => map (Z.mul 2) r) no_fused_kernel
    rope_identity no_imports (tiny_attention "math") tiny_sequence
    (Some (full4 1%Z (length tiny_sequence) 1 2 2))
  = Attention_forward (fun r => r) (fun _ _ => []) no_fused_kernel
      rope_identity no_imports (tiny_attention "math") tiny_sequence None.
Proof.
  refine (attention_all_ones_mask_is_no_mask (fun r => r) no_fused_kernel
            rope_identity no_imports (fun t => eq_refl)
            (fun _ r => map (Z.mul 2) r) (fun _ _ => [])
            (self:=tiny_attention "math") (x:=tiny_sequence) (N:=2) _ _ _).
  - reflexivity.
  - reflexivity.
  - unfold tiny_sequence. constructor; [reflexivity | constructor].
Defined.

Lemma tiny_attention_suits (mode : string) : attention_suits (tiny_attention mode) 2 2.
Proof.
  unfold attention_suits, tiny_attention. cbn.
  repeat split; try reflexivity; try lia; repeat constructor.
Qed.

Lemma tiny_sequence_shape : has_shape3 1 2 2 tiny_sequence.
Proof. split; [reflexivity|]. repeat constructor. Qed.

Lemma attention_unsupported_backend_errors_witness :
  Attention_forward (fun r => r) (fun _ r => r) no_fused_kernel rope_identity no_imports
    (tiny_attention "sdpa") tiny_sequence None
  = Raise (TypeError "exceptions must derive from BaseException")
  /\ Attention_forward (fun r => r) (fun _ r => r) no_fused_kernel rope_identity no_imports
       (tiny_attention "sdpa") tiny_sequence None
     <> Raise NotImplementedError
  /\ Attention_forward (fun r => r) (fun _ r => r) no_fused_kernel rope_identity no_imports
       (tiny_attention "rebased") tiny_sequence None
     = Raise (NameError "parallel_rebased")
  /\ Attention_forward (fun r => r) (fun _ r => r) no_fused_kernel rope_identity no_imports
       (tiny_attention "ring") tiny_sequence None
     = Raise (NameError "ring_flash_attn_cuda")
  /\ is_ok (Attention_forward (fun r => r) (fun _ r => r) no_fused_kernel rope_identity
              no_imports (tiny_attention "xformers") tiny_sequence None)
     = false
  /\ is_ok (Attention_forward (fun r => r) (fun _ r => r) no_fused_kernel rope_identity
              no_imports (tiny_attention "flash") tiny_sequence None)
     = false.
Proof.
  assert (Hn : ~ In (attention_mode (tiny_attention "sdpa")) supported_modes).
  { unfold supported_modes, tiny_attention, attention_mode.
    intros H. repeat (destruct H as [H|H]; [discriminate H|]). exact H. }
  pose proof (attention_unsupported_backend_errors (fun r => r) (fun _ r => r)
                no_fused_kernel rope_identity no_imports (tiny_attention "sdpa")
                tiny_sequence None) as (_ & H0 & H1).
  pose proof (attention_unsupported_backend_errors (fun r => r) (fun _ r => r)
                no_fused_kernel rope_identity no_imports (tiny_attention "rebased")
                tiny_sequence None) as (_ & _ & H2).
  pose proof (attention_unsupported_backend_errors (fun r => r) (fun _ r => r)
                no_fused_kernel rope_identity no_imports (tiny_attention "ring")
                tiny_sequence None) as (_ & _ & H3).
  pose proof (attention_unsupported_backend_errors (fun r => r) (fun _ r => r)
                no_fused_kernel rope_identity no_imports (tiny_attention "xformers")
                tiny_sequence None) as (H4 & _).
  pose proof (attention_unsupported_backend_errors (fun r => r) (fun _ r => r)
                no_fused_kernel rope_identity no_imports (tiny_attention "flash")
                tiny_sequence None) as (H5 & _).
  destruct (H1 1 2 2 (Nat.lt_0_succ 0) tiny_sequence_shape (tiny_attention_suits "sdpa"))
    as (H1' & _).
  destruct (H2 1 2 2 (Nat.lt_0_succ 0) tiny_sequence_shape (tiny_attention_suits "rebased"))
    as (_ & H2' & _).
  destruct (H3 1 2 2 (Nat.lt_0_succ 0) tiny_sequence_shape (tiny_attention_suits "ring"))
    as (_ & _ & H3').
  split; [|split; [|split; [|split; [|split]]]].
  - exact (H1' Hn).
  - exact (H0 Hn).
  - exact (H2' eq_refl).
  - exact (H3' eq_refl).
  - apply H4. right. right. right. left. split; [reflexivity|].
    intros q k v m p s. reflexivity.
  - apply H5. right. right. right. right. split; [reflexivity|].
    intros q k v m p s. reflexivity.
Defined.

(** ** The conditioned transformer block and the final layer *)

Section Modulation.

Context {A : Type} {SA : Scalar A}.

Local Abbreviation vec := (list A).
Local Abbreviation mat := (list (list A)).
Local Abbreviation t3 := (list (list (list A))).

(** [modulate(x, shift, scale)], lines 136-137:
    [x * (1 + scale.unsqueeze(1)) + shift.unsqueeze(1)]. *)
Definition modulate (x : t3) (shift scale : mat) : t3 :=
  zip_with (fun sample ss =>
              map (fun row =>
                     zip_with s_add
                       (zip_with s_mul row (map (fun s => s_add s_one s) (snd ss)))
                       (fst ss))
                  sample)
           x (combine shift scale).

(** [gate.unsqueeze(1) * y]: one gate vector per sample, applied to each
    of its tokens. *)
Definition gate_mul (gate : mat) (y : t3) : t3 :=
  zip_with (fun g sample => map (fun row => zip_with s_mul g row) sample) gate y.

Definition add3 (a b : t3) : t3 := zip_with (zip_with (zip_with s_add)) a b.

(** [Tensor.chunk(n, dim=1)] of a matrix with [D] columns: pieces of
    [ceil(D / n)] columns; for [D = 0] torch returns [n] empty pieces. *)
Definition torch_chunk (n D : nat) (m : mat) : list mat :=
  match D with
  | O => repeat (map (fun _ => []) m) n
  | _ =>
      let size := (D + n - 1) / n in
      map (fun j => map (fun row => firstn size (skipn (j * size) row)) m)
          (seq 0 ((D + size - 1) / size))
  end.

Definition out_features (l : Linear A) : nat := length (weight l).

(** [nn.init.constant_(tensor, 0)] on a weight matrix and on a bias. *)
Definition constant_zero_mat (w : mat) : mat := map (map (fun _ => s_zero)) w.

Definition constant_zero_linear (l : Linear A) : Linear A :=
  {| weight := constant_zero_mat (weight l);
     bias := option_map (map (fun _ => s_zero)) (bias l) |}.

(** A freshly allocated [nn.Linear(in_features, out_features)]; [gen i j]
    is the value torch draws for entry [(i, j)] (column [in_features]
    holds the bias draws). *)
Definition new_linear (gen : nat -> nat -> A) (in_features out_features : nat)
    (with_bias : bool) : Linear A :=
  {| weight := map (fun i => map (fun j => gen i j) (seq 0 in_features)) (seq 0 out_features);
     bias := if with_bias
             then Some (map (fun i => gen i in_features) (seq 0 out_features))
             else None |}.

(** An in-place random initialiser ([xavier_uniform_], [normal_]):
    entry [(i, j)] is overwritten by the draw [draw i j].  [_basic_init]
    on one [nn.Linear], lines 318-322: Xavier-uniform weights, zero
    bias.  The division by [fan_in + fan_out] of [xavier_uniform_] fails
    only for a model without width; [DiT.initialize_weights] checks it
    once, for all its layers. *)
Definition fill_mat (draw : nat -> nat -> A) (w : mat) : mat :=
  map (fun i => map (fun j => draw i j) (seq 0 (length (nth i w []))))
      (seq 0 (length w)).

Definition basic_init_linear (xavier : nat -> nat -> A) (l : Linear A) : Linear A :=
  {| weight := fill_mat xavier (weight l);
     bias := option_map (map (fun _ => s_zero)) (bias l) |}.

End Modulation.

Module DiTBlock.

Section Block.

Context {A : Type} {SA : Scalar A}.

Local Abbreviation vec := (list A).
Local Abbreviation mat := (list (list A)).
Local Abbreviation t3 := (list (list (list A))).
Local Abbreviation t4 := (list (list (list (list A)))).
Local Abbreviation t5 := (list (list (list (list (list A))))).

(** The parameters of timm's [Mlp]. *)
Variable Mlp : Type.

(** A [DiTBlock] after [__init__], lines 222-233.  [norm1] and [norm2]
    have no parameters ([elementwise_affine=False]); of the sequential
    [adaLN_modulation] only its linear layer has some. *)
Record module : Type := {
  attn : Attention A;
  mlp : Mlp;
  adaLN_modulation : Linear A
}.

Variable softmax : vec -> vec.
Variable drop : Q -> vec -> vec.
Variable scaled_dot_product_attention :
  sdp_kernel -> t4 -> t4 -> t4 -> option t4 -> Q -> A -> result t4.
Variable rope : t5 -> t5.
Variable env : imports A.
(** [nn.LayerNorm(hidden_size, elementwise_affine=False, eps=1e-6)] on one
    token, [nn.SiLU] on one element, and the forward pass of timm's
    [Mlp]. *)
Variable layer_norm : vec -> vec.
Variable silu : A -> A.
Variable mlp_forward : Mlp -> t3 -> t3.

(** [DiTBlock.forward], lines 235-239. *)
Definition forward (self : module) (x : t3) (c : mat) (attention_mask : option t4)
  : result t3 :=
  match torch_chunk 6 (out_features (adaLN_modulation self))
          (map (fun row => linear (adaLN_modulation self) (map silu row)) c) with
  | [shift_msa; scale_msa; gate_msa; shift_mlp; scale_mlp; gate_mlp] =>
      (a <- Attention_forward softmax drop scaled_dot_product_attention rope env
              (attn self) (modulate (map (map layer_norm) x) shift_msa scale_msa)
              attention_mask ;;
       let x := add3 x (gate_mul gate_msa a) in
       let x := add3 x (gate_mul gate_mlp
                          (mlp_forward (mlp self)
                             (modulate (map (map layer_norm) x) shift_mlp scale_mlp))) in
       Ok x)%result
  | _ => Raise (ValueError "not enough values to unpack (expected 6)")
  end.

(** [DiTBlock.__init__], lines 222-233.  [Mlp_init hidden_size
    mlp_hidden_dim] is timm's constructor. *)
Definition init (gen : nat -> nat -> A) (inv_sqrt : nat -> A) (Mlp_init : nat -> nat -> Mlp)
    (hidden_size n_heads : nat) (mlp_ratio : Q) (mode pe_mode : string) (hw_ : nat)
  : result module :=
  (a <- Attention_init gen inv_sqrt hidden_size n_heads mode pe_mode hw_ ;;
   let mlp_hidden_dim := Z.to_nat (Qfloor (inject_Z (Z.of_nat hidden_size) * mlp_ratio)%Q) in
   Ok {| attn := a;
         mlp := Mlp_init hidden_size mlp_hidden_dim;
         adaLN_modulation := new_linear gen hidden_size (6 * hidden_size) true |})%result.

(** The step of [DiT.initialize_weights] that concerns one block, lines
    318-323 and 345-348: [_basic_init] on each linear layer, then the
    adaLN modulation layer is zeroed.  [mlp_basic_init] is [_basic_init]
    on the two linear layers of timm's [Mlp]. *)
Definition initialize_weights (xavier : nat -> nat -> A) (mlp_basic_init : Mlp -> Mlp)
    (self : module) : module :=
  let a := attn self in
  let a := {| num_heads := num_heads a; head_dim := head_dim a; scale := scale a;
              attention_mode := attention_mode a;
              attention_pe_mode := attention_pe_mode a;
              qkv := basic_init_linear xavier (qkv a);
              attn_drop := attn_drop a;
              proj := basic_init_linear xavier (proj a);
              proj_drop := proj_drop a; hw := hw a; training := training a |} in
  {| attn := a;
     mlp := mlp_basic_init (mlp self);
     adaLN_modulation :=
       constant_zero_linear (basic_init_linear xavier (adaLN_modulation self)) |}.

End Block.

End DiTBlock.

Module FinalLayer.

Section Final.

Context {A : Type} {SA : Scalar A}.

Local Abbreviation vec := (list A).
Local Abbreviation mat := (list (list A)).
Local Abbreviation t3 := (list (list (list A))).

(** A [FinalLayer] after [__init__], lines 246-253. *)
Record module : Type := {
  linear_layer : Linear A;
  adaLN_modulation : Linear A
}.

Variable layer_norm : vec -> vec.
Variable silu : A -> A.

(** [FinalLayer.forward], lines 255-259. *)
Definition forward (self : module) (x : t3) (c : mat) : result t3 :=
  match torch_chunk 2 (out_features (adaLN_modulation self))
          (map (fun row => linear (adaLN_modulation self) (map silu row)) c) with
  | [shift; scale] =>
      let x := modulate (map (map layer_norm) x) shift scale in
      Ok (linear3 (linear_layer self) x)
  | _ => Raise (ValueError "not enough values to unpack (expected 2)")
  end.

(** [FinalLayer.__init__], lines 246-253. *)
Definition init (gen : nat -> nat -> A) (hidden_size patch_size_t patch_size out_channels : nat)
  : module :=
  {| linear_layer :=
       new_linear gen hidden_size (patch_size_t * patch_size * patch_size * out_channels) true;
     adaLN_modulation := new_linear gen hidden_size (2 * hidden_size) true |}.

(** Lines 318-323 and 350-354 of [DiT.initialize_weights]. *)
Definition initialize_weights (xavier : nat -> nat -> A) (self : module) : module :=
  {| linear_layer := constant_zero_linear (basic_init_linear xavier (linear_layer self));
     adaLN_modulation :=
       constant_zero_linear (basic_init_linear xavier (adaLN_modulation self)) |}.

End Final.

End FinalLayer.

Arguments DiTBlock.module A Mlp : clear implicits.
Arguments FinalLayer.module A : clear implicits.

(** ** Tensors with an explicit shape *)

(** A tensor at the interface of [DiT]: its shape and its elements in
    row-major order. *)
Record Tensor (A : Type) : Type := {
  shape : list nat;
  data : list A
}.

Arguments shape {A} _.
Arguments data {A} _.

Section FlatTensors.

Context {A : Type} {SA : Scalar A}.

Definition ndim (x : Tensor A) : nat := length (shape x).

(** [Tensor.reshape(shape)]: torch rejects a shape with another number of
    elements. *)
Definition reshape (sh : list nat) (x : Tensor A) : result (Tensor A) :=
  if Nat.eqb (prod_list sh) (prod_list (shape x))
  then Ok {| shape := sh; data := data x |}
  else Raise (RuntimeError "shape is invalid for input size").

(** The [count] consecutive rows of [size] elements of a flat list. *)
Definition rows_of {X : Type} (count size : nat) (d : list X) : list (list X) :=
  map (fun i => firstn size (skipn (i * size) d)) (seq 0 count).

(** The elements of [d] at the positions [idxs]. *)
Definition gather {X : Type} (idxs : list nat) (d : list X) : list X :=
  flat_map (fun i => match nth_error d i with Some v => [v] | None => [] end) idxs.

Definition replace_nth (k v : nat) (sh : list nat) : list nat :=
  firstn k sh ++ match skipn k sh with [] => [] | _ :: tl => v :: tl end.

(** [x[..., lo:hi, ...]] along axis [k], with Python's clipping of the
    bounds. *)
Definition slice_axis (k lo hi : nat) (x : Tensor A) : Tensor A :=
  let outer := prod_list (firstn k (shape x)) in
  let dk := nth k (shape x) 0 in
  let inner := prod_list (skipn (S k) (shape x)) in
  let lo := Nat.min lo dk in
  let hi := Nat.max lo (Nat.min hi dk) in
  {| shape := replace_nth k (hi - lo) (shape x);
     data := concat (map (fun r => firstn ((hi - lo) * inner) (skipn (lo * inner) r))
                         (rows_of outer (dk * inner) (data x))) |}.

(** [torch.cat([a, b], dim=k)]. *)
Definition cat_axis (k : nat) (a b : Tensor A) : Tensor A :=
  let outer := prod_list (firstn k (shape a)) in
  let inner := prod_list (skipn (S k) (shape a)) in
  let da := nth k (shape a) 0 in
  let db := nth k (shape b) 0 in
  {| shape := replace_nth k (da + db) (shape a);
     data := concat (zip_with (@app A)
                       (rows_of outer (da * inner) (data a))
                       (rows_of outer (db * inner) (data b))) |}.

(** [torch.split(x, n, dim=0)]. *)
Definition split0 (n : nat) (x : Tensor A) : result (list (Tensor A)) :=
  let d0 := nth 0 (shape x) 0 in
  match n with
  | O => if Nat.eqb d0 0 then Ok [x]
         else Raise (RuntimeError "split_size can only be 0 if dimension size is 0")
  | _ => Ok (map (fun i => slice_axis 0 (i * n) (i * n + n) x) (seq 0 ((d0 + n - 1) / n)))
  end.

(** Element-wise operations on tensors of one shape. *)
Definition tensor_zip (f : A -> A -> A) (a b : Tensor A) : Tensor A :=
  {| shape := shape a; data := zip_with f (data a) (data b) |}.

Definition tensor_scale (s : A) (a : Tensor A) : Tensor A :=
  {| shape := shape a; data := map (s_mul s) (data a) |}.

(** Broadcasting, as torch does it for [x + p]: the shapes are aligned at
    their last axis and the shorter one is filled with 1 on the left; on
    each axis the two sizes agree or one of them is 1, and the axes of
    size 1 are repeated. *)
Definition pad_shape (r : nat) (sh : list nat) : list nat :=
  repeat 1 (r - length sh) ++ sh.

Fixpoint broadcast_shapes (a b : list nat) : option (list nat) :=
  match a, b with
  | [], [] => Some []
  | x :: a', y :: b' =>
      match broadcast_shapes a' b' with
      | Some sh =>
          if Nat.eqb x y then Some (x :: sh)
          else if Nat.eqb x 1 then Some (y :: sh)
          else if Nat.eqb y 1 then Some (x :: sh)
          else None
      | None => None
      end
  | _, _ => None
  end.

(** The data of a tensor of shape [sh] expanded to the shape [tg]. *)
Fixpoint expand (sh tg : list nat) (d : list A) : list A :=
  match sh, tg with
  | s :: sh', t :: tg' =>
      let rows := map (expand sh' tg') (rows_of s (prod_list sh') d) in
      if Nat.eqb s t then concat rows else concat (repeat (concat rows) t)
  | _, _ => d
  end.

Definition broadcast_add (x p : Tensor A) : result (Tensor A) :=
  let r := Nat.max (ndim x) (ndim p) in
  let sx := pad_shape r (shape x) in
  let sp := pad_shape r (shape p) in
  match broadcast_shapes sx sp with
  | Some sh =>
      Ok {| shape := sh;
            data := zip_with s_add (expand sx sh (data x)) (expand sp sh (data p)) |}
  | None => Raise (RuntimeError "The size of tensor a must match the size of tensor b")
  end.

(** [x + p], as in [x + self.pos_embed] and [x + self.temp_embed].  The
    case of the model is written out: [p] has the shape of [x] with a
    leading [1], and is added to each leading slice of [x]. *)
Definition add_broadcast0 (x p : Tensor A) : result (Tensor A) :=
  if shape_eqb (tl (shape x)) (tl (shape p))
     && Nat.eqb (ndim x) (ndim p)
     && Nat.eqb (nth 0 (shape p) 0) 1
  then
    Ok {| shape := shape x;
          data := concat (map (fun r => zip_with s_add r (data p))
                              (rows_of (nth 0 (shape x) 0) (prod_list (tl (shape x)))
                                 (data x))) |}
  else broadcast_add x p.

(** Views between the nested tensors of the layers and shaped tensors. *)
Definition nest2 (x : Tensor A) : list (list A) :=
  rows_of (nth 0 (shape x) 0) (nth 1 (shape x) 0) (data x).

Definition nest3 (x : Tensor A) : list (list (list A)) :=
  map (rows_of (nth 1 (shape x) 0) (nth 2 (shape x) 0))
      (rows_of (nth 0 (shape x) 0) (nth 1 (shape x) 0 * nth 2 (shape x) 0) (data x)).

Definition nest4 (x : Tensor A) : list (list (list (list A))) :=
  map (fun s => map (rows_of (nth 2 (shape x) 0) (nth 3 (shape x) 0))
                    (rows_of (nth 1 (shape x) 0) (nth 2 (shape x) 0 * nth 3 (shape x) 0) s))
      (rows_of (nth 0 (shape x) 0)
         (nth 1 (shape x) 0 * nth 2 (shape x) 0 * nth 3 (shape x) 0) (data x)).

Definition flat2 (sh : list nat) (m : list (list A)) : Tensor A :=
  {| shape := sh; data := concat m |}.

Definition flat3 (sh : list nat) (t : list (list (list A))) : Tensor A :=
  {| shape := sh; data := concat (concat t) |}.

(** einops, on a tensor viewed as [(a, p, q, inner)]: exchange the two
    middle axes. *)
Definition swap_middle (a p q inner : nat) (d : list A) : list A :=
  gather
    (flat_map (fun i =>
       flat_map (fun j =>
         flat_map (fun k =>
           map (fun l => ((i * p + k) * q + j) * inner + l) (seq 0 inner))
           (seq 0 p))
         (seq 0 q))
       (seq 0 a))
    d.

Definition einops_error : exn := RuntimeError "einops: shape mismatch".

(** einops finds the length of the other axis of a group with
    [length % known_product] and [length // known_product]: a group size
    of zero raises [ZeroDivisionError] there. *)

(** [rearrange(x, '(b t) n c -> (b n) t c', t=t)]. *)
Definition rearrange_bt_n_c (t : nat) (x : Tensor A) : result (Tensor A) :=
  match shape x with
  | [bt; n; c] =>
      if Nat.eqb t 0 then Raise ZeroDivisionError
      else if negb (Nat.eqb (bt mod t) 0) then Raise einops_error
      else Ok {| shape := [bt / t * n; t; c];
                 data := swap_middle (bt / t) t n c (data x) |}
  | _ => Raise einops_error
  end.

(** [rearrange(x, '(b n) t c -> b (t n) c', b=b)]. *)
Definition rearrange_bn_t_c (b : nat) (x : Tensor A) : result (Tensor A) :=
  match shape x with
  | [bn; t; c] =>
      if Nat.eqb b 0 then Raise ZeroDivisionError
      else if negb (Nat.eqb (bn mod b) 0) then Raise einops_error
      else Ok {| shape := [b; t * (bn / b); c];
                 data := swap_middle b (bn / b) t c (data x) |}
  | _ => Raise einops_error
  end.

(** [rearrange(x, 'b (t n) c -> (b t) n c', t=t)]. *)
Definition rearrange_b_tn_c (t : nat) (x : Tensor A) : result (Tensor A) :=
  match shape x with
  | [b; tn; c] =>
      if Nat.eqb t 0 then Raise ZeroDivisionError
      else if negb (Nat.eqb (tn mod t) 0) then Raise einops_error
      else Ok {| shape := [b * t; tn / t; c]; data := data x |}
  | _ => Raise einops_error
  end.

(** [repeat(c, 'b c -> (b t) c', t=t)]. *)
Definition repeat_b_c (t : nat) (x : Tensor A) : result (Tensor A) :=
  match shape x with
  | [b; c] =>
      Ok {| shape := [b * t; c];
            data := concat (flat_map (fun r => repeat r t) (rows_of b c (data x))) |}
  | _ => Raise einops_error
  end.

(** [rearrange(x, '(b t) c h w -> b t c h w', t=t)]. *)
Definition rearrange_bt_c_h_w (t : nat) (x : Tensor A) : result (Tensor A) :=
  match shape x with
  | [bt; c; h; w] =>
      if Nat.eqb t 0 then Raise ZeroDivisionError
      else if negb (Nat.eqb (bt mod t) 0) then Raise einops_error
      else Ok {| shape := [bt / t; t; c; h; w]; data := data x |}
  | _ => Raise einops_error
  end.

End FlatTensors.

(** ** The DiT model *)

Declare Scope dit_scope.
Delimit Scope dit_scope with dit.

Module DiT.

Section Model.

Context {A : Type} {SA : Scalar A}.

Local Abbreviation vec := (list A).
Local Abbreviation mat := (list (list A)).
Local Abbreviation t3 := (list (list (list A))).
Local Abbreviation t4 := (list (list (list (list A)))).
Local Abbreviation t5 := (list (list (list (list (list A))))).

(** Parameters of timm's [Mlp] and of the convolution of timm's
    [PatchEmbed]. *)
Variable Mlp : Type.
Variable Conv : Type.

(** What [DiT] reads of timm's [PatchEmbed]. *)
Record PatchEmbed : Type := {
  embed_patch_size : nat * nat;
  num_patches : nat;
  embed_proj : Conv
}.

(** [TimestepEmbedder] after [__init__], lines 148-155: the two linear
    layers of [mlp] (a SiLU in between). *)
Record TimestepEmbedderModule : Type := {
  mlp_0 : Linear A;
  mlp_2 : Linear A;
  frequency_embedding_size : nat
}.

(** The attributes of a [DiT] instance.  [t] is the attribute [self.t],
    which does not exist before the first call of [forward]; [training]
    is the mode flag of [nn.Module]. *)
Record module : Type := {
  gradient_checkpointing : bool;
  learn_sigma : bool;
  in_channels : nat;
  out_channels : nat;
  patch_size : nat;
  patch_size_t : nat;
  num_heads : nat;
  extras : nat;
  hidden_size : nat;
  x_embedder : PatchEmbed;
  t_embedder : TimestepEmbedderModule;
  y_embedder : option (LabelEmbedder.module vec);
  pos_embed : Tensor A;
  temp_embed : Tensor A;
  blocks : list (DiTBlock.module A Mlp);
  final_layer : FinalLayer.module A;
  training : bool;
  t : option nat
}.

(** The assignment [self.t = v]. *)
Definition with_t (v : option nat) (self : module) : module :=
  {| gradient_checkpointing := gradient_checkpointing self;
     learn_sigma := learn_sigma self;
     in_channels := in_channels self;
     out_channels := out_channels self;
     patch_size := patch_size self;
     patch_size_t := patch_size_t self;
     num_heads := num_heads self;
     extras := extras self;
     hidden_size := hidden_size self;
     x_embedder := x_embedder self;
     t_embedder := t_embedder self;
     y_embedder := y_embedder self;
     pos_embed := pos_embed self;
     temp_embed := temp_embed self;
     blocks := blocks self;
     final_layer := final_layer self;
     training := training self;
     t := v |}.

(** Methods run in a state-and-error monad over the instance. *)
Definition M (X : Type) : Type := module -> module * result X.

Definition ret {X : Type} (x : X) : M X := fun self => (self, Ok x).

Definition raise {X : Type} (e : exn) : M X := fun self => (self, Raise e).

Definition lift {X : Type} (r : result X) : M X := fun self => (self, r).

Definition bindM {X Y : Type} (m : M X) (k : X -> M Y) : M Y :=
  fun self =>
    match m self with
    | (self', Ok x) => k x self'
    | (self', Raise e) => (self', Raise e)
    end.

Notation "x <- m ;; k" := (bindM m (fun x => k))
  (at level 61, m at next level, right associativity) : dit_scope.

Definition get_self : M module := fun self => (self, Ok self).

Definition set_t (v : nat) : M unit := fun self => (with_t (Some v) self, Ok tt).

(** Reading [self.t]. *)
Definition read_t : M nat :=
  fun self =>
    match t self with
    | Some v => (self, Ok v)
    | None => (self, Raise (AttributeError "t"))
    end.

Variable softmax : vec -> vec.
Variable drop : Q -> vec -> vec.
Variable scaled_dot_product_attention :
  sdp_kernel -> t4 -> t4 -> t4 -> option t4 -> Q -> A -> result t4.
Variable rope : t5 -> t5.
Variable env : imports A.
Variable layer_norm : vec -> vec.
Variable silu : A -> A.
Variable mlp_forward : Mlp -> t3 -> t3.
(** The forward pass of timm's [PatchEmbed]; [torch.utils.checkpoint];
    the rounding of a float64 to the model's dtype; the draws of
    [torch.rand]. *)
Variable patch_embed : PatchEmbed -> Tensor A -> result (Tensor A).
Variable checkpoint :
  (Tensor A -> Tensor A -> option (Tensor A) -> result (Tensor A))
  -> Tensor A -> Tensor A -> option (Tensor A) -> result (Tensor A).
Variable of_real : R -> A.
Variable rand : nat -> list Q.

(** [torch.einsum('nhwpqc->nchpwq', x)]. *)
Definition einsum_nhwpqc_nchpwq (x : Tensor A) : Tensor A :=
  match shape x with
  | [n; h; w; p; q; c] =>
      {| shape := [n; c; h; p; w; q];
         data :=
           gather
             (flat_map (fun i_n =>
                flat_map (fun i_c =>
                  flat_map (fun i_h =>
                    flat_map (fun i_p =>
                      flat_map (fun i_w =>
                        map (fun i_q =>
                               ((((i_n * h + i_h) * w + i_w) * p + i_p) * q + i_q) * c + i_c)
                            (seq 0 q))
                        (seq 0 w))
                      (seq 0 p))
                    (seq 0 h))
                  (seq 0 c))
                (seq 0 n))
             (data x) |}
  | _ => x
  end.

(** [DiT.unpatchify], lines 356-369.  [int(L ** 0.5)] is the integer
    square root. *)
Definition unpatchify (self : module) (x : Tensor A) : result (Tensor A) :=
  let c := out_channels self in
  let p := fst (embed_patch_size (x_embedder self)) in
  match shape x with
  | n :: l :: _ =>
      let h := Nat.sqrt l in
      let w := h in
      if negb (Nat.eqb (h * w) l) then Raise AssertionError
      else
        (x <- reshape [n; h; w; p; p; c] x ;;
         let x := einsum_nhwpqc_nchpwq x in
         reshape [n; c; h * p; h * p] x)%result
  | _ => Raise IndexError
  end.

(** [DiT.make_mask], lines 377-381. *)
Definition make_mask (attention_mask : Tensor A) : Tensor A :=
  let bs := nth 0 (shape attention_mask) 0 in
  let thw := prod_list (tl (shape attention_mask)) in
  {| shape := [bs; 1; thw; thw];
     data := concat (map (fun r => flat_map (fun a => map (fun b => s_mul a b) r) r)
                         (rows_of bs thw (data attention_mask))) |}.

(** [TimestepEmbedder.forward], lines 178-181.  [self.mlp[0]] is an
    [nn.Linear(frequency_embedding_size, hidden_size)] (line 151): torch
    refuses a table of another width. *)
Definition t_embedder_forward (te : TimestepEmbedderModule) (t : list R) : result (Tensor A) :=
  (t_freq <- TimestepEmbedder.timestep_embedding t (frequency_embedding_size te) 10000 ;;
   if negb (Nat.eqb (TimestepEmbedder.embedding_width (frequency_embedding_size te))
                    (frequency_embedding_size te))
   then Raise (RuntimeError "mat1 and mat2 shapes cannot be multiplied")
   else
     let t_freq := map (map of_real) t_freq in
     let t_emb :=
       map (fun row => linear (mlp_2 te) (map silu (linear (mlp_0 te) row))) t_freq in
     Ok (flat2 [length t; out_features (mlp_2 te)] t_emb))%result.

(** One block applied to shaped tensors. *)
Definition block_call (block : DiTBlock.module A Mlp) (x c : Tensor A)
    (attention_mask : option (Tensor A)) : result (Tensor A) :=
  (r <- DiTBlock.forward softmax drop scaled_dot_product_attention rope env
          layer_norm silu mlp_forward block (nest3 x) (nest2 c)
          (option_map nest4 attention_mask) ;;
   Ok (flat3 (shape x) r))%result.

Definition final_layer_call (fl : FinalLayer.module A) (x c : Tensor A) : result (Tensor A) :=
  (r <- FinalLayer.forward layer_norm silu fl (nest3 x) (nest2 c) ;;
   Ok (flat3 [nth 0 (shape x) 0; nth 1 (shape x) 0;
              out_features (FinalLayer.linear_layer fl)] r))%result.

(** [DiT.forward] from line 394 on, for an input of shape
    [(B, T, C, H, W)].  The assignment to [self.t] is the only statement
    of [forward], and of the methods of dit.py it calls, that assigns an
    attribute; the calls into the sub-modules are lifted pure
    functions. *)
Definition forward_body (B T C H W : nat) (x : Tensor A) (t : list R) (y : list Z)
    (attention_mask : option (Tensor A)) : M (Tensor A) :=
  (self <- get_self ;;
   _ <- (if Nat.eqb (patch_size_t self) 0 then raise ZeroDivisionError
         else set_t (T / patch_size_t self)) ;;
   let attention_mask := option_map make_mask attention_mask in
   x <- lift (reshape [B * T; C; H; W] x) ;;
   self <- get_self ;;
   e <- lift (patch_embed (x_embedder self) x) ;;
   x <- lift (add_broadcast0 e (pos_embed self)) ;;
   self_t <- read_t ;;
   x <- lift (rearrange_bt_n_c self_t x) ;;
   self <- get_self ;;
   x <- lift (add_broadcast0 x (temp_embed self)) ;;
   x <- lift (rearrange_bn_t_c B x) ;;
   self <- get_self ;;
   t <- lift (t_embedder_forward (t_embedder self) t) ;;
   c <- (if Nat.eqb (extras self) 2 then
           match y_embedder self with
           | Some ye =>
               y <- lift (LabelEmbedder.forward rand ye y (training self) None) ;;
               ret (tensor_zip s_add t (flat2 (shape t) y))
           | None => raise (AttributeError "y_embedder")
           end
         else ret t) ;;
   x <- fold_left
          (fun acc block =>
             x <- acc ;;
             self <- get_self ;;
             if gradient_checkpointing self && training self
             then lift (checkpoint (block_call block) x c attention_mask)
             else lift (block_call block x c attention_mask))
          (blocks self) (ret x) ;;
   self_t <- read_t ;;
   x <- lift (rearrange_b_tn_c self_t x) ;;
   self_t <- read_t ;;
   c <- lift (repeat_b_c self_t c) ;;
   self <- get_self ;;
   x <- lift (final_layer_call (final_layer self) x c) ;;
   x <- lift (unpatchify self x) ;;
   self_t <- read_t ;;
   lift (rearrange_bt_c_h_w self_t x))%dit.

(** [DiT.forward], lines 383-424. *)
Definition forward (x : Tensor A) (t : list R) (y : list Z)
    (attention_mask : option (Tensor A)) : M (Tensor A) :=
  if Nat.eqb (ndim x) 4 then raise NotImplementedError
  else
    match shape x with
    | [B; T; C; H; W] => forward_body B T C H W x t y attention_mask
    | _ =>
        if Nat.ltb (ndim x) 5
        then raise (ValueError "not enough values to unpack (expected 5)")
        else raise (ValueError "too many values to unpack (expected 5)")
    end.

(** Lines 437-442 of [forward_with_cfg]: the guidance applied to the
    output of the model. *)
Definition cfg_combine (in_channels_ : nat) (cfg_scale : A) (model_out : Tensor A)
  : result (Tensor A) :=
  let eps := slice_axis 1 0 in_channels_ model_out in
  let rest := slice_axis 1 in_channels_ (nth 1 (shape model_out) 0) model_out in
  (parts <- split0 (nth 0 (shape eps) 0 / 2) eps ;;
   match parts with
   | [cond_eps; uncond_eps] =>
       let half_eps :=
         tensor_zip s_add uncond_eps
           (tensor_scale cfg_scale (tensor_zip s_sub cond_eps uncond_eps)) in
       let eps := cat_axis 0 half_eps half_eps in
       Ok (cat_axis 1 eps rest)
   | [] | [_] => Raise (ValueError "not enough values to unpack (expected 2)")
   | _ => Raise (ValueError "too many values to unpack (expected 2)")
   end)%result.

(** [DiT.forward_with_cfg], lines 426-442. *)
Definition forward_with_cfg (x : Tensor A) (t : list R) (y : list Z) (cfg_scale : A)
    (attention_mask : option (Tensor A)) : M (Tensor A) :=
  match shape x with
  | [] => raise (TypeError "len() of a 0-d tensor")
  | len :: _ =>
      let half := slice_axis 0 0 (len / 2) x in
      let combined := cat_axis 0 half half in
      (model_out <- forward combined t y attention_mask ;;
       self <- get_self ;;
       lift (cfg_combine (in_channels self) cfg_scale model_out))%dit
  end.

(** The guidance as the design document words it: the split is between
    the first [in_channels] feature channels (axis 2 of the
    [(B, T, C, H, W)] output) and the remaining channels. *)
Definition guidance_on_channels (in_channels_ : nat) (cfg_scale : A) (model_out : Tensor A)
  : result (Tensor A) :=
  let eps := slice_axis 2 0 in_channels_ model_out in
  let rest := slice_axis 2 in_channels_ (nth 2 (shape model_out) 0) model_out in
  (parts <- split0 (nth 0 (shape eps) 0 / 2) eps ;;
   match parts with
   | [cond_eps; uncond_eps] =>
       let half_eps :=
         tensor_zip s_add uncond_eps
           (tensor_scale cfg_scale (tensor_zip s_sub cond_eps uncond_eps)) in
       let eps := cat_axis 0 half_eps half_eps in
       Ok (cat_axis 2 eps rest)
   | [] | [_] => Raise (ValueError "not enough values to unpack (expected 2)")
   | _ => Raise (ValueError "too many values to unpack (expected 2)")
   end)%result.

(** Random draws of the initialisers, and the constructors and
    in-place initialisers of timm's modules. *)
Variable gen : nat -> nat -> A.
Variable xavier : nat -> nat -> A.
Variable normal : nat -> nat -> A.
Variable inv_sqrt : nat -> A.
Variable Mlp_init : nat -> nat -> Mlp.
Variable mlp_basic_init : Mlp -> Mlp.
Variable PatchEmbed_init : nat -> nat -> nat -> nat -> PatchEmbed.
Variable patch_embed_init : PatchEmbed -> PatchEmbed.

Definition zeros (sh : list nat) : Tensor A :=
  {| shape := sh; data := repeat s_zero (prod_list sh) |}.

(** [dest.data.copy_(src)] for the positional tables: the shapes agree,
    or [src] has a single row that is broadcast. *)
Definition copy_ (dest src : Tensor A) : result (Tensor A) :=
  if shape_eqb (shape src) (shape dest)
  then Ok {| shape := shape dest; data := data src |}
  else if shape_eqb (shape src) [1; 1; nth 2 (shape dest) 0]
          && Nat.eqb (length (shape dest)) 3 && Nat.eqb (nth 0 (shape dest) 0) 1
  then Ok {| shape := shape dest;
             data := concat (repeat (data src) (nth 1 (shape dest) 0)) |}
  else Raise (RuntimeError "The size of tensor a must match the size of tensor b").

Definition from_numpy (m : list (list R)) (cols : nat) : Tensor A :=
  {| shape := [1; length m; cols]; data := map of_real (concat m) |}.

(** [DiT.initialize_weights], lines 316-354.  [xavier_uniform_] computes
    [math.sqrt(2.0 / float(fan_in + fan_out))], so that [_basic_init]
    (line 323) raises [ZeroDivisionError] on a linear layer without inputs
    and outputs: [t_embedder.mlp[2]] is an
    [nn.Linear(hidden_size, hidden_size)] (line 153), and every other
    linear layer of the model has [hidden_size] inputs or outputs. *)
Definition initialize_weights (self : module) : result module :=
  if Nat.eqb (hidden_size self) 0 then Raise ZeroDivisionError
  else
  let te := t_embedder self in
  let te := {| mlp_0 := basic_init_linear xavier (mlp_0 te);
               mlp_2 := basic_init_linear xavier (mlp_2 te);
               frequency_embedding_size := frequency_embedding_size te |} in
  let hidden := nth 2 (shape (pos_embed self)) 0 in
  (pe <- SinCos.get_2d_sincos_pos_embed hidden (Nat.sqrt (num_patches (x_embedder self))) ;;
   pos <- copy_ (pos_embed self) (from_numpy pe hidden) ;;
   tmp <- SinCos.get_1d_sincos_temp_embed (nth 2 (shape (temp_embed self)) 0)
            (nth 1 (shape (temp_embed self)) 0) ;;
   temp <- copy_ (temp_embed self) (from_numpy tmp (nth 2 (shape (temp_embed self)) 0)) ;;
   ye <- (if Nat.eqb (extras self) 2 then
            match y_embedder self with
            | Some ye =>
                Ok (Some {| LabelEmbedder.embedding_table :=
                              fill_mat normal (LabelEmbedder.embedding_table ye);
                            LabelEmbedder.num_classes := LabelEmbedder.num_classes ye;
                            LabelEmbedder.dropout_prob := LabelEmbedder.dropout_prob ye |})
            | None => Raise (AttributeError "y_embedder")
            end
          else Ok (y_embedder self)) ;;
   let te := {| mlp_0 := {| weight := fill_mat normal (weight (mlp_0 te));
                            bias := bias (mlp_0 te) |};
                mlp_2 := {| weight := fill_mat normal (weight (mlp_2 te));
                            bias := bias (mlp_2 te) |};
                frequency_embedding_size := frequency_embedding_size te |} in
   Ok {| gradient_checkpointing := gradient_checkpointing self;
         learn_sigma := learn_sigma self;
         in_channels := in_channels self;
         out_channels := out_channels self;
         patch_size := patch_size self;
         patch_size_t := patch_size_t self;
         num_heads := num_heads self;
         extras := extras self;
         hidden_size := hidden_size self;
         x_embedder := patch_embed_init (x_embedder self);
         t_embedder := te;
         y_embedder := ye;
         pos_embed := pos;
         temp_embed := temp;
         blocks := map (DiTBlock.initialize_weights xavier mlp_basic_init) (blocks self);
         final_layer := FinalLayer.initialize_weights xavier (final_layer self);
         training := training self;
         t := t self |})%result.

(** [DiT.__init__], lines 266-314.  The arguments [pt_input_size] and
    [intp_vfreq] only select the rotary tables, which live in [rope]. *)
Definition init (input_size patch_size_ patch_size_t_ in_channels_ hidden_size_ depth
    num_heads_ : nat) (mlp_ratio : Q) (num_frames : nat) (class_dropout_prob : Q)
    (num_classes : Z) (learn_sigma_ : bool) (extras_ : nat)
    (attention_mode attention_pe_mode : string) : result module :=
  let x_emb := PatchEmbed_init input_size patch_size_ in_channels_ hidden_size_ in
  let out_channels_ := if learn_sigma_ then in_channels_ * 2 else in_channels_ in
  (bs <- mapM (fun _ => DiTBlock.init gen inv_sqrt Mlp_init hidden_size_ num_heads_
                          mlp_ratio attention_mode attention_pe_mode input_size)
              (seq 0 depth) ;;
   initialize_weights
     {| gradient_checkpointing := false;
        learn_sigma := learn_sigma_;
        in_channels := in_channels_;
        out_channels := out_channels_;
        patch_size := patch_size_;
        patch_size_t := patch_size_t_;
        num_heads := num_heads_;
        extras := extras_;
        hidden_size := hidden_size_;
        x_embedder := x_emb;
        t_embedder := {| mlp_0 := new_linear gen 256 hidden_size_ true;
                         mlp_2 := new_linear gen hidden_size_ hidden_size_ true;
                         frequency_embedding_size := 256 |};
        y_embedder := if Nat.eqb extras_ 2
                      then Some (LabelEmbedder.init num_classes class_dropout_prob
                                   (fun i => map (gen i) (seq 0 hidden_size_)))
                      else None;
        pos_embed := zeros [1; num_patches x_emb; hidden_size_];
        temp_embed := zeros [1; num_frames; hidden_size_];
        blocks := bs;
        final_layer := FinalLayer.init gen hidden_size_ patch_size_t_ patch_size_ out_channels_;
        training := true;
        t := None |})%result.

End Model.

End DiT.

(** ** Properties of the DiT model *)

Section DiTProperties.

Context {A : Type} {SA : Scalar A}.

Local Abbreviation vec := (list A).
Local Abbreviation t3 := (list (list (list A))).
Local Abbreviation t4 := (list (list (list (list A)))).
Local Abbreviation t5 := (list (list (list (list (list A))))).

Variable Mlp : Type.
Variable Conv : Type.
Variable softmax : vec -> vec.
Variable drop : Q -> vec -> vec.
Variable scaled_dot_product_attention :
  sdp_kernel -> t4 -> t4 -> t4 -> option t4 -> Q -> A -> result t4.
Variable rope : t5 -> t5.
Variable env : imports A.
Variable layer_norm : vec -> vec.
Variable silu : A -> A.
Variable mlp_forward : Mlp -> t3 -> t3.
Variable patch_embed : DiT.PatchEmbed Conv -> Tensor A -> result (Tensor A).
Variable checkpoint :
  (Tensor A -> Tensor A -> option (Tensor A) -> result (Tensor A))
  -> Tensor A -> Tensor A -> option (Tensor A) -> result (Tensor A).
Variable of_real : R -> A.
Variable rand : nat -> list Q.

Local Abbreviation dit := (DiT.module (A:=A) Mlp Conv).
Local Abbreviation forward :=
  (DiT.forward softmax drop scaled_dot_product_attention rope env layer_norm silu
     mlp_forward patch_embed checkpoint of_real rand).
Local Abbreviation forward_body :=
  (DiT.forward_body softmax drop scaled_dot_product_attention rope env layer_norm silu
     mlp_forward patch_embed checkpoint of_real rand).
Local Abbreviation forward_with_cfg :=
  (DiT.forward_with_cfg softmax drop scaled_dot_product_attention rope env layer_norm silu
     mlp_forward patch_embed checkpoint of_real rand).

Lemma reshape_ok (sh : list nat) (x : Tensor A) :
  prod_list sh = prod_list (shape x) ->
  reshape sh x = Ok {| shape := sh; data := data x |}.
Proof.
  intros E. unfold reshape. rewrite E, Nat.eqb_refl. reflexivity.
Qed.

(** C10. [unpatchify] on an input of shape [(N, L, p*p*out_channels)]
    succeeds only when [L] is a perfect square: for [L = h*h] it returns
    a tensor of shape [(N, out_channels, h*p, h*p)], and for every other
    [L] the assertion [h * w == x.shape[1]] fails. *)
Theorem unpatchify_square_grid_only (self : dit) (x : Tensor A) (N L : nat) :
  shape x = [N; L;
             fst (DiT.embed_patch_size (DiT.x_embedder self))
             * fst (DiT.embed_patch_size (DiT.x_embedder self))
             * DiT.out_channels self] ->
  (forall h, L = h * h ->
     exists imgs,
       DiT.unpatchify self x = Ok imgs
       /\ shape imgs = [N; DiT.out_channels self;
                        h * fst (DiT.embed_patch_size (DiT.x_embedder self));
                        h * fst (DiT.embed_patch_size (DiT.x_embedder self))])
  /\ ((forall h, L <> h * h) -> DiT.unpatchify self x = Raise AssertionError)
  /\ (forall imgs, DiT.unpatchify self x = Ok imgs ->
        exists h, L = h * h
          /\ shape imgs = [N; DiT.out_channels self;
                           h * fst (DiT.embed_patch_size (DiT.x_embedder self));
                           h * fst (DiT.embed_patch_size (DiT.x_embedder self))]).
Proof.
  intros Hs.
  set (p := fst (DiT.embed_patch_size (DiT.x_embedder self))) in *.
  set (c := DiT.out_channels self) in *.
  assert (Hsq : forall h, L = h * h ->
            DiT.unpatchify self x
            = Ok {| shape := [N; c; h * p; h * p];
                    data := data (DiT.einsum_nhwpqc_nchpwq
                                    {| shape := [N; h; h; p; p; c]; data := data x |}) |}).
  { intros h ->. unfold DiT.unpatchify. rewrite Hs. fold p c.
    rewrite Nat.sqrt_square, Nat.eqb_refl. cbn [negb].
    rewrite (reshape_ok [N; h; h; p; p; c] x)
      by (rewrite Hs; cbn [prod_list fold_right]; ring).
    cbn [bind]. rewrite reshape_ok; [reflexivity|].
    cbn [DiT.einsum_nhwpqc_nchpwq shape data prod_list fold_right]. ring. }
  assert (Hns : (forall h, L <> h * h) -> DiT.unpatchify self x = Raise AssertionError).
  { intros Hn. unfold DiT.unpatchify. rewrite Hs.
    destruct (Nat.eqb (Nat.sqrt L * Nat.sqrt L) L) eqn:E; [|reflexivity].
    apply Nat.eqb_eq in E. exfalso. apply (Hn (Nat.sqrt L)). now symmetry. }
  split; [|split].
  - intros h Hh. eexists. split; [apply Hsq, Hh | reflexivity].
  - exact Hns.
  - intros imgs Hok.
    destruct (Nat.eqb (Nat.sqrt L * Nat.sqrt L) L) eqn:E.
    + apply Nat.eqb_eq in E. exists (Nat.sqrt L). split; [now symmetry|].
      rewrite (Hsq (Nat.sqrt L)) in Hok by (now symmetry).
      injection Hok as <-. reflexivity.
    + exfalso. unfold DiT.unpatchify in Hok. rewrite Hs in Hok.
      cbv zeta in Hok. rewrite E in Hok. discriminate Hok.
Qed.

(** *** The state a call of [forward] leaves behind *)

Definition preserves {X : Type} (m : DiT.M (A:=A) Mlp Conv X) : Prop :=
  forall self, fst (m self) = self.

Lemma preserves_lift {X : Type} (r : result X) : preserves (DiT.lift r).
Proof. intros self. reflexivity. Qed.

Lemma preserves_ret {X : Type} (x : X) : preserves (DiT.ret x).
Proof. intros self. reflexivity. Qed.

Lemma preserves_raise {X : Type} (e : exn) : preserves (DiT.raise (X:=X) e).
Proof. intros self. reflexivity. Qed.

Lemma preserves_get_self : preserves (@DiT.get_self A Mlp Conv).
Proof. intros self. reflexivity. Qed.

Lemma preserves_read_t : preserves (@DiT.read_t A Mlp Conv).
Proof. intros self. unfold DiT.read_t. destruct (DiT.t self); reflexivity. Qed.

Lemma preserves_bindM {X Y : Type} (m : DiT.M Mlp Conv X) (k : X -> DiT.M Mlp Conv Y) :
  preserves m -> (forall x, preserves (k x)) -> preserves (DiT.bindM m k).
Proof.
  intros Hm Hk self. unfold DiT.bindM. specialize (Hm self).
  destruct (m self) as [self' [x|e]]; simpl in Hm; subst self'.
  - apply Hk.
  - reflexivity.
Qed.

Lemma preserves_fold_left {X Y : Type} (f : DiT.M Mlp Conv X -> Y -> DiT.M Mlp Conv X)
    (l : list Y) (m : DiT.M Mlp Conv X) :
  (forall acc y, preserves acc -> preserves (f acc y)) ->
  preserves m -> preserves (fold_left f l m).
Proof.
  intros Hf. revert m. induction l as [|y l IH]; intros m Hm; simpl; auto.
Qed.

Ltac preserves_step :=
  first
    [ apply preserves_lift
    | apply preserves_ret
    | apply preserves_raise
    | apply preserves_get_self
    | apply preserves_read_t
    | apply preserves_bindM; [| intros ?]
    | apply preserves_fold_left; [intros ? ? ?|]
    | assumption
    | match goal with
      | |- preserves (if ?b then _ else _) => destruct b
      | |- preserves (match ?o with Some _ => _ | None => _ end) => destruct o
      end ].

(** After [self.t] has been assigned, the rest of [forward] only reads
    the instance. *)
Lemma forward_body_state (self : dit) (B T C H W : nat) (x : Tensor A) (t : list R)
    (y : list Z) (attention_mask : option (Tensor A)) :
  fst (forward_body B T C H W x t y attention_mask self)
  = if Nat.eqb (DiT.patch_size_t self) 0 then self
    else DiT.with_t (Some (T / DiT.patch_size_t self)) self.
Proof.
  unfold DiT.forward_body.
  unfold DiT.bindM at 1. cbn [DiT.get_self].
  unfold DiT.bindM at 1.
  destruct (Nat.eqb (DiT.patch_size_t self) 0); [reflexivity|].
  cbn [DiT.set_t].
  match goal with |- fst (?m _) = _ => assert (Hp : preserves m) end.
  { repeat preserves_step. }
  apply Hp.
Qed.

Lemma forward_state (self : dit) (x : Tensor A) (t : list R) (y : list Z)
    (attention_mask : option (Tensor A)) :
  fst (forward x t y attention_mask self)
  = match shape x with
    | [B; T; C; H; W] =>
        if Nat.eqb (DiT.patch_size_t self) 0 then self
        else DiT.with_t (Some (T / DiT.patch_size_t self)) self
    | _ => self
    end.
Proof.
  unfold DiT.forward, ndim.
  destruct (shape x) as [|B [|T [|C [|H [|W [|? ?]]]]]]; try reflexivity.
  cbn [length Nat.eqb]. apply forward_body_state.
Qed.

Lemma with_t_same (self : dit) : DiT.with_t (DiT.t self) self = self.
Proof. destruct self; reflexivity. Qed.

Lemma with_t_idem (v : option nat) (self : dit) :
  DiT.with_t v (DiT.with_t v self) = DiT.with_t v self.
Proof. reflexivity. Qed.

(** C8. An input with fewer than five dimensions is rejected before
    anything is computed and before the instance is touched: the explicit
    guard raises [NotImplementedError] for a 4-D input, and for fewer
    dimensions the unpacking [B, T, C, H, W = x.shape] raises
    [ValueError].  A 5-D input passes both and the computation proceeds
    with the body of [forward]. *)
Theorem forward_rejects_fewer_than_five_dims (self : dit) (x : Tensor A) (t : list R)
    (y : list Z) (attention_mask : option (Tensor A)) :
  (ndim x < 5 ->
     forward x t y attention_mask self
     = (self, Raise (if Nat.eqb (ndim x) 4 then NotImplementedError
                     else ValueError "not enough values to unpack (expected 5)")))
  /\ (ndim x = 5 ->
       exists B T C H W,
         shape x = [B; T; C; H; W]
         /\ forward x t y attention_mask self
            = forward_body B T C H W x t y attention_mask self).
Proof.
  unfold DiT.forward, ndim. split.
  - intros Hlt.
    destruct (shape x) as [|B [|T [|C [|H [|W [|? ?]]]]]]; cbn [length] in *;
      try reflexivity; lia.
  - intros H5.
    destruct (shape x) as [|B [|T [|C [|H [|W [|? ?]]]]]]; cbn [length] in *;
      try discriminate H5.
    exists B, T, C, H, W. split; reflexivity.
Qed.

(** C2, as the code has it.  A call of [forward] writes exactly one
    attribute of the instance, [self.t]: for a 5-D input and a non-zero
    [patch_size_t] it becomes [T // patch_size_t], and in every other case
    nothing is written.  All other attributes (the positional tables and
    the learned parameters among them) are left as they were, and a second
    call on an input of the same shape leaves the whole state as the first
    call left it. *)
Theorem forward_writes_only_t (self : dit) (x : Tensor A) (t : list R) (y : list Z)
    (attention_mask : option (Tensor A)) :
  (exists v, fst (forward x t y attention_mask self) = DiT.with_t v self)
  /\ fst (forward x t y attention_mask self)
     = match shape x with
       | [B; T; C; H; W] =>
           if Nat.eqb (DiT.patch_size_t self) 0 then self
           else DiT.with_t (Some (T / DiT.patch_size_t self)) self
       | _ => self
       end
  /\ (forall (x' : Tensor A) (t' : list R) (y' : list Z) (mask' : option (Tensor A)),
        shape x' = shape x ->
        fst (forward x' t' y' mask' (fst (forward x t y attention_mask self)))
        = fst (forward x t y attention_mask self)).
Proof.
  split; [|split].
  - rewrite forward_state.
    destruct (shape x) as [|B [|T [|C [|H [|W [|? ?]]]]]];
      try (exists (DiT.t self); symmetry; apply with_t_same).
    destruct (Nat.eqb (DiT.patch_size_t self) 0).
    + exists (DiT.t self). symmetry. apply with_t_same.
    + eexists. reflexivity.
  - apply forward_state.
  - intros x' t' y' mask' Hs. rewrite (forward_state _ x'), Hs.
    rewrite forward_state.
    destruct (shape x) as [|B [|T [|C [|H [|W [|? ?]]]]]]; try reflexivity.
    destruct (Nat.eqb (DiT.patch_size_t self) 0) eqn:E; [now rewrite E|].
    cbn [DiT.with_t DiT.patch_size_t]. rewrite E. reflexivity.
Qed.

(** [forward_with_cfg] is [forward] on the doubled first half of the
    batch, followed by the guidance of [cfg_combine]. *)
Lemma forward_with_cfg_unfold (self : dit) (x : Tensor A) (t : list R) (y : list Z)
    (cfg_scale : A) (attention_mask : option (Tensor A)) (len : nat) (dims : list nat) :
  shape x = len :: dims ->
  forward_with_cfg x t y cfg_scale attention_mask self
  = match forward (cat_axis 0 (slice_axis 0 0 (len / 2) x) (slice_axis 0 0 (len / 2) x))
            t y attention_mask self with
    | (self', Ok model_out) =>
        (self', DiT.cfg_combine (DiT.in_channels self') cfg_scale model_out)
    | (self', Raise e) => (self', Raise e)
    end.
Proof.
  intros Hs. unfold DiT.forward_with_cfg. rewrite Hs. unfold DiT.bindM at 1.
  destruct (DiT.forward _ _ _ _ _ _ _ _ _ _ _ _ _ _ _ _ _) as [self' [out|e]];
    reflexivity.
Qed.

End DiTProperties.

(** *** A small model over the integers, to run the definitions *)

Definition tiny_dit : DiT.module (A:=Z) unit unit := {|
  DiT.gradient_checkpointing := false;
  DiT.learn_sigma := true;
  DiT.in_channels := 1;
  DiT.out_channels := 2;
  DiT.patch_size := 2;
  DiT.patch_size_t := 1;
  DiT.num_heads := 1;
  DiT.extras := 1;
  DiT.hidden_size := 2;
  DiT.x_embedder := {| DiT.embed_patch_size := (2, 2); DiT.num_patches := 4;
                       DiT.embed_proj := tt |};
  DiT.t_embedder := {| DiT.mlp_0 := {| weight := []; bias := None |};
                       DiT.mlp_2 := {| weight := []; bias := None |};
                       DiT.frequency_embedding_size := 0 |};
  DiT.y_embedder := None;
  DiT.pos_embed := {| shape := [1; 4; 2]; data := [0; 0; 0; 0; 0; 0; 0; 0]%Z |};
  DiT.temp_embed := {| shape := [1; 2; 2]; data := [0; 0; 0; 0]%Z |};
  DiT.blocks := [];
  DiT.final_layer := {| FinalLayer.linear_layer := {| weight := []; bias := None |};
                        FinalLayer.adaLN_modulation := {| weight := []; bias := None |} |};
  DiT.training := false;
  DiT.t := None
|}.

Definition tiny_forward :=
  DiT.forward (A:=Z) (Mlp:=unit) (Conv:=unit)
    (fun r => r) (fun _ r => r) no_fused_kernel rope_identity no_imports
    (fun r => r) (fun a => a) (fun _ x => x) (fun _ x => Ok x) (fun f => f)
    (fun _ => 0%Z) half_draws.

(** A batch of one video of two 4x4 single-channel frames, and a 4-D
    batch of images. *)
Definition tiny_video : Tensor Z :=
  {| shape := [1; 2; 1; 4; 4]; data := repeat 1%Z 32 |}.

Definition tiny_images : Tensor Z :=
  {| shape := [1; 1; 4; 4]; data := repeat 1%Z 16 |}.

Definition tiny_patches : Tensor Z :=
  {| shape := [1; 4; 8]; data := map Z.of_nat (seq 0 32) |}.

Example unpatchify_tiny :
  DiT.unpatchify tiny_dit tiny_patches
  = Ok {| shape := [1; 2; 4; 4];
          data := [0; 2; 8; 10; 4; 6; 12; 14; 16; 18; 24; 26; 20; 22; 28; 30;
                   1; 3; 9; 11; 5; 7; 13; 15; 17; 19; 25; 27; 21; 23; 29; 31]%Z |}.
Proof. vm_compute. reflexivity. Qed.

Lemma unpatchify_square_grid_only_witness :
  exists imgs,
    DiT.unpatchify tiny_dit tiny_patches = Ok imgs /\ shape imgs = [1; 2; 4; 4].
Proof.
  destruct (unpatchify_square_grid_only tiny_dit tiny_patches (N:=1) (L:=4) eq_refl)
    as [H _].
  exact (H 2 eq_refl).
Defined.

Lemma forward_rejects_fewer_than_five_dims_witness :
  tiny_forward tiny_images [] [] None tiny_dit = (tiny_dit, Raise NotImplementedError)
  /\ tiny_forward tiny_patches [] [] None tiny_dit
     = (tiny_dit, Raise (ValueError "not enough values to unpack (expected 5)")).
Proof.
  split.
  - refine (proj1 (forward_rejects_fewer_than_five_dims _ _ _ _ _ _ _ _ _ _ _ _
                     tiny_dit tiny_images [] [] None) _).
    unfold ndim, tiny_images. simpl. lia.
  - refine (proj1 (forward_rejects_fewer_than_five_dims _ _ _ _ _ _ _ _ _ _ _ _
                     tiny_dit tiny_patches [] [] None) _).
    unfold ndim, tiny_patches. simpl. lia.
Defined.

Lemma forward_writes_only_t_witness :
  fst (tiny_forward tiny_video [] [] None
         (fst (tiny_forward tiny_video [] [] None tiny_dit)))
  = fst (tiny_forward tiny_video [] [] None tiny_dit).
Proof.
  refine (proj2 (proj2 (forward_writes_only_t _ _ _ _ _ _ _ _ _ _ _ _
                          tiny_dit tiny_video [] [] None)) tiny_video [] [] None _).
  reflexivity.
Defined.

(** *** Classifier-free guidance *)

(** The output of a model with [in_channels = 1] and [learn_sigma] on a
    doubled batch: two samples of two frames, two channels, one pixel.
    Sample 0 (conditional): frame 0 = (1, 10), frame 1 = (5, 20);
    sample 1 (unconditional): frame 0 = (3, 12), frame 1 = (7, 20). *)
Definition sample_model_out : Tensor Z :=
  {| shape := [2; 2; 2; 1; 1]; data := [1; 10; 5; 20; 3; 12; 7; 20]%Z |}.

(** C1 (the code departs from the design document).  With [cfg_scale = 2] the code
    guides the first [in_channels] entries of axis 1, which in the
    [(B, T, C, H, W)] output of [forward] is the frame axis: frame 0 is
    blended in both of its channels (the learned-variance channel
    becomes 8, neither raw value), and frame 1 is left raw in both
    channels (the noise channel stays 5 and 7 instead of the guided 3).
    Guidance on the first [in_channels] feature channels would give
    (-1, 10), (3, 20) and (-1, 12), (3, 20). *)
Theorem cfg_combine_guides_frames_not_channels :
  DiT.cfg_combine 1 2%Z sample_model_out
  = Ok {| shape := [2; 2; 2; 1; 1]; data := [-1; 8; 5; 20; -1; 8; 7; 20]%Z |}
  /\ DiT.guidance_on_channels 1 2%Z sample_model_out
     = Ok {| shape := [2; 2; 2; 1; 1]; data := [-1; 10; 3; 20; -1; 12; 3; 20]%Z |}
  /\ DiT.cfg_combine 1 2%Z sample_model_out
     <> DiT.guidance_on_channels 1 2%Z sample_model_out.
Proof.
  split; [vm_compute; reflexivity|].
  split; [vm_compute; reflexivity|].
  vm_compute. intros H. discriminate H.
Qed.

(** ** Properties of the conditioned block *)

Lemma firstn_repeat_le {X : Type} (a : X) (n k : nat) :
  k <= n -> firstn k (repeat a n) = repeat a k.
Proof.
  revert n; induction k as [|k IH]; intros [|n] H; simpl; try reflexivity; try lia.
  rewrite IH by lia. reflexivity.
Qed.

Lemma skipn_repeat_sub {X : Type} (a : X) (n k : nat) :
  skipn k (repeat a n) = repeat a (n - k).
Proof.
  revert n; induction k as [|k IH]; intros [|n]; simpl; try reflexivity.
  apply IH.
Qed.

Section BlockArithmetic.

Context {A : Type} {SA : Scalar A} {L : ScalarLaws A}.

Local Abbreviation vec := (list A).
Local Abbreviation mat := (list (list A)).
Local Abbreviation t3 := (list (list (list A))).

(** Two tensors of rank 3 have the same shape. *)
Definition same_shape3 (a b : t3) : Prop :=
  map (map (@length A)) a = map (map (@length A)) b.

Lemma dot_zero_row {X : Type} (v : vec) (w : list X) :
  dot v (map (fun _ => s_zero) w) = s_zero.
Proof.
  unfold dot. generalize (s_zero (A:=A)) at 2 3 as acc.
  revert w; induction v as [|a v IH]; intros [|b w] acc; simpl; try reflexivity.
  rewrite s_mul_zero_r, s_add_zero_r. apply IH.
Qed.

Lemma zip_add_zero_maps {X Y : Type} (a : list X) (b : list Y) :
  zip_with s_add (map (fun _ => s_zero (A:=A)) a) (map (fun _ => s_zero (A:=A)) b)
  = repeat s_zero (Nat.min (length a) (length b)).
Proof.
  revert b; induction a as [|x a IH]; intros [|y b]; simpl; try reflexivity.
  rewrite s_add_zero_r, IH. reflexivity.
Qed.

(** A zeroed linear layer with a bias sends every token to zero. *)
Lemma linear_constant_zero (l : Linear A) (b : vec) (v : vec) :
  bias l = Some b -> length b = length (weight l) ->
  linear (constant_zero_linear l) v = repeat s_zero (length (weight l)).
Proof.
  intros Hb Hlen. unfold linear, constant_zero_linear, constant_zero_mat.
  cbn [weight bias]. rewrite Hb. cbn [option_map].
  rewrite map_map.
  rewrite (map_ext (fun w : vec => dot v (map (fun _ => s_zero) w)) (fun _ => s_zero))
    by (intros; apply dot_zero_row).
  rewrite zip_add_zero_maps, Hlen, Nat.min_id. reflexivity.
Qed.

Lemma zip_mul_zero_l (n : nat) (r : vec) :
  length r <= n -> zip_with s_mul (repeat s_zero n) r = repeat s_zero (length r).
Proof.
  revert n; induction r as [|a r IH]; intros [|n] H; simpl in *; try reflexivity; try lia.
  rewrite s_mul_zero_l, IH by lia. reflexivity.
Qed.

Lemma gated_row_vanishes (h : nat) (r ra : vec) :
  length ra = length r -> length r <= h ->
  zip_with s_add r (zip_with s_mul (repeat s_zero h) ra) = r.
Proof.
  intros Hl Hh. rewrite zip_mul_zero_l by lia.
  apply zip_with_repeat_r; [intros; apply s_add_zero_r | lia].
Qed.

Lemma gated_sample_vanishes (h : nat) (s sa : mat) :
  map (@length A) sa = map (@length A) s ->
  Forall (fun row => length row = h) s ->
  zip_with (zip_with s_add) s (map (fun row => zip_with s_mul (repeat s_zero h) row) sa) = s.
Proof.
  revert sa; induction s as [|r s IH]; intros [|ra sa] Hm Hf; simpl in *;
    try reflexivity; try discriminate.
  injection Hm as Hr Hm. inversion Hf; subst.
  rewrite gated_row_vanishes by (auto; lia). rewrite IH by assumption. reflexivity.
Qed.

(** A zero gate removes the residual branch. *)
Lemma zero_gate_vanishes (h : nat) (x a : t3) (c : mat) :
  same_shape3 a x -> length c = length x ->
  Forall (Forall (fun row => length row = h)) x ->
  add3 x (gate_mul (map (fun _ => repeat s_zero h) c) a) = x.
Proof.
  unfold same_shape3, add3, gate_mul.
  revert a c; induction x as [|s x IH]; intros [|sa a] [|cr c] Hs Hc Hf; simpl in *;
    try reflexivity; try discriminate.
  injection Hs as Hs0 Hs. inversion Hf; subst.
  rewrite gated_sample_vanishes by assumption.
  rewrite IH; auto.
Qed.

Lemma modulate_zero_shape (layer_norm : vec -> vec) (h : nat) (x : t3) (c : mat) :
  (forall r, length (layer_norm r) = length r) ->
  length c = length x ->
  Forall (Forall (fun row => length row = h)) x ->
  same_shape3
    (modulate (map (map layer_norm) x)
       (map (fun _ => repeat s_zero h) c) (map (fun _ => repeat s_zero h) c))
    x.
Proof.
  intros Hn. unfold same_shape3, modulate.
  revert c; induction x as [|s x IH]; intros [|cr c] Hc Hf; simpl in *;
    try reflexivity; try discriminate.
  inversion Hf as [|? ? Hs Hx]; subst. f_equal.
  - rewrite !map_map. apply map_ext_in. intros row Hin.
    rewrite Forall_forall in Hs. specialize (Hs row Hin).
    rewrite !zip_with_length, length_map, !repeat_length, Hn. lia.
  - apply IH; auto.
Qed.

Lemma same_shape3_trans (a b c : t3) :
  same_shape3 a b -> same_shape3 b c -> same_shape3 a c.
Proof. unfold same_shape3. congruence. Qed.

Lemma torch_chunk_nonzero (n D : nat) (m : mat) :
  D <> 0 ->
  torch_chunk n D m
  = map (fun j => map (fun row => firstn ((D + n - 1) / n)
                                   (skipn (j * ((D + n - 1) / n)) row)) m)
        (seq 0 ((D + (D + n - 1) / n - 1) / ((D + n - 1) / n))).
Proof.
  intros HD. unfold torch_chunk. destruct D; [contradiction | reflexivity].
Qed.

(** The six chunks of a zero row of width [6 * h] are zero rows of width
    [h]. *)
Lemma torch_chunk_six_zero (h : nat) (c : mat) :
  torch_chunk 6 (6 * h) (map (fun _ => repeat (s_zero (A:=A)) (6 * h)) c)
  = repeat (map (fun _ => repeat s_zero h) c) 6.
Proof.
  destruct (Nat.eq_dec h 0) as [->|Hh].
  - simpl. rewrite map_map. reflexivity.
  - assert (Hsize : (6 * h + 6 - 1) / 6 = h).
    { symmetry. apply (Nat.div_unique _ 6 h 5); lia. }
    assert (Hcount : (6 * h + h - 1) / h = 6).
    { symmetry. apply (Nat.div_unique _ h 6 (h - 1)); lia. }
    rewrite torch_chunk_nonzero by lia.
    rewrite Hsize, Hcount. cbn [seq map repeat].
    assert (Hp : forall j, j <= 5 ->
              map (fun row : vec => firstn h (skipn (j * h) row))
                  (map (fun _ : vec => repeat (s_zero (A:=A)) (6 * h)) c)
              = map (fun _ => repeat s_zero h) c).
    { intros j Hj. rewrite map_map. apply map_ext. intros _.
      rewrite skipn_repeat_sub, firstn_repeat_le by nia. reflexivity. }
    rewrite !Hp by lia. reflexivity.
Qed.

End BlockArithmetic.

Lemma mapM_in {X Y : Type} (f : X -> result Y) (l : list X) (ys : list Y) :
  mapM f l = Ok ys -> forall y, In y ys -> exists x, In x l /\ f x = Ok y.
Proof.
  revert ys; induction l as [|x l IH]; intros ys H y Hy; simpl in H.
  - injection H as <-. destruct Hy.
  - destruct (f x) as [y0|] eqn:Ef; [|discriminate H]. simpl in H.
    destruct (mapM f l) as [ys0|]; [|discriminate H]. simpl in H.
    injection H as <-. destruct Hy as [<-|Hy].
    + exists x. split; [left; reflexivity | exact Ef].
    + destruct (IH ys0 eq_refl y Hy) as [x' [Hin Hx']].
      exists x'. split; [right; exact Hin | exact Hx'].
Qed.

Section FreshModel.

Context {A : Type} {SA : Scalar A} {L : ScalarLaws A}.

Local Abbreviation vec := (list A).
Local Abbreviation mat := (list (list A)).
Local Abbreviation t3 := (list (list (list A))).
Local Abbreviation t4 := (list (list (list (list A)))).
Local Abbreviation t5 := (list (list (list (list (list A))))).

Variable Mlp : Type.
Variable Conv : Type.
Variable softmax : vec -> vec.
Variable drop : Q -> vec -> vec.
Variable scaled_dot_product_attention :
  sdp_kernel -> t4 -> t4 -> t4 -> option t4 -> Q -> A -> result t4.
Variable rope : t5 -> t5.
Variable env : imports A.
Variable layer_norm : vec -> vec.
Variable silu : A -> A.
Variable mlp_forward : Mlp -> t3 -> t3.
Variable of_real : R -> A.
Variable gen : nat -> nat -> A.
Variable xavier : nat -> nat -> A.
Variable normal : nat -> nat -> A.
Variable inv_sqrt : nat -> A.
Variable Mlp_init : nat -> nat -> Mlp.
Variable mlp_basic_init : Mlp -> Mlp.
Variable PatchEmbed_init : nat -> nat -> nat -> nat -> DiT.PatchEmbed Conv.
Variable patch_embed_init : DiT.PatchEmbed Conv -> DiT.PatchEmbed Conv.

(** The constructor arguments. *)
Variable input_size patch_size patch_size_t in_channels hidden_size depth num_heads : nat.
Variable mlp_ratio : Q.
Variable num_frames : nat.
Variable class_dropout_prob : Q.
Variable num_classes : Z.
Variable learn_sigma : bool.
Variable extras : nat.
Variable attention_mode attention_pe_mode : string.

Local Abbreviation new_model :=
  (DiT.init of_real gen xavier normal inv_sqrt Mlp_init mlp_basic_init PatchEmbed_init
     patch_embed_init input_size patch_size patch_size_t in_channels hidden_size depth
     num_heads mlp_ratio num_frames class_dropout_prob num_classes learn_sigma extras
     attention_mode attention_pe_mode).

(** Every block of a constructed model is a constructed block on which
    [initialize_weights] has run. *)
Lemma new_model_blocks (m : DiT.module Mlp Conv) (b : DiTBlock.module A Mlp) :
  new_model = Ok m -> In b (DiT.blocks m) ->
  exists b0,
    DiTBlock.init gen inv_sqrt Mlp_init hidden_size num_heads mlp_ratio
      attention_mode attention_pe_mode input_size = Ok b0
    /\ b = DiTBlock.initialize_weights xavier mlp_basic_init b0.
Proof.
  unfold DiT.init. intros Hm Hb.
  destruct (mapM _ (seq 0 depth)) as [bs|] eqn:Ebs; [|discriminate Hm].
  cbn [bind] in Hm. unfold DiT.initialize_weights in Hm. cbv zeta in Hm.
  cbn [DiT.x_embedder DiT.pos_embed DiT.temp_embed DiT.extras DiT.y_embedder
       DiT.blocks DiT.t_embedder DiT.hidden_size] in Hm.
  destruct (Nat.eqb hidden_size 0); [discriminate Hm|].
  destruct (SinCos.get_2d_sincos_pos_embed _ _); [|discriminate Hm]. cbn [bind] in Hm.
  destruct (DiT.copy_ _ _); [|discriminate Hm]. cbn [bind] in Hm.
  destruct (SinCos.get_1d_sincos_temp_embed _ _); [|discriminate Hm]. cbn [bind] in Hm.
  destruct (DiT.copy_ _ _); [|discriminate Hm]. cbn [bind] in Hm.
  match type of Hm with
  | bind ?ye _ = _ => destruct ye; [|discriminate Hm]
  end.
  cbn [bind] in Hm. injection Hm as <-. cbn [DiT.blocks] in Hb.
  apply in_map_iff in Hb. destruct Hb as [b0 [<- Hin]].
  destruct (mapM_in _ _ Ebs b0 Hin) as [i [_ Hi]].
  exists b0. split; [exact Hi | reflexivity].
Qed.

(** In such a block the modulation layer sends every conditioning vector
    to the zero vector of width [6 * hidden_size]. *)
Lemma fresh_block_modulation (b0 : DiTBlock.module A Mlp) (v : vec) :
  DiTBlock.init gen inv_sqrt Mlp_init hidden_size num_heads mlp_ratio
    attention_mode attention_pe_mode input_size = Ok b0 ->
  out_features (DiTBlock.adaLN_modulation
                  (DiTBlock.initialize_weights xavier mlp_basic_init b0))
  = 6 * hidden_size
  /\ linear (DiTBlock.adaLN_modulation
               (DiTBlock.initialize_weights xavier mlp_basic_init b0)) v
     = repeat s_zero (6 * hidden_size).
Proof.
  unfold DiTBlock.init. intros H0.
  destruct (Attention_init _ _ _ _ _ _ _) as [a|]; [|discriminate H0].
  cbn [bind] in H0. injection H0 as <-.
  cbn [DiTBlock.initialize_weights DiTBlock.adaLN_modulation].
  set (l := basic_init_linear xavier (new_linear gen hidden_size (6 * hidden_size) true)).
  assert (Hw : length (weight l) = 6 * hidden_size).
  { unfold l, basic_init_linear, fill_mat, new_linear. cbn [weight].
    now rewrite !length_map, !length_seq. }
  split.
  - unfold out_features, constant_zero_linear, constant_zero_mat. cbn [weight].
    now rewrite length_map.
  - rewrite <- Hw.
    apply linear_constant_zero
      with (b := map (fun _ => s_zero)
                   (map (fun i => gen i hidden_size) (seq 0 (6 * hidden_size)))).
    + reflexivity.
    + now rewrite Hw, !length_map, length_seq.
Qed.

End FreshModel.

(** A one-block model over the integers: one 1x1 patch, hidden size 4,
    the math backend. *)
Definition tiny_new_model : result (DiT.module (A:=Z) unit unit) :=
  DiT.init (fun _ => 0%Z) (fun i j => Z.of_nat (i + j)) (fun _ _ => 1%Z) (fun _ _ => 2%Z)
    (fun _ => 1%Z) (fun _ _ => tt) (fun u => u)
    (fun input_size patch_size _ _ =>
       {| DiT.embed_patch_size := (patch_size, patch_size);
          DiT.num_patches := (input_size / patch_size) * (input_size / patch_size);
          DiT.embed_proj := tt |})
    (fun pe => pe)
    1 1 1 1 4 1 1 4%Q 1 (1 # 10)%Q 10%Z true 1 "math" "2d_rope".

Definition tiny_tokens : list (list (list Z)) := [[[1; 2; 3; 4]]]%Z.

Definition tiny_condition : list (list Z) := [[5; 6; 7; 8]]%Z.

(** A call on a freshly constructed model.  C2 as it stands (no attribute
    is written) fails on the first call with a 5-D input: [self.t] did
    not exist before the call and is 1 after it. *)
Definition one_frame : Tensor Z := {| shape := [1; 1; 1; 1; 1]; data := [1%Z] |}.

Lemma forward_writes_self_t :
  exists m,
    tiny_new_model = Ok m
    /\ DiT.t m = None
    /\ DiT.t (fst (tiny_forward one_frame [1%R] [] None m)) = Some 1
    /\ fst (tiny_forward one_frame [1%R] [] None m) <> m.
Proof.
  assert (Hm : exists m, tiny_new_model = Ok m /\ DiT.t m = None
                         /\ DiT.patch_size_t m = 1).
  { unfold tiny_new_model. eexists. repeat split; reflexivity. }
  destruct Hm as [m [Hm [Ht Hp]]]. exists m.
  assert (Hs : fst (tiny_forward one_frame [1%R] [] None m) = DiT.with_t (Some 1) m).
  { unfold tiny_forward. rewrite forward_state. cbn [shape one_frame].
    rewrite Hp. reflexivity. }
  rewrite Hs. repeat split; try assumption.
  intros H. apply (f_equal (@DiT.t Z unit unit)) in H. cbn [DiT.with_t DiT.t] in H.
  rewrite Ht in H. discriminate H.
Qed.

(** * Further properties of the module *)

(** ** The positional tables *)

Lemma get_1d_sincos_even (embed_dim : nat) (pos : list R) :
  embed_dim mod 2 = 0 ->
  SinCos.get_1d_sincos_pos_embed_from_grid embed_dim pos
  = Ok (SinCos.sincos_1d embed_dim pos).
Proof.
  intros Hm. unfold SinCos.get_1d_sincos_pos_embed_from_grid.
  rewrite Hm. cbn [Nat.eqb negb]. f_equal.
  rewrite !map_map, zip_with_app_map.
  unfold SinCos.sincos_1d. apply map_ext. intros p.
  unfold SinCos.sincos_1d_row. rewrite !map_map.
  f_equal; apply map_ext_in; intros i Hi; apply in_seq in Hi;
    f_equal; apply sincos_angle_code; lia.
Qed.

Lemma get_1d_sincos_odd (embed_dim : nat) (pos : list R) :
  embed_dim mod 2 <> 0 ->
  SinCos.get_1d_sincos_pos_embed_from_grid embed_dim pos = Raise AssertionError.
Proof.
  intros Hm. unfold SinCos.get_1d_sincos_pos_embed_from_grid.
  apply Nat.eqb_neq in Hm. rewrite Hm. reflexivity.
Qed.

Lemma zip_with_flat_map_grid {U V X Y : Type} (f : V -> Y) (g : U -> Y) (h : Y -> Y -> X)
    (rows : list U) (cols : list V) :
  zip_with h
    (map f (flat_map (fun _ => cols) rows))
    (map g (flat_map (fun i => map (fun _ => i) cols) rows))
  = flat_map (fun i => map (fun j => h (f j) (g i)) cols) rows.
Proof.
  induction rows as [|i rows IH]; simpl; [reflexivity|].
  rewrite !map_app. rewrite <- IH. clear IH.
  set (ta := map f (flat_map (fun _ => cols) rows)).
  set (tb := map g (flat_map (fun i0 => map (fun _ => i0) cols) rows)).
  clearbody ta tb.
  induction cols as [|j cols IHc]; simpl; [reflexivity|].
  rewrite IHc. reflexivity.
Qed.

Lemma flat_map_map {X Y Z : Type} (f : X -> Y) (g : Y -> list Z) (l : list X) :
  flat_map g (map f l) = flat_map (fun x => g (f x)) l.
Proof.
  induction l as [|x l IH]; simpl; [reflexivity | now rewrite IH].
Qed.

Lemma flat_map_length_const {X Y : Type} (f : X -> list Y) (l : list X) (k : nat) :
  (forall x, In x l -> length (f x) = k) -> length (flat_map f l) = length l * k.
Proof.
  intros Hf. induction l as [|x l IH]; simpl; [reflexivity|].
  rewrite length_app. rewrite Hf by (left; reflexivity).
  rewrite IH; [reflexivity|]. intros; apply Hf; right; assumption.
Qed.

Lemma mod4_halves (n : nat) :
  n mod 4 = 0 <-> n mod 2 = 0 /\ (n / 2) mod 2 = 0.
Proof.
  pose proof (Nat.div_mod_eq n 4). pose proof (Nat.mod_upper_bound n 4).
  pose proof (Nat.div_mod_eq n 2). pose proof (Nat.mod_upper_bound n 2).
  pose proof (Nat.div_mod_eq (n / 2) 2). pose proof (Nat.mod_upper_bound (n / 2) 2).
  lia.
Qed.

(** X1. The 2-D table needs an embedding width that is a multiple of 4
    (each half is itself split into a sine and a cosine half): for such a
    width the call returns [g * g] rows of that width, the row of grid
    cell [(i, j)] being the 1-D embedding of the column index [j]
    followed by the 1-D embedding of the row index [i]; for every other
    width one of the two assertions fails. *)
Theorem get_2d_sincos_pos_embed_layout (embed_dim grid_size : nat) :
  if Nat.eqb (embed_dim mod 4) 0
  then
    exists emb,
      SinCos.get_2d_sincos_pos_embed embed_dim grid_size = Ok emb
      /\ emb = flat_map
                 (fun i => map (fun j => SinCos.sincos_1d_row (embed_dim / 2) (INR j)
                                         ++ SinCos.sincos_1d_row (embed_dim / 2) (INR i))
                               (seq 0 grid_size))
                 (seq 0 grid_size)
      /\ length emb = grid_size * grid_size
      /\ Forall (fun row => length row = embed_dim) emb
  else SinCos.get_2d_sincos_pos_embed embed_dim grid_size = Raise AssertionError.
Proof.
  destruct (Nat.eqb (embed_dim mod 4) 0) eqn:E.
  - apply Nat.eqb_eq in E. apply mod4_halves in E. destruct E as [E2 E4].
    assert (Hv : SinCos.get_2d_sincos_pos_embed embed_dim grid_size
                 = Ok (flat_map
                         (fun i => map (fun j =>
                                          SinCos.sincos_1d_row (embed_dim / 2) (INR j)
                                          ++ SinCos.sincos_1d_row (embed_dim / 2) (INR i))
                                       (seq 0 grid_size))
                         (seq 0 grid_size))).
    { unfold SinCos.get_2d_sincos_pos_embed, SinCos.get_2d_sincos_pos_embed_from_grid.
      rewrite E2. cbn [Nat.eqb negb fst snd].
      rewrite !get_1d_sincos_even by assumption. cbn [bind]. f_equal.
      unfold SinCos.sincos_1d. rewrite zip_with_flat_map_grid.
      rewrite flat_map_map. apply flat_map_ext. intros i.
      rewrite map_map. reflexivity. }
    eexists. split; [exact Hv|]. split; [reflexivity|]. split.
    + rewrite flat_map_length_const with (k := grid_size).
      * now rewrite length_seq.
      * intros i _. now rewrite length_map, length_seq.
    + apply Forall_forall. intros row Hin. apply in_flat_map in Hin.
      destruct Hin as [i [_ Hin]]. apply in_map_iff in Hin. destruct Hin as [j [<- _]].
      rewrite length_app, !sincos_1d_row_length by assumption.
      exact (even_half_double _ E2).
  - apply Nat.eqb_neq in E.
    unfold SinCos.get_2d_sincos_pos_embed, SinCos.get_2d_sincos_pos_embed_from_grid.
    destruct (Nat.eqb (embed_dim mod 2) 0) eqn:E2; [|reflexivity].
    apply Nat.eqb_eq in E2. cbn [negb fst snd].
    assert (E4 : (embed_dim / 2) mod 2 <> 0).
    { intros H. apply E. apply mod4_halves. split; assumption. }
    rewrite get_1d_sincos_odd by assumption. reflexivity.
Qed.

Lemma map_const_repeat {X Y : Type} (c : Y) (l : list X) :
  map (fun _ => c) l = repeat c (length l).
Proof.
  induction l as [|x l IH]; simpl; [reflexivity | now rewrite IH].
Qed.

Lemma sincos_row_at_zero (dim : nat) :
  SinCos.sincos_1d_row dim 0%R = repeat 0%R (dim / 2) ++ repeat 1%R (dim / 2).
Proof.
  unfold SinCos.sincos_1d_row, SinCos.sincos_angle.
  rewrite (map_ext (fun i => sin (0 / Rpower 10000 (2 * INR i / INR dim))%R) (fun _ => 0%R)).
  2:{ intros i. replace (0 / Rpower 10000 (2 * INR i / INR dim))%R with 0%R
        by (unfold Rdiv; ring). apply sin_0. }
  rewrite (map_ext (fun i => cos (0 / Rpower 10000 (2 * INR i / INR dim))%R) (fun _ => 1%R)).
  2:{ intros i. replace (0 / Rpower 10000 (2 * INR i / INR dim))%R with 0%R
        by (unfold Rdiv; ring). apply cos_0. }
  now rewrite !map_const_repeat, length_seq.
Qed.

(** X2. The temporal table of an even width has one row of that width
    per frame, and the row of frame 0 is the constant pattern of zeros
    (sine half) followed by ones (cosine half), whatever the width. *)
Theorem get_1d_sincos_temp_embed_first_frame (embed_dim n : nat) :
  Nat.even embed_dim = true ->
  exists rest,
    SinCos.get_1d_sincos_temp_embed embed_dim (S n)
    = Ok ((repeat 0%R (embed_dim / 2) ++ repeat 1%R (embed_dim / 2)) :: rest)
    /\ length rest = n
    /\ Forall (fun row => length row = embed_dim) rest.
Proof.
  intros He. apply Nat.even_spec in He.
  assert (Hm : embed_dim mod 2 = 0).
  { destruct He as [k ->]. rewrite Nat.mul_comm. apply Nat.Div0.mod_mul. }
  unfold SinCos.get_1d_sincos_temp_embed. rewrite get_1d_sincos_even by assumption.
  unfold SinCos.sincos_1d. cbn [seq map]. cbn [INR].
  rewrite sincos_row_at_zero. eexists. split; [reflexivity|]. split.
  - now rewrite !length_map, length_seq.
  - apply Forall_forall. intros row Hin. apply in_map_iff in Hin.
    destruct Hin as [p [<- _]]. now apply sincos_1d_row_length.
Qed.

Lemma get_1d_sincos_temp_embed_first_frame_witness :
  exists rest,
    SinCos.get_1d_sincos_temp_embed 4 3 = Ok ([0; 0; 1; 1]%R :: rest)
    /\ length rest = 2
    /\ Forall (fun row => length row = 4) rest.
Proof.
  exact (get_1d_sincos_temp_embed_first_frame 4 2 eq_refl).
Defined.

Lemma timestep_embedding_general_witness :
  TimestepEmbedder.timestep_embedding [0%R; 1%R] 3 10000
  = Ok (TimestepEmbedder.embedding [0%R; 1%R] 3 10000).
Proof.
  apply timestep_embedding_general; [lra | discriminate].
Defined.

Lemma timestep_embedding_at_zero_witness :
  exists rows,
    TimestepEmbedder.timestep_embedding [0%R; 0%R] 5 10000 = Ok rows
    /\ length rows = 2
    /\ Forall (fun row => firstn 2 row = [1%R; 1%R]
                          /\ firstn 2 (skipn 2 row) = [0%R; 0%R]) rows.
Proof.
  apply (timestep_embedding_at_zero 2 5). lra.
Defined.

(** ** The label embedder and its table *)

Section LabelTable.

Variable E : Type.

Definition label_in_table (table : list E) (l : Z) : Prop :=
  (0 <= l < Z.of_nat (length table))%Z.

Lemma embedding_lookup_raises (table : list E) (labels : list Z) :
  Exists (fun l => ~ label_in_table table l) labels ->
  LabelEmbedder.embedding_lookup table labels = Raise IndexError.
Proof.
  unfold LabelEmbedder.embedding_lookup, label_in_table.
  induction labels as [|l labels IH]; intros Hex; [inversion Hex|].
  cbn [fold_right].
  destruct (Z.ltb l 0) eqn:El; [reflexivity|].
  destruct (nth_error table (Z.to_nat l)) as [row|] eqn:En; [|reflexivity].
  inversion Hex as [? ? Hl|? ? Hl]; subst.
  - exfalso. apply Hl. apply Z.ltb_ge in El.
    assert (Z.to_nat l < length table)%nat by (apply nth_error_Some; congruence). lia.
  - rewrite (IH Hl). reflexivity.
Qed.

Lemma embedding_lookup_ok (table : list E) (labels : list Z) :
  Forall (label_in_table table) labels ->
  exists rows,
    LabelEmbedder.embedding_lookup table labels = Ok rows
    /\ map Some rows = map (fun l => nth_error table (Z.to_nat l)) labels.
Proof.
  unfold LabelEmbedder.embedding_lookup, label_in_table.
  induction labels as [|l labels IH]; intros Hall.
  - exists []. split; reflexivity.
  - inversion Hall as [|? ? Hl Hrest]; subst.
    destruct (IH Hrest) as [rows [Hrows Hmap]].
    cbn [fold_right]. rewrite Hrows.
    destruct (Z.ltb l 0) eqn:El; [apply Z.ltb_lt in El; lia|].
    destruct (nth_error table (Z.to_nat l)) as [row|] eqn:En.
    + exists (row :: rows). split; [reflexivity|]. cbn [map]. now rewrite En, Hmap.
    + exfalso. apply nth_error_None in En. lia.
Qed.

Lemma init_table_length (num_classes : Z) (dropout_prob : Q) (rows : nat -> E) :
  (0 <= num_classes)%Z ->
  Z.of_nat (length (LabelEmbedder.embedding_table
                      (LabelEmbedder.init num_classes dropout_prob rows)))
  = (num_classes + (if LabelEmbedder.Qltb 0 dropout_prob then 1 else 0))%Z.
Proof.
  intros Hn. unfold LabelEmbedder.init. cbn [LabelEmbedder.embedding_table].
  rewrite length_map, length_seq.
  destruct (LabelEmbedder.Qltb 0 dropout_prob); lia.
Qed.

Lemma zip_with_in_r {X Y Z : Type} (f : X -> Y -> Z) (a : list X) (b : list Y) (z : Z) :
  In z (zip_with f a b) -> exists x y, In x a /\ In y b /\ z = f x y.
Proof.
  revert b; induction a as [|x a IH]; intros [|y b] Hin; simpl in Hin; try contradiction.
  destruct Hin as [<-|Hin].
  - exists x, y. simpl. auto.
  - destruct (IH b Hin) as [x' [y' [Hx [Hy Hz]]]]. exists x', y'. simpl. auto.
Qed.

(** X5. A label embedder built with [dropout_prob <= 0] has no row for
    the unconditional id: its table has exactly [num_classes] rows, so a
    call whose labels contain the id [num_classes], or that forces the
    drop of some position, fails in the table lookup with [IndexError]. *)
Theorem label_embedder_without_cfg_row (rand : nat -> list Q) (num_classes : Z)
    (dropout_prob : Q) (rows : nat -> E) (labels : list Z) (train : bool) :
  (0 <= num_classes)%Z ->
  (dropout_prob <= 0)%Q ->
  (In num_classes labels ->
     LabelEmbedder.forward rand (LabelEmbedder.init num_classes dropout_prob rows)
       labels train None = Raise IndexError)
  /\ (forall ids, length ids = length labels -> In 1%Z ids ->
        LabelEmbedder.forward rand (LabelEmbedder.init num_classes dropout_prob rows)
          labels train (Some ids) = Raise IndexError).
Proof.
  intros Hn Hp.
  assert (Hu : LabelEmbedder.Qltb 0 dropout_prob = false).
  { unfold LabelEmbedder.Qltb. destruct (Qlt_le_dec 0 dropout_prob) as [Hlt|_];
      [|reflexivity]. exfalso. exact (Qle_not_lt _ _ Hp Hlt). }
  pose proof (init_table_length dropout_prob rows Hn) as Hlen. rewrite Hu in Hlen.
  assert (Hbad : ~ label_in_table
                     (LabelEmbedder.embedding_table
                        (LabelEmbedder.init num_classes dropout_prob rows)) num_classes).
  { unfold label_in_table. lia. }
  split.
  - intros Hin. unfold LabelEmbedder.forward.
    replace (LabelEmbedder.dropout_prob (LabelEmbedder.init num_classes dropout_prob rows))
      with dropout_prob by reflexivity.
    rewrite Hu, andb_false_r. cbn [orb bind].
    apply embedding_lookup_raises. apply Exists_exists. exists num_classes. auto.
  - intros ids Hids Hone. unfold LabelEmbedder.forward. rewrite orb_true_r.
    rewrite token_drop_forced by assumption. cbn [bind].
    apply embedding_lookup_raises. apply Exists_exists. exists num_classes.
    split; [|exact Hbad].
    replace (LabelEmbedder.num_classes (LabelEmbedder.init num_classes dropout_prob rows))
      with num_classes by reflexivity.
    clear -Hids Hone. revert labels Hids.
    induction ids as [|d ids IH]; intros [|l labels] Hlen; simpl in *;
      try contradiction; try discriminate.
    destruct Hone as [->|Hone]; [left; reflexivity|].
    right. apply IH; [assumption | lia].
Qed.

(** X6. A label embedder built with a positive [dropout_prob] has the
    extra row: for labels in [[0, num_classes]] every call succeeds and
    returns one row per label, with or without forced drops and in both
    modes. *)
Theorem label_embedder_with_cfg_row (rand : nat -> list Q) (num_classes : Z)
    (dropout_prob : Q) (rows : nat -> E) (labels : list Z) (train : bool)
    (force_drop_ids : option (list Z)) :
  LabelEmbedder.unit_draws rand ->
  (0 <= num_classes)%Z ->
  (0 < dropout_prob)%Q ->
  Forall (fun l => (0 <= l <= num_classes)%Z) labels ->
  match force_drop_ids with Some ids => length ids = length labels | None => True end ->
  exists out,
    LabelEmbedder.forward rand (LabelEmbedder.init num_classes dropout_prob rows)
      labels train force_drop_ids = Ok out
    /\ length out = length labels.
Proof.
  intros Hr Hn Hp Hall Hforce.
  assert (Hu : LabelEmbedder.Qltb 0 dropout_prob = true).
  { unfold LabelEmbedder.Qltb. destruct (Qlt_le_dec 0 dropout_prob) as [_|Hle];
      [reflexivity|]. exfalso. exact (Qle_not_lt _ _ Hle Hp). }
  pose proof (init_table_length dropout_prob rows Hn) as Hlen. rewrite Hu in Hlen.
  set (self := LabelEmbedder.init num_classes dropout_prob rows) in *.
  assert (Hfit : forall ls : list Z,
            Forall (fun l => (0 <= l <= num_classes)%Z) ls ->
            Forall (label_in_table (LabelEmbedder.embedding_table self)) ls).
  { intros ls Hls. eapply Forall_impl; [|exact Hls]. unfold label_in_table.
    intros l Hl. cbv beta in Hl. lia. }
  assert (Hlookup : forall ls : list Z,
            Forall (fun l => (0 <= l <= num_classes)%Z) ls ->
            exists out, LabelEmbedder.embedding_lookup
                          (LabelEmbedder.embedding_table self) ls = Ok out
                        /\ length out = length ls).
  { intros ls Hls. destruct (embedding_lookup_ok (Hfit ls Hls)) as [out [Ho Hm]].
    exists out. split; [exact Ho|].
    apply (f_equal (@length _)) in Hm. now rewrite !length_map in Hm. }
  assert (Hdrop : forall (bs : list bool), length bs = length labels ->
            exists ls,
              LabelEmbedder.where_scalar bs num_classes labels = Ok ls
              /\ length ls = length labels
              /\ Forall (fun l => (0 <= l <= num_classes)%Z) ls).
  { intros bs Hbs. unfold LabelEmbedder.where_scalar. rewrite Hbs, Nat.eqb_refl.
    eexists. split; [reflexivity|]. split.
    - rewrite zip_with_length, Hbs. apply Nat.min_id.
    - apply Forall_forall. intros z Hz. apply zip_with_in_r in Hz.
      destruct Hz as [b [l [_ [Hl ->]]]]. rewrite Forall_forall in Hall.
      destruct b; [lia | exact (Hall l Hl)]. }
  unfold LabelEmbedder.forward.
  replace (LabelEmbedder.dropout_prob self) with dropout_prob by reflexivity.
  rewrite Hu, andb_true_r.
  destruct force_drop_ids as [ids|].
  - rewrite orb_true_r. unfold LabelEmbedder.token_drop.
    replace (LabelEmbedder.num_classes self) with num_classes by reflexivity.
    destruct (Hdrop (map (fun d => Z.eqb d 1) ids)) as [ls [Hls [Hll Hlf]]];
      [now rewrite length_map|].
    rewrite Hls. cbn [bind]. destruct (Hlookup ls Hlf) as [out [Ho Hlo]].
    exists out. split; [exact Ho | congruence].
  - rewrite orb_false_r. destruct train.
    + unfold LabelEmbedder.token_drop.
      replace (LabelEmbedder.num_classes self) with num_classes by reflexivity.
      destruct (Hdrop (map (fun r => LabelEmbedder.Qltb r (LabelEmbedder.dropout_prob self))
                         (rand (length labels)))) as [ls [Hls [Hll Hlf]]].
      { rewrite length_map. apply Hr. }
      rewrite Hls. cbn [bind]. destruct (Hlookup ls Hlf) as [out [Ho Hlo]].
      exists out. split; [exact Ho | congruence].
    + cbn [bind]. apply Hlookup. exact Hall.
Qed.

End LabelTable.

Lemma label_embedder_without_cfg_row_witness :
  LabelEmbedder.forward half_draws (LabelEmbedder.init 3 0 (fun i => i))
    [0; 3; 1]%Z false None = Raise IndexError
  /\ LabelEmbedder.forward half_draws (LabelEmbedder.init 3 0 (fun i => i))
       [0; 2; 1]%Z false (Some [0; 1; 0]%Z) = Raise IndexError.
Proof.
  destruct (label_embedder_without_cfg_row half_draws (num_classes:=3) (dropout_prob:=0)
              (fun i => i) [0; 3; 1]%Z false) as [H1 _];
    [lia | discriminate |].
  destruct (label_embedder_without_cfg_row half_draws (num_classes:=3) (dropout_prob:=0)
              (fun i => i) [0; 2; 1]%Z false) as [_ H2];
    [lia | discriminate |].
  split.
  - apply H1. simpl. tauto.
  - apply H2; [reflexivity | simpl; tauto].
Defined.

Lemma label_embedder_with_cfg_row_witness :
  exists out,
    LabelEmbedder.forward half_draws (LabelEmbedder.init 3 (1 # 10) (fun i => i))
      [0; 3; 1]%Z true None = Ok out
    /\ length out = 3.
Proof.
  apply (label_embedder_with_cfg_row (num_classes:=3) (dropout_prob:=1 # 10)
           (fun i => i) (labels:=[0; 3; 1]%Z) true None).
  - intros n. unfold half_draws. split; [apply repeat_length|].
    apply Forall_forall. intros r Hin. apply repeat_spec in Hin. subst r.
    split; [discriminate | reflexivity].
  - lia.
  - reflexivity.
  - repeat constructor; lia.
  - exact I.
Defined.

(** ** Masks *)

Lemma zip_with_map_self {X Y : Type} (f : X -> X -> Y) (g : X -> X) (l : list X) :
  zip_with f l (map g l) = map (fun x => f x (g x)) l.
Proof.
  induction l as [|x l IH]; simpl; [reflexivity | now rewrite IH].
Qed.

Lemma zip_with_nested_map {X Y : Type} (F : X -> X -> Y) (G : X -> X) (H : X -> Y)
    (l : list X) :
  (forall x, F x (G x) = H x) -> zip_with F l (map G l) = map H l.
Proof.
  intros E. induction l as [|x l IH]; simpl; [reflexivity | now rewrite E, IH].
Qed.

Lemma rows_of_repeat {X : Type} (a : X) (count size : nat) :
  rows_of count size (repeat a (count * size)) = repeat (repeat a size) count.
Proof.
  unfold rows_of. transitivity (map (fun _ : nat => repeat a size) (seq 0 count)).
  - apply map_ext_in. intros i Hi. apply in_seq in Hi.
    rewrite skipn_repeat_sub, firstn_repeat_le; [reflexivity | nia].
  - now rewrite map_const_repeat, length_seq.
Qed.

Lemma concat_repeat_repeat {X : Type} (a : X) (n k : nat) :
  concat (repeat (repeat a k) n) = repeat a (n * k).
Proof.
  induction n as [|n IH]; simpl; [reflexivity|]. now rewrite IH, repeat_app.
Qed.

Lemma flat_map_repeat {X Y : Type} (f : X -> list Y) (a : X) (n : nat) :
  flat_map f (repeat a n) = concat (repeat (f a) n).
Proof.
  induction n as [|n IH]; simpl; [reflexivity | now rewrite IH].
Qed.

Section Masks.

Context {A : Type} {SA : Scalar A}.

Local Abbreviation t4 := (list (list (list (list A)))).

(** X7. The attention bias is the mask read entry by entry: an entry
    equal to 1 becomes 0, an entry equal to 0 becomes [-1e8], and any
    other value is kept as its own additive bias; the shape is that of
    the mask. *)
Theorem make_attn_bias_pointwise (attn_mask : t4) :
  make_attn_bias attn_mask
  = map4 (fun m => if s_eqb m s_one then s_zero
                   else if s_eqb m s_zero then s_neg_1e8 else m) attn_mask.
Proof.
  unfold make_attn_bias, map4, zip4.
  apply zip_with_nested_map. intros a.
  apply zip_with_nested_map. intros b.
  apply zip_with_nested_map. intros c.
  apply zip_with_nested_map. intros m. reflexivity.
Qed.


End Masks.


(** ** [unpatchify] rearranges, it never drops or repeats a value *)

Lemma gather_seq_shift {X : Type} (pre d : list X) :
  gather (seq (length pre) (length d)) (pre ++ d) = d.
Proof.
  revert pre; induction d as [|x d IH]; intros pre; [reflexivity|].
  cbn [length seq]. unfold gather in *. cbn [flat_map].
  rewrite nth_error_app2, Nat.sub_diag by lia. cbn [nth_error app]. f_equal.
  specialize (IH (pre ++ [x])). rewrite length_app, <- app_assoc in IH.
  cbn [length app] in IH. rewrite Nat.add_1_r in IH. exact IH.
Qed.

Lemma gather_seq_all {X : Type} (d : list X) : gather (seq 0 (length d)) d = d.
Proof. exact (gather_seq_shift [] d). Qed.

Lemma gather_permutation {X : Type} (idxs : list nat) (d : list X) :
  Permutation (seq 0 (length d)) idxs -> Permutation (gather idxs d) d.
Proof.
  intros Hp. rewrite <- (gather_seq_all d) at 2. unfold gather.
  symmetry. apply Permutation_flat_map. exact Hp.
Qed.

(** The positions the einsum reads, in the order it writes them. *)
Definition einsum_positions (n h w p q c : nat) : list nat :=
  flat_map (fun i_n =>
    flat_map (fun i_c =>
      flat_map (fun i_h =>
        flat_map (fun i_p =>
          flat_map (fun i_w =>
            map (fun i_q =>
                   ((((i_n * h + i_h) * w + i_w) * p + i_p) * q + i_q) * c + i_c)
                (seq 0 q))
            (seq 0 w))
          (seq 0 p))
        (seq 0 h))
      (seq 0 c))
    (seq 0 n).

Lemma einsum_positions_length (n h w p q c : nat) :
  length (einsum_positions n h w p q c) = n * (h * (w * (p * (q * c)))).
Proof.
  unfold einsum_positions.
  rewrite flat_map_length_const with (k := c * (h * (p * (w * q)))).
  - rewrite length_seq. ring.
  - intros i_n _. rewrite flat_map_length_const with (k := h * (p * (w * q))).
    + now rewrite length_seq.
    + intros i_c _. rewrite flat_map_length_const with (k := p * (w * q)).
      * now rewrite length_seq.
      * intros i_h _. rewrite flat_map_length_const with (k := w * q).
        -- now rewrite length_seq.
        -- intros i_p _. rewrite flat_map_length_const with (k := q).
           ++ now rewrite length_seq.
           ++ intros i_w _. now rewrite length_map, length_seq.
Qed.

Lemma digit_split (d bound x : nat) :
  x < bound * d -> x = x / d * d + x mod d /\ x mod d < d /\ x / d < bound.
Proof.
  intros Hx. assert (Hd : d <> 0) by (intros ->; lia).
  pose proof (Nat.div_mod_eq x d). pose proof (Nat.mod_upper_bound x d Hd).
  split; [lia|]. split; [assumption|].
  apply Nat.Div0.div_lt_upper_bound. lia.
Qed.

Lemma einsum_positions_cover (n h w p q c x : nat) :
  x < n * (h * (w * (p * (q * c)))) -> In x (einsum_positions n h w p q c).
Proof.
  intros Hx.
  destruct (digit_split c (n * h * w * p * q) (x:=x)) as [E1 [B1 L1]]; [nia|].
  set (x1 := x / c) in *.
  destruct (digit_split q (n * h * w * p) (x:=x1)) as [E2 [B2 L2]]; [nia|].
  set (x2 := x1 / q) in *.
  destruct (digit_split p (n * h * w) (x:=x2)) as [E3 [B3 L3]]; [nia|].
  set (x3 := x2 / p) in *.
  destruct (digit_split w (n * h) (x:=x3)) as [E4 [B4 L4]]; [nia|].
  set (x4 := x3 / w) in *.
  destruct (digit_split h n (x:=x4)) as [E5 [B5 L5]]; [nia|].
  unfold einsum_positions.
  apply in_flat_map. exists (x4 / h). split; [apply in_seq; lia|].
  apply in_flat_map. exists (x mod c). split; [apply in_seq; lia|].
  apply in_flat_map. exists (x4 mod h). split; [apply in_seq; lia|].
  apply in_flat_map. exists (x2 mod p). split; [apply in_seq; lia|].
  apply in_flat_map. exists (x3 mod w). split; [apply in_seq; lia|].
  apply in_map_iff. exists (x1 mod q). split; [|apply in_seq; lia].
  rewrite <- E5, <- E4, <- E3, <- E2, <- E1. reflexivity.
Qed.

Lemma einsum_positions_permutation (n h w p q c : nat) :
  Permutation (seq 0 (n * (h * (w * (p * (q * c)))))) (einsum_positions n h w p q c).
Proof.
  apply NoDup_Permutation_bis.
  - apply seq_NoDup.
  - rewrite einsum_positions_length, length_seq. lia.
  - intros x Hx. apply in_seq in Hx. apply einsum_positions_cover. lia.
Qed.

Section UnpatchifyValues.

Context {A : Type} {SA : Scalar A}.

Variable Mlp : Type.
Variable Conv : Type.

(** X9. On a well-formed input of shape [(N, h*h, p*p*out_channels)]
    the image that [unpatchify] returns holds exactly the values of the
    input, each once: the result is a rearrangement of the data into the
    shape [(N, out_channels, h*p, h*p)]. *)
Theorem unpatchify_is_rearrangement (self : DiT.module (A:=A) Mlp Conv) (x : Tensor A)
    (N h : nat) :
  shape x = [N; h * h;
             fst (DiT.embed_patch_size (DiT.x_embedder self))
             * fst (DiT.embed_patch_size (DiT.x_embedder self))
             * DiT.out_channels self] ->
  length (data x) = prod_list (shape x) ->
  exists imgs,
    DiT.unpatchify self x = Ok imgs
    /\ shape imgs = [N; DiT.out_channels self;
                     h * fst (DiT.embed_patch_size (DiT.x_embedder self));
                     h * fst (DiT.embed_patch_size (DiT.x_embedder self))]
    /\ Permutation (data imgs) (data x)
    /\ length (data imgs) = prod_list (shape imgs).
Proof.
  intros Hs Hl.
  set (p := fst (DiT.embed_patch_size (DiT.x_embedder self))) in *.
  set (c := DiT.out_channels self) in *.
  assert (Hv : DiT.unpatchify self x
               = Ok {| shape := [N; c; h * p; h * p];
                       data := gather (einsum_positions N h h p p c) (data x) |}).
  { unfold DiT.unpatchify. rewrite Hs. fold p c.
    rewrite Nat.sqrt_square, Nat.eqb_refl. cbn [negb].
    unfold reshape at 1. rewrite Hs.
    replace (Nat.eqb (prod_list [N; h; h; p; p; c]) (prod_list [N; h * h; p * p * c]))
      with true by (symmetry; apply Nat.eqb_eq; cbn [prod_list fold_right]; ring).
    cbn [bind]. unfold reshape.
    cbn [DiT.einsum_nhwpqc_nchpwq shape data].
    replace (Nat.eqb (prod_list [N; c; h * p; h * p]) (prod_list [N; c; h; p; h; p]))
      with true by (symmetry; apply Nat.eqb_eq; cbn [prod_list fold_right]; ring).
    reflexivity. }
  assert (Hp : Permutation (gather (einsum_positions N h h p p c) (data x)) (data x)).
  { apply gather_permutation. rewrite Hl, Hs.
    replace (prod_list [N; h * h; p * p * c]) with (N * (h * (h * (p * (p * c)))))
      by (cbn [prod_list fold_right]; ring).
    apply einsum_positions_permutation. }
  eexists. split; [exact Hv|]. cbn [shape data]. split; [reflexivity|].
  split; [exact Hp|].
  rewrite (Permutation_length Hp), Hl, Hs. cbn [prod_list fold_right]. ring.
Qed.

End UnpatchifyValues.

Lemma unpatchify_is_rearrangement_witness :
  exists imgs,
    DiT.unpatchify tiny_dit tiny_patches = Ok imgs
    /\ shape imgs = [1; 2; 4; 4]
    /\ Permutation (data imgs) (data tiny_patches)
    /\ length (data imgs) = prod_list (shape imgs).
Proof.
  exact (unpatchify_is_rearrangement tiny_dit tiny_patches 2 (N:=1) eq_refl eq_refl).
Defined.

(** ** More on [DiT.forward] *)

Section ForwardMore.

Context {A : Type} {SA : Scalar A}.

Local Abbreviation vec := (list A).
Local Abbreviation t3 := (list (list (list A))).
Local Abbreviation t4 := (list (list (list (list A)))).
Local Abbreviation t5 := (list (list (list (list (list A))))).

Variable Mlp : Type.
Variable Conv : Type.
Variable softmax : vec -> vec.
Variable drop : Q -> vec -> vec.
Variable scaled_dot_product_attention :
  sdp_kernel -> t4 -> t4 -> t4 -> option t4 -> Q -> A -> result t4.
Variable rope : t5 -> t5.
Variable env : imports A.
Variable layer_norm : vec -> vec.
Variable silu : A -> A.
Variable mlp_forward : Mlp -> t3 -> t3.
Variable patch_embed : DiT.PatchEmbed Conv -> Tensor A -> result (Tensor A).
Variable checkpoint :
  (Tensor A -> Tensor A -> option (Tensor A) -> result (Tensor A))
  -> Tensor A -> Tensor A -> option (Tensor A) -> result (Tensor A).
Variable of_real : R -> A.
Variable rand : nat -> list Q.

Local Abbreviation dit := (DiT.module (A:=A) Mlp Conv).
Local Abbreviation forward :=
  (DiT.forward softmax drop scaled_dot_product_attention rope env layer_norm silu
     mlp_forward patch_embed checkpoint of_real rand).
Local Abbreviation forward_body :=
  (DiT.forward_body softmax drop scaled_dot_product_attention rope env layer_norm silu
     mlp_forward patch_embed checkpoint of_real rand).
Local Abbreviation forward_with_cfg :=
  (DiT.forward_with_cfg softmax drop scaled_dot_product_attention rope env layer_norm silu
     mlp_forward patch_embed checkpoint of_real rand).

Lemma bindM_cong {X Y : Type} (m : DiT.M Mlp Conv X) (k k' : X -> DiT.M Mlp Conv Y)
    (self : dit) :
  (forall x, snd (m self) = Ok x -> k x (fst (m self)) = k' x (fst (m self))) ->
  DiT.bindM m k self = DiT.bindM m k' self.
Proof.
  unfold DiT.bindM. destruct (m self) as [self' [x|e]]; cbn [fst snd]; intros H.
  - apply H. reflexivity.
  - reflexivity.
Qed.

Lemma forward_body_stale_t (self : dit) (v : option nat) (B T C H W : nat) (x : Tensor A)
    (t : list R) (y : list Z) (attention_mask : option (Tensor A)) :
  snd (forward_body B T C H W x t y attention_mask (DiT.with_t v self))
  = snd (forward_body B T C H W x t y attention_mask self).
Proof.
  unfold DiT.forward_body.
  match goal with |- _ = ?rhs => set (r := rhs) end.
  unfold DiT.bindM at 1. cbn [DiT.get_self]. unfold DiT.bindM at 1.
  cbn [DiT.patch_size_t DiT.with_t].
  match goal with |- ?lhs = _ => set (l := lhs) end.
  subst r. unfold DiT.bindM at 1. cbn [DiT.get_self]. unfold DiT.bindM at 1.
  subst l.
  destruct (Nat.eqb (DiT.patch_size_t self) 0); [reflexivity|].
  cbn [DiT.set_t]. reflexivity.
Qed.

(** X10. The value [self.t] left by an earlier call never reaches the
    output: [forward] assigns [self.t] before it reads it, so for every
    input the result (tensor or exception) is the one a model without
    that attribute gives. *)
Theorem forward_ignores_stale_t (self : dit) (v : option nat) (x : Tensor A) (t : list R)
    (y : list Z) (attention_mask : option (Tensor A)) :
  snd (forward x t y attention_mask (DiT.with_t v self))
  = snd (forward x t y attention_mask self).
Proof.
  unfold DiT.forward.
  destruct (Nat.eqb (ndim x) 4); [reflexivity|].
  destruct (shape x) as [|B [|T [|C [|H [|W [|? ?]]]]]];
    try (destruct (Nat.ltb (ndim x) 5); reflexivity).
  apply forward_body_stale_t.
Qed.

Ltac forward_step :=
  apply bindM_cong; intros ? ?;
  cbn [DiT.get_self DiT.lift DiT.read_t DiT.set_t DiT.raise DiT.ret fst snd
       DiT.t DiT.with_t] in *;
  repeat match goal with
         | H : Ok ?a = Ok ?b |- _ => injection H as H; subst b
         | H : Raise _ = Ok _ |- _ => discriminate H
         end.

(** X11. A model that is not class-conditional ([extras] other than 2)
    never looks at the labels: [forward] returns the same result and
    leaves the same state for any two label arguments. *)
Theorem forward_ignores_labels (self : dit) (x : Tensor A) (t : list R) (y y' : list Z)
    (attention_mask : option (Tensor A)) :
  DiT.extras self <> 2 ->
  forward x t y attention_mask self = forward x t y' attention_mask self.
Proof.
  intros He. apply Nat.eqb_neq in He. unfold DiT.forward.
  destruct (Nat.eqb (ndim x) 4); [reflexivity|].
  destruct (shape x) as [|B [|T [|C [|H [|W [|? ?]]]]]]; try reflexivity.
  unfold DiT.forward_body.
  forward_step.
  apply bindM_cong. intros [] Hset.
  destruct (Nat.eqb (DiT.patch_size_t self) 0); [discriminate Hset|].
  cbn [DiT.set_t fst snd] in *.
  do 11 forward_step.
  cbn [DiT.extras DiT.with_t]. rewrite He. reflexivity.
Qed.

(** X12. Two more early exits of [forward], both before anything is
    computed and with the instance left untouched: an input of more than
    five dimensions fails in the unpacking of [x.shape] with
    [ValueError], and a 5-D input on a model whose [patch_size_t] is 0
    fails in [T // self.patch_size_t] with [ZeroDivisionError]. *)
Theorem forward_other_early_exits (self : dit) (x : Tensor A) (t : list R) (y : list Z)
    (attention_mask : option (Tensor A)) :
  (5 < ndim x ->
     forward x t y attention_mask self
     = (self, Raise (ValueError "too many values to unpack (expected 5)")))
  /\ (ndim x = 5 -> DiT.patch_size_t self = 0 ->
      forward x t y attention_mask self = (self, Raise ZeroDivisionError)).
Proof.
  unfold DiT.forward, ndim. split.
  - intros Hgt.
    destruct (shape x) as [|B [|T [|C [|H [|W [|? ?]]]]]]; cbn [length] in *; try lia.
    reflexivity.
  - intros H5 Hp.
    destruct (shape x) as [|B [|T [|C [|H [|W [|? ?]]]]]]; cbn [length] in *;
      try discriminate H5.
    cbn [Nat.eqb]. unfold DiT.forward_body, DiT.bindM. cbn [DiT.get_self].
    rewrite Hp. reflexivity.
Qed.

Lemma slice_first_rows (x x' : Tensor A) (len k : nat) (dims : list nat) :
  shape x = len :: dims -> shape x' = len :: dims -> k <= len ->
  firstn (k * prod_list dims) (data x) = firstn (k * prod_list dims) (data x') ->
  slice_axis 0 0 k x = slice_axis 0 0 k x'.
Proof.
  intros Hs Hs' Hk Hd. unfold slice_axis. rewrite Hs, Hs'.
  cbn [firstn skipn nth prod_list fold_right].
  rewrite Nat.min_0_l, (Nat.min_l k len), Nat.max_r, Nat.sub_0_r by lia.
  f_equal. unfold rows_of. cbn [seq map concat skipn Nat.mul].
  rewrite !app_nil_r, !firstn_firstn.
  rewrite Nat.min_l by nia. exact Hd.
Qed.

(** X13. [forward_with_cfg] never reads the second half of its batch:
    two batches of the same shape that agree on their first
    [len(x) // 2] samples give the same result and the same state. *)
Theorem forward_with_cfg_reads_first_half (self : dit) (x x' : Tensor A) (t : list R)
    (y : list Z) (cfg_scale : A) (attention_mask : option (Tensor A))
    (len : nat) (dims : list nat) :
  shape x = len :: dims ->
  shape x' = len :: dims ->
  firstn (len / 2 * prod_list dims) (data x) = firstn (len / 2 * prod_list dims) (data x') ->
  forward_with_cfg x t y cfg_scale attention_mask self
  = forward_with_cfg x' t y cfg_scale attention_mask self.
Proof.
  intros Hs Hs' Hd. unfold DiT.forward_with_cfg. rewrite Hs, Hs'.
  rewrite (slice_first_rows x x' Hs Hs'); [reflexivity | | exact Hd].
  apply Nat.Div0.div_le_upper_bound. lia.
Qed.

End ForwardMore.

Lemma forward_ignores_labels_witness :
  tiny_forward tiny_video [] [1%Z] None tiny_dit
  = tiny_forward tiny_video [] [2; 3]%Z None tiny_dit.
Proof.
  unfold tiny_forward. apply forward_ignores_labels. discriminate.
Defined.

(** The small model with a zero temporal patch size, and a 6-D input. *)
Definition tiny_dit_pt0 : DiT.module (A:=Z) unit unit := {|
  DiT.gradient_checkpointing := DiT.gradient_checkpointing tiny_dit;
  DiT.learn_sigma := DiT.learn_sigma tiny_dit;
  DiT.in_channels := DiT.in_channels tiny_dit;
  DiT.out_channels := DiT.out_channels tiny_dit;
  DiT.patch_size := DiT.patch_size tiny_dit;
  DiT.patch_size_t := 0;
  DiT.num_heads := DiT.num_heads tiny_dit;
  DiT.extras := DiT.extras tiny_dit;
  DiT.hidden_size := DiT.hidden_size tiny_dit;
  DiT.x_embedder := DiT.x_embedder tiny_dit;
  DiT.t_embedder := DiT.t_embedder tiny_dit;
  DiT.y_embedder := DiT.y_embedder tiny_dit;
  DiT.pos_embed := DiT.pos_embed tiny_dit;
  DiT.temp_embed := DiT.temp_embed tiny_dit;
  DiT.blocks := DiT.blocks tiny_dit;
  DiT.final_layer := DiT.final_layer tiny_dit;
  DiT.training := DiT.training tiny_dit;
  DiT.t := DiT.t tiny_dit
|}.

Definition six_dims : Tensor Z := {| shape := [1; 1; 1; 1; 1; 1]; data := [1%Z] |}.

Lemma forward_other_early_exits_witness :
  tiny_forward six_dims [] [] None tiny_dit
  = (tiny_dit, Raise (ValueError "too many values to unpack (expected 5)"))
  /\ tiny_forward tiny_video [] [] None tiny_dit_pt0
     = (tiny_dit_pt0, Raise ZeroDivisionError).
Proof.
  unfold tiny_forward. split.
  - apply forward_other_early_exits. unfold ndim, six_dims. simpl. lia.
  - apply forward_other_early_exits; reflexivity.
Defined.

Definition tiny_forward_with_cfg :=
  DiT.forward_with_cfg (A:=Z) (Mlp:=unit) (Conv:=unit)
    (fun r => r) (fun _ r => r) no_fused_kernel rope_identity no_imports
    (fun r => r) (fun a => a) (fun _ x => x) (fun _ x => Ok x) (fun f => f)
    (fun _ => 0%Z) half_draws.

Lemma forward_with_cfg_reads_first_half_witness :
  tiny_forward_with_cfg {| shape := [2; 1; 1; 1; 1]; data := [5; 7]%Z |} [] [] 2%Z None tiny_dit
  = tiny_forward_with_cfg {| shape := [2; 1; 1; 1; 1]; data := [5; 9]%Z |} [] [] 2%Z None
      tiny_dit.
Proof.
  unfold tiny_forward_with_cfg.
  apply forward_with_cfg_reads_first_half with (len := 2) (dims := [1; 1; 1; 1]);
    reflexivity.
Defined.

(** ** The guidance step of [forward_with_cfg] *)

Section Guidance.

Context {A : Type} {SA : Scalar A}.

Lemma slice_axis_shape0 (lo hi : nat) (x : Tensor A) (d0 : nat) (dims : list nat) :
  shape x = d0 :: dims ->
  shape (slice_axis 0 lo hi x)
  = (Nat.max (Nat.min lo d0) (Nat.min hi d0) - Nat.min lo d0) :: dims.
Proof.
  intros Hs. unfold slice_axis. rewrite Hs. reflexivity.
Qed.

Lemma slice_axis_shape1 (lo hi : nat) (x : Tensor A) (d0 d1 : nat) (dims : list nat) :
  shape x = d0 :: d1 :: dims ->
  shape (slice_axis 1 lo hi x)
  = d0 :: (Nat.max (Nat.min lo d1) (Nat.min hi d1) - Nat.min lo d1) :: dims.
Proof.
  intros Hs. unfold slice_axis. rewrite Hs. reflexivity.
Qed.

(** X14. The guidance step needs an even, non-empty batch.  On a model
    output of shape [(B, T, ...)] it returns a tensor of the same shape
    when [B] is even and at least 2; for an odd [B >= 3] the split gives
    three parts and the unpacking into two names fails, for [B = 1] the
    split size is 0 and [torch.split] refuses it, and for [B = 0] the
    split gives a single part. *)
Theorem cfg_combine_batch (in_channels : nat) (cfg_scale : A) (model_out : Tensor A)
    (B T : nat) (dims : list nat) :
  shape model_out = B :: T :: dims ->
  match B with
  | 0 => DiT.cfg_combine in_channels cfg_scale model_out
         = Raise (ValueError "not enough values to unpack (expected 2)")
  | 1 => DiT.cfg_combine in_channels cfg_scale model_out
         = Raise (RuntimeError "split_size can only be 0 if dimension size is 0")
  | _ =>
      if Nat.even B
      then exists out,
             DiT.cfg_combine in_channels cfg_scale model_out = Ok out
             /\ shape out = B :: T :: dims
      else DiT.cfg_combine in_channels cfg_scale model_out
           = Raise (ValueError "too many values to unpack (expected 2)")
  end.
Proof.
  intros Hs. unfold DiT.cfg_combine. cbv zeta.
  pose proof (slice_axis_shape1 0 in_channels model_out Hs) as Heps.
  set (eps := slice_axis 1 0 in_channels model_out) in *.
  pose proof (slice_axis_shape1 in_channels (nth 1 (shape model_out) 0) model_out Hs)
    as Hrest.
  set (rest := slice_axis 1 in_channels (nth 1 (shape model_out) 0) model_out) in *.
  rewrite Hs in Hrest. cbn [nth] in Hrest.
  unfold split0. rewrite Heps. cbn [nth].
  destruct B as [|[|B']].
  - reflexivity.
  - reflexivity.
  - set (B := S (S B')) in *.
    destruct (Nat.even B) eqn:Ev.
    + apply Nat.even_spec in Ev. destruct Ev as [n Hn].
      assert (Hn1 : 1 <= n) by (unfold B in Hn; lia).
      assert (Hhalf : B / 2 = n).
      { rewrite Hn, Nat.mul_comm. apply Nat.div_mul. lia. }
      rewrite Hhalf. destruct n as [|n']; [lia|]. set (n := S n') in *.
      assert (Hcount : (B + n - 1) / n = 2).
      { symmetry. apply (Nat.div_unique _ n 2 (n - 1)); lia. }
      rewrite Hcount. cbn [seq map bind].
      eexists. split; [reflexivity|].
      set (half_eps := tensor_zip s_add _ _).
      assert (Hh : shape half_eps
                   = n :: (Nat.max (Nat.min 0 T) (Nat.min in_channels T) - Nat.min 0 T)
                       :: dims).
      { unfold half_eps. cbn [shape tensor_zip].
        rewrite (slice_axis_shape0 (1 * n) (1 * n + n) eps Heps). f_equal. lia. }
      assert (Hc : shape (cat_axis 0 half_eps half_eps)
                   = B :: (Nat.max (Nat.min 0 T) (Nat.min in_channels T) - Nat.min 0 T)
                       :: dims).
      { unfold cat_axis. cbn [shape]. rewrite Hh.
        cbn [nth replace_nth firstn skipn app]. f_equal. lia. }
      unfold cat_axis at 1. cbn [shape]. rewrite Hc, Hrest.
      cbn [nth replace_nth firstn skipn app].
      f_equal. f_equal. lia.
    + assert (Ho : Nat.odd B = true) by (rewrite <- Nat.negb_even, Ev; reflexivity).
      apply Nat.odd_spec in Ho. destruct Ho as [n Hn].
      assert (Hn1 : 1 <= n) by (unfold B in Hn; lia).
      assert (Hhalf : B / 2 = n).
      { symmetry. apply (Nat.div_unique _ 2 n 1); lia. }
      rewrite Hhalf. destruct n as [|n']; [lia|]. set (n := S n') in *.
      assert (Hcount : (B + n - 1) / n = 3).
      { symmetry. apply (Nat.div_unique _ n 3 0); lia. }
      rewrite Hcount. reflexivity.
Qed.

End Guidance.

Lemma cfg_combine_batch_witness :
  exists out,
    DiT.cfg_combine 1 2%Z sample_model_out = Ok out
    /\ shape out = [2; 2; 2; 1; 1].
Proof.
  exact (cfg_combine_batch 1 2%Z sample_model_out (B:=2) (T:=2) (dims:=[2; 1; 1]) eq_refl).
Defined.

(** ** The final layer of a constructed model *)

Section FreshFinalLayer.

Context {A : Type} {SA : Scalar A} {L : ScalarLaws A}.

Local Abbreviation vec := (list A).
Local Abbreviation mat := (list (list A)).
Local Abbreviation t3 := (list (list (list A))).

Variable layer_norm : vec -> vec.
Variable silu : A -> A.
Variable gen : nat -> nat -> A.
Variable xavier : nat -> nat -> A.

(** [chunk(2, dim=1)] of a matrix with [2 * h] columns gives two pieces,
    each with one row per row of the matrix. *)
Lemma torch_chunk_two (h : nat) (m : mat) :
  exists shift scale,
    torch_chunk 2 (2 * h) m = [shift; scale]
    /\ length shift = length m /\ length scale = length m.
Proof.
  destruct (Nat.eq_dec h 0) as [->|Hh].
  - do 2 eexists. split; [reflexivity|]. now rewrite length_map.
  - assert (Hsize : (2 * h + 2 - 1) / 2 = h).
    { symmetry. apply (Nat.div_unique _ 2 h 1); lia. }
    assert (Hcount : (2 * h + h - 1) / h = 2).
    { symmetry. apply (Nat.div_unique _ h 2 (h - 1)); lia. }
    rewrite torch_chunk_nonzero by lia.
    rewrite Hsize, Hcount. cbn [seq map].
    do 2 eexists. split; [reflexivity|]. now rewrite !length_map.
Qed.

(** [modulate] keeps the number of samples and of tokens per sample. *)
Lemma modulate_tokens (x : t3) (shift scale : mat) :
  length shift = length x -> length scale = length x ->
  map (@length vec) (modulate x shift scale) = map (@length vec) x.
Proof.
  unfold modulate.
  revert shift scale; induction x as [|s x IH]; intros [|a shift] [|b scale] H1 H2;
    simpl in *; try reflexivity; try discriminate.
  rewrite length_map. f_equal. apply IH; lia.
Qed.

Lemma map_map_const {X Y Z : Type} (z : Z) (a : list (list X)) (b : list (list Y)) :
  map (@length X) a = map (@length Y) b ->
  map (map (fun _ => z)) a = map (map (fun _ => z)) b.
Proof.
  revert b; induction a as [|r a IH]; intros [|q b] H; simpl in *;
    try reflexivity; try discriminate.
  injection H as Hr H. f_equal; [|apply IH; exact H].
  clear -Hr. revert q Hr; induction r as [|u r IHr]; intros [|v q] Hr; simpl in *;
    try reflexivity; try discriminate.
  f_equal. apply IHr. lia.
Qed.

(** X15. The final layer of a freshly initialised model maps every token
    to the zero vector of width [patch_size_t * patch_size * patch_size *
    out_channels], whatever the tokens and the conditioning are: both its
    modulation and its projection are zeroed by [initialize_weights]. *)
Theorem fresh_final_layer_is_zero
    (hidden_size patch_size_t patch_size out_channels : nat) (x : t3) (c : mat) :
  length c = length x ->
  Forall (Forall (fun row => length row = hidden_size)) x ->
  Forall (fun row => length row = hidden_size) c ->
  (forall r, length (layer_norm r) = length r) ->
  FinalLayer.forward layer_norm silu
    (FinalLayer.initialize_weights xavier
       (FinalLayer.init gen hidden_size patch_size_t patch_size out_channels)) x c
  = Ok (map (map (fun _ =>
                    repeat s_zero (patch_size_t * patch_size * patch_size * out_channels)))
            x).
Proof.
  intros Hc _ _ _. unfold FinalLayer.forward.
  cbn [FinalLayer.initialize_weights FinalLayer.init FinalLayer.adaLN_modulation
       FinalLayer.linear_layer].
  set (ada := constant_zero_linear
                (basic_init_linear xavier (new_linear gen hidden_size (2 * hidden_size) true))).
  assert (Ho : out_features ada = 2 * hidden_size).
  { unfold ada, out_features, constant_zero_linear, constant_zero_mat, basic_init_linear,
      fill_mat, new_linear. cbn [weight]. now rewrite !length_map, !length_seq. }
  rewrite Ho.
  destruct (torch_chunk_two hidden_size (map (fun row => linear ada (map silu row)) c))
    as (shift & scale & -> & Hsh & Hsc).
  rewrite length_map in Hsh, Hsc.
  f_equal. unfold linear3.
  set (n := patch_size_t * patch_size * patch_size * out_channels).
  set (l := basic_init_linear xavier (new_linear gen hidden_size n true)).
  assert (Hw : length (weight l) = n).
  { unfold l, basic_init_linear, fill_mat, new_linear. cbn [weight].
    now rewrite !length_map, !length_seq. }
  assert (Hlin : forall v, linear (constant_zero_linear l) v = repeat s_zero n).
  { intros v. rewrite <- Hw.
    apply linear_constant_zero
      with (b := map (fun _ => s_zero) (map (fun i => gen i hidden_size) (seq 0 n))).
    - reflexivity.
    - now rewrite Hw, !length_map, length_seq. }
  rewrite (map_ext _ (map (fun _ => repeat s_zero n)))
    by (intros s; apply map_ext; intros v; apply Hlin).
  apply map_map_const.
  rewrite modulate_tokens by (rewrite length_map; lia).
  rewrite map_map. apply map_ext. intros s. now rewrite length_map.
Qed.

End FreshFinalLayer.

Lemma fresh_final_layer_is_zero_witness :
  FinalLayer.forward (fun r => r) (fun a => a)
    (FinalLayer.initialize_weights (fun i j => Z.of_nat (i + j) + 1)%Z
       (FinalLayer.init (fun i j => Z.of_nat (i * 2 + j) + 3)%Z 2 1 1 2))
    [[[5; 7]; [1; 2]]]%Z [[4; 6]]%Z
  = Ok [[[0; 0]; [0; 0]]]%Z.
Proof.
  assert (Hx : Forall (Forall (fun row : list Z => length row = 2)) [[[5; 7]; [1; 2]]]%Z)
    by (repeat constructor).
  assert (Hc : Forall (fun row : list Z => length row = 2) [[4; 6]]%Z)
    by (repeat constructor).
  exact (fresh_final_layer_is_zero (fun r => r) (fun a => a)
           (fun i j => Z.of_nat (i * 2 + j) + 3)%Z (fun i j => Z.of_nat (i + j) + 1)%Z
           (hidden_size := 2) 1 1 2 (x := [[[5; 7]; [1; 2]]]%Z) (c := [[4; 6]]%Z)
           eq_refl Hx Hc (fun _ => eq_refl)).
Defined.

(** ** Constructors *)

Section AttentionConstructor.

Context {A : Type} {SA : Scalar A}.

Variable gen : nat -> nat -> A.
Variable inv_sqrt : nat -> A.

Lemma mod_zero_div_mul (dim n : nat) : n <> 0 -> dim mod n = 0 -> n * (dim / n) = dim.
Proof.
  intros Hn Hm. pose proof (Nat.div_mod_eq dim n) as H. lia.
Qed.

(** X16. The outcome of [Attention.__init__].  It returns a module
    exactly when [num_heads] is not 0, divides [dim], and [dim] is not 0;
    the heads then tile the width ([num_heads * head_dim = dim] with a
    positive [head_dim]) and the fused projection has [3 * dim] rows of
    [dim] weights.  Otherwise it raises: [ZeroDivisionError] for
    [num_heads = 0] (from [dim % num_heads]) and for [dim = 0] (from
    [head_dim ** -0.5]), [AssertionError] when [num_heads] does not
    divide [dim]. *)
Theorem Attention_init_outcome (dim n_heads : nat) (mode pe_mode : string) (hw_ : nat) :
  match Attention_init gen inv_sqrt dim n_heads mode pe_mode hw_ with
  | Ok a =>
      n_heads <> 0 /\ dim <> 0 /\ dim mod n_heads = 0
      /\ num_heads a = n_heads
      /\ num_heads a * head_dim a = dim /\ 0 < head_dim a
      /\ length (weight (qkv a)) = 3 * dim
      /\ Forall (fun row => length row = dim) (weight (qkv a))
      /\ option_map (@length A) (bias (qkv a)) = Some (3 * dim)
      /\ length (weight (proj a)) = dim
      /\ attention_mode a = mode /\ attention_pe_mode a = pe_mode
  | Raise e =>
      (n_heads = 0 /\ e = ZeroDivisionError)
      \/ (n_heads <> 0 /\ dim mod n_heads <> 0 /\ e = AssertionError)
      \/ (n_heads <> 0 /\ dim = 0 /\ e = ZeroDivisionError)
  end.
Proof.
  unfold Attention_init.
  destruct (Nat.eqb_spec n_heads 0) as [Hn|Hn]; [left; auto|].
  destruct (Nat.eqb_spec (dim mod n_heads) 0) as [Hm|Hm]; cbn [negb];
    [|right; left; auto].
  destruct (Nat.eqb_spec (dim / n_heads) 0) as [Hd|Hd].
  - right; right. repeat split; auto.
    pose proof (mod_zero_div_mul dim Hn Hm). nia.
  - cbn [num_heads head_dim qkv proj weight bias attention_mode attention_pe_mode option_map].
    pose proof (mod_zero_div_mul dim Hn Hm) as Hmul.
    assert (Hdim : dim <> 0).
    { intros ->. apply Hd. apply Nat.Div0.div_0_l. }
    split; [exact Hn|]. split; [exact Hdim|]. split; [exact Hm|].
    split; [reflexivity|]. split; [exact Hmul|]. split; [lia|].
    split; [rewrite length_map, length_seq; lia|].
    split.
    { apply Forall_forall. intros row Hin. apply in_map_iff in Hin.
      destruct Hin as [i [<- _]]. now rewrite length_map, length_seq. }
    split; [rewrite !length_map, length_seq; f_equal; lia|].
    split; [now rewrite length_map, length_seq|].
    split; reflexivity.
Qed.

End AttentionConstructor.

Lemma mapM_length {X Y : Type} (f : X -> result Y) (l : list X) (ys : list Y) :
  mapM f l = Ok ys -> length ys = length l.
Proof.
  revert ys; induction l as [|x l IH]; intros ys H; simpl in H.
  - injection H as <-. reflexivity.
  - destruct (f x) as [y0|]; [|discriminate H]. simpl in H.
    destruct (mapM f l) as [ys0|]; [|discriminate H]. simpl in H.
    injection H as <-. simpl. f_equal. apply IH. reflexivity.
Qed.

Lemma mapM_const_raise {X Y : Type} (e : exn) (x : X) (l : list X) :
  mapM (fun _ => Raise e : result Y) (x :: l) = Raise e.
Proof. reflexivity. Qed.

Lemma get_1d_sincos_length (embed_dim : nat) (pos : list R) (emb : list (list R)) :
  SinCos.get_1d_sincos_pos_embed_from_grid embed_dim pos = Ok emb ->
  length emb = length pos.
Proof.
  unfold SinCos.get_1d_sincos_pos_embed_from_grid.
  destruct (negb _); [discriminate|]. intros H. injection H as <-.
  rewrite zip_with_length, !length_map. apply Nat.min_id.
Qed.

Lemma get_2d_sincos_needs_mod4 (embed_dim grid_size : nat) :
  embed_dim mod 4 <> 0 ->
  SinCos.get_2d_sincos_pos_embed embed_dim grid_size = Raise AssertionError.
Proof.
  intros E.
  unfold SinCos.get_2d_sincos_pos_embed, SinCos.get_2d_sincos_pos_embed_from_grid.
  destruct (Nat.eqb (embed_dim mod 2) 0) eqn:E2; [|reflexivity].
  apply Nat.eqb_eq in E2. cbn [negb fst snd].
  assert (E4 : (embed_dim / 2) mod 2 <> 0).
  { intros H. apply E. apply mod4_halves. split; assumption. }
  rewrite get_1d_sincos_odd by assumption. reflexivity.
Qed.

Lemma get_2d_sincos_length (embed_dim grid_size : nat) (emb : list (list R)) :
  SinCos.get_2d_sincos_pos_embed embed_dim grid_size = Ok emb ->
  length emb = grid_size * grid_size.
Proof.
  unfold SinCos.get_2d_sincos_pos_embed, SinCos.get_2d_sincos_pos_embed_from_grid.
  destruct (negb _); [discriminate|]. cbn [fst snd].
  set (grid0 := flat_map (fun _ => map INR (seq 0 grid_size)) _).
  set (grid1 := flat_map (fun h => map (fun _ => h) _) _).
  destruct (SinCos.get_1d_sincos_pos_embed_from_grid _ grid0) as [eh|] eqn:Eh;
    [|discriminate].
  cbn [bind].
  destruct (SinCos.get_1d_sincos_pos_embed_from_grid _ grid1) as [ew|] eqn:Ew;
    [|discriminate].
  cbn [bind]. intros H. injection H as <-.
  unfold grid0, grid1 in *.
  apply get_1d_sincos_length in Eh, Ew.
  rewrite zip_with_length, Eh, Ew.
  rewrite !flat_map_length_const with (k := grid_size).
  - rewrite !length_map, length_seq. apply Nat.min_id.
  - intros i _. now rewrite !length_map, length_seq.
  - intros i _. now rewrite !length_map, length_seq.
Qed.

Lemma shape_eqb_refl (s : list nat) : shape_eqb s s = true.
Proof.
  induction s as [|x s IH]; simpl; [reflexivity|].
  now rewrite Nat.eqb_refl, IH.
Qed.

Lemma mapM_const_ok {X Y : Type} (y : Y) (l : list X) :
  mapM (fun _ => Ok y) l = Ok (repeat y (length l)).
Proof.
  induction l as [|x l IH]; simpl; [reflexivity | now rewrite IH].
Qed.

Lemma get_2d_sincos_ok (embed_dim grid_size : nat) :
  embed_dim mod 4 = 0 ->
  exists emb, SinCos.get_2d_sincos_pos_embed embed_dim grid_size = Ok emb.
Proof.
  intros E. apply mod4_halves in E. destruct E as [E2 E4].
  unfold SinCos.get_2d_sincos_pos_embed, SinCos.get_2d_sincos_pos_embed_from_grid.
  rewrite E2. cbn [Nat.eqb negb fst snd].
  rewrite !get_1d_sincos_even by assumption. cbn [bind]. eexists. reflexivity.
Qed.

Section Construction.

Context {A : Type} {SA : Scalar A}.

Variable Mlp : Type.
Variable Conv : Type.
Variable of_real : R -> A.
Variable gen : nat -> nat -> A.
Variable xavier : nat -> nat -> A.
Variable normal : nat -> nat -> A.
Variable inv_sqrt : nat -> A.
Variable Mlp_init : nat -> nat -> Mlp.
Variable mlp_basic_init : Mlp -> Mlp.
Variable PatchEmbed_init : nat -> nat -> nat -> nat -> DiT.PatchEmbed Conv.
Variable patch_embed_init : DiT.PatchEmbed Conv -> DiT.PatchEmbed Conv.

(** The constructor arguments. *)
Variable input_size patch_size patch_size_t in_channels hidden_size depth num_heads : nat.
Variable mlp_ratio : Q.
Variable num_frames : nat.
Variable class_dropout_prob : Q.
Variable num_classes : Z.
Variable learn_sigma : bool.
Variable extras : nat.
Variable attention_mode attention_pe_mode : string.

Local Abbreviation new_model :=
  (DiT.init of_real gen xavier normal inv_sqrt Mlp_init mlp_basic_init PatchEmbed_init
     patch_embed_init input_size patch_size patch_size_t in_channels hidden_size depth
     num_heads mlp_ratio num_frames class_dropout_prob num_classes learn_sigma extras
     attention_mode attention_pe_mode).

Local Abbreviation new_block :=
  (DiTBlock.init gen inv_sqrt Mlp_init hidden_size num_heads mlp_ratio attention_mode
     attention_pe_mode input_size).

Lemma new_block_no_heads : num_heads = 0 -> new_block = Raise ZeroDivisionError.
Proof.
  intros ->. reflexivity.
Qed.

Lemma new_block_indivisible :
  num_heads <> 0 -> hidden_size mod num_heads <> 0 -> new_block = Raise AssertionError.
Proof.
  intros Hn Hm. unfold DiTBlock.init, Attention_init.
  apply Nat.eqb_neq in Hn, Hm. rewrite Hn, Hm. reflexivity.
Qed.

Lemma new_block_ok (b : DiTBlock.module A Mlp) :
  new_block = Ok b ->
  num_heads <> 0 /\ hidden_size mod num_heads = 0 /\ hidden_size <> 0.
Proof.
  unfold DiTBlock.init, Attention_init.
  destruct (Nat.eqb_spec num_heads 0) as [Hn|Hn]; [discriminate|].
  destruct (Nat.eqb_spec (hidden_size mod num_heads) 0) as [Hm|Hm]; [|discriminate].
  destruct (Nat.eqb_spec (hidden_size / num_heads) 0) as [Hd|Hd]; [discriminate|].
  intros _. repeat split; try assumption.
  intros ->. apply Hd. apply Nat.Div0.div_0_l.
Qed.

(** X17. [DiT(...)] rejects a width that the heads or the positional
    tables cannot split.  With at least one block, [num_heads = 0] gives
    [ZeroDivisionError] and a [hidden_size] that [num_heads] does not
    divide gives [AssertionError], both from the first block's
    [Attention]; and whatever the heads are, a [hidden_size] that is not
    a multiple of 4 never gives a model: if the blocks are built, the
    2-D sin-cos table of [initialize_weights] fails its assertion.  The
    sizes handed to torch and timm are not negative, so that their
    constructors return. *)
Theorem DiT_init_rejects :
  let model :=
    DiT.init of_real gen xavier normal inv_sqrt Mlp_init mlp_basic_init PatchEmbed_init
      patch_embed_init input_size patch_size patch_size_t in_channels hidden_size depth
      num_heads mlp_ratio num_frames class_dropout_prob num_classes learn_sigma extras
      attention_mode attention_pe_mode in
  (0 <= num_classes)%Z -> (0 <= mlp_ratio)%Q ->
  (0 < depth -> num_heads = 0 -> model = Raise ZeroDivisionError)
  /\ (0 < depth -> num_heads <> 0 -> hidden_size mod num_heads <> 0 ->
      model = Raise AssertionError)
  /\ (hidden_size mod 4 <> 0 ->
      model = Raise AssertionError \/ model = Raise ZeroDivisionError).
Proof.
  cbv zeta. intros _ _. split; [|split].
  - intros Hd Hn. unfold DiT.init.
    destruct depth as [|d]; [lia|]. cbn [seq].
    rewrite (new_block_no_heads Hn). reflexivity.
  - intros Hd Hn Hm. unfold DiT.init.
    destruct depth as [|d]; [lia|]. cbn [seq].
    rewrite (new_block_indivisible Hn Hm). reflexivity.
  - intros H4. unfold DiT.init.
    assert (Hh : Nat.eqb hidden_size 0 = false)
      by (apply Nat.eqb_neq; intros E; apply H4; rewrite E; reflexivity).
    destruct new_block as [b|e] eqn:Eb.
    + assert (Hbs : exists bs,
                 mapM (fun _ : nat => Ok b : result (DiTBlock.module A Mlp)) (seq 0 depth)
                 = Ok bs).
      { generalize (seq 0 depth). intros l.
        induction l as [|x l [bs IH]]; simpl; [eexists; reflexivity|].
        rewrite IH. eexists; reflexivity. }
      destruct Hbs as [bs ->]. cbn [bind].
      left. unfold DiT.initialize_weights. cbv zeta.
      cbn [DiT.pos_embed DiT.zeros shape nth DiT.hidden_size]. rewrite Hh.
      rewrite get_2d_sincos_needs_mod4 by exact H4. reflexivity.
    + destruct depth as [|d].
      * cbn [seq mapM bind]. left.
        unfold DiT.initialize_weights. cbv zeta.
        cbn [DiT.pos_embed DiT.zeros shape nth DiT.hidden_size]. rewrite Hh.
        rewrite get_2d_sincos_needs_mod4 by exact H4. reflexivity.
      * cbn [seq]. rewrite mapM_const_raise. cbn [bind]. clear Hh.
        revert Eb. unfold DiTBlock.init, Attention_init.
        destruct (Nat.eqb num_heads 0); [intros H; injection H as <-; now right|].
        destruct (negb _); [intros H; injection H as <-; now left|].
        destruct (Nat.eqb _ 0); [intros H; injection H as <-; now right|].
        discriminate.
Qed.

(** X18. What a successful [DiT(...)] guarantees.  The width is a
    multiple of 4 and, with at least one block, a non-zero multiple of
    [num_heads]; there are [depth] blocks; [out_channels] is twice
    [in_channels] exactly when [learn_sigma] is set; the attribute [t]
    does not exist yet; the label embedder exists exactly for
    [extras = 2]; [pos_embed] has one row per patch; and [temp_embed] is
    the fixed sine/cosine table of the frame indices
    [0 .. num_frames - 1]; for a square grid of [g * g] patches
    [pos_embed] holds the 2-D table of grid size [g]. *)
Theorem DiT_init_postconditions (m : DiT.module Mlp Conv) :
  new_model = Ok m ->
  hidden_size mod 4 = 0
  /\ (0 < depth -> num_heads <> 0 /\ hidden_size mod num_heads = 0 /\ hidden_size <> 0)
  /\ length (DiT.blocks m) = depth
  /\ DiT.in_channels m = in_channels
  /\ DiT.out_channels m = (if learn_sigma then in_channels * 2 else in_channels)
  /\ DiT.hidden_size m = hidden_size
  /\ DiT.t m = None
  /\ DiT.gradient_checkpointing m = false
  /\ (DiT.y_embedder m = None <-> extras <> 2)
  /\ shape (DiT.pos_embed m)
     = [1; DiT.num_patches (PatchEmbed_init input_size patch_size in_channels hidden_size);
        hidden_size]
  /\ (forall g,
        DiT.num_patches (PatchEmbed_init input_size patch_size in_channels hidden_size)
        = g * g ->
        exists emb,
          SinCos.get_2d_sincos_pos_embed hidden_size g = Ok emb
          /\ data (DiT.pos_embed m) = map of_real (concat emb))
  /\ DiT.temp_embed m
     = {| shape := [1; num_frames; hidden_size];
          data := map of_real
                    (concat (SinCos.sincos_1d hidden_size (map INR (seq 0 num_frames)))) |}.
Proof.
  unfold DiT.init. intros Hm.
  destruct (mapM _ (seq 0 depth)) as [bs|] eqn:Ebs; [|discriminate Hm].
  cbn [bind] in Hm. unfold DiT.initialize_weights in Hm. cbv zeta in Hm.
  cbn [DiT.x_embedder DiT.pos_embed DiT.temp_embed DiT.extras DiT.y_embedder
       DiT.blocks DiT.t_embedder DiT.zeros shape nth DiT.hidden_size] in Hm.
  destruct (Nat.eqb hidden_size 0); [discriminate Hm|].
  destruct (Nat.eq_dec (hidden_size mod 4) 0) as [H4|H4].
  2:{ rewrite get_2d_sincos_needs_mod4 in Hm by exact H4. discriminate Hm. }
  destruct (SinCos.get_2d_sincos_pos_embed _ _) as [pe|] eqn:Epe; [|discriminate Hm].
  cbn [bind] in Hm.
  destruct (DiT.copy_ _ _) as [pos|] eqn:Epos; [|discriminate Hm]. cbn [bind] in Hm.
  assert (H2 : hidden_size mod 2 = 0) by (apply mod4_halves in H4; tauto).
  unfold SinCos.get_1d_sincos_temp_embed in Hm.
  rewrite get_1d_sincos_even in Hm by exact H2. cbn [bind] in Hm.
  assert (Etemp : DiT.copy_ (DiT.zeros [1; num_frames; hidden_size])
                    (DiT.from_numpy of_real
                       (SinCos.sincos_1d hidden_size (map INR (seq 0 num_frames)))
                       hidden_size)
                  = Ok {| shape := [1; num_frames; hidden_size];
                          data := map of_real
                                    (concat (SinCos.sincos_1d hidden_size
                                               (map INR (seq 0 num_frames)))) |}).
  { unfold DiT.copy_, DiT.from_numpy, DiT.zeros, SinCos.sincos_1d. cbn [shape data].
    rewrite !length_map, length_seq, shape_eqb_refl. reflexivity. }
  rewrite Etemp in Hm. cbn [bind] in Hm.
  assert (Hpos : shape pos
                 = [1; DiT.num_patches
                         (PatchEmbed_init input_size patch_size in_channels hidden_size);
                    hidden_size]).
  { revert Epos. unfold DiT.copy_. cbn [shape].
    destruct (shape_eqb _ _); [intros H; injection H as <-; reflexivity|].
    destruct (_ && _); [intros H; injection H as <-; reflexivity | discriminate]. }
  match type of Hm with
  | bind ?r _ = _ => destruct r as [ye|] eqn:Eye; [|discriminate Hm]
  end.
  cbn [bind] in Hm. injection Hm as <-.
  cbn [DiT.blocks DiT.in_channels DiT.out_channels DiT.hidden_size DiT.t
       DiT.gradient_checkpointing DiT.y_embedder DiT.pos_embed DiT.temp_embed].
  split; [exact H4|]. split.
  { intros Hd. destruct depth as [|d]; [lia|]. cbn [seq mapM] in Ebs.
    destruct new_block as [b|] eqn:Eb; [|discriminate Ebs].
    exact (new_block_ok Eb). }
  split; [rewrite length_map, (mapM_length _ _ Ebs); apply length_seq|].
  split; [reflexivity|]. split; [reflexivity|]. split; [reflexivity|].
  split; [reflexivity|]. split; [reflexivity|].
  split.
  { clear -Eye. destruct (Nat.eqb_spec extras 2) as [E|E]; injection Eye as <-.
    - split; [discriminate | intros Hn; contradiction].
    - split; [intros _; exact E | reflexivity]. }
  split; [exact Hpos|]. split; [|reflexivity].
  intros g Hg. rewrite Hg, Nat.sqrt_square in Epe.
  exists pe. split; [exact Epe|].
  revert Epos. unfold DiT.copy_, DiT.from_numpy, DiT.zeros. cbn [shape data].
  rewrite (get_2d_sincos_length _ _ Epe), <- Hg, shape_eqb_refl.
  intros H. injection H as <-. reflexivity.
Qed.

Lemma new_block_built :
  num_heads <> 0 -> hidden_size mod num_heads = 0 -> hidden_size <> 0 ->
  exists b, new_block = Ok b.
Proof.
  intros Hn Hm Hh. unfold DiTBlock.init, Attention_init.
  destruct (Nat.eqb_spec num_heads 0) as [E|_]; [contradiction|].
  rewrite Hm. cbn [Nat.eqb negb].
  destruct (Nat.eqb_spec (hidden_size / num_heads) 0) as [E|_].
  - exfalso. pose proof (mod_zero_div_mul hidden_size Hn Hm). nia.
  - cbn [bind]. eexists. reflexivity.
Qed.

Lemma init_built (g : nat) :
  hidden_size <> 0 ->
  depth = 0 \/ (num_heads <> 0 /\ hidden_size mod num_heads = 0) ->
  hidden_size mod 4 = 0 ->
  DiT.num_patches (PatchEmbed_init input_size patch_size in_channels hidden_size) = g * g ->
  exists m, new_model = Ok m /\ length (DiT.blocks m) = depth.
Proof.
  intros Hh Hblocks H4 Hg. unfold DiT.init.
  assert (Hbs : exists bs, mapM (fun _ : nat => new_block) (seq 0 depth) = Ok bs
                           /\ length bs = depth).
  { destruct Hblocks as [->|(Hn & Hm)]; [exists []; split; reflexivity|].
    destruct (new_block_built Hn Hm Hh) as [b ->].
    rewrite mapM_const_ok. eexists. split; [reflexivity|].
    now rewrite repeat_length, length_seq. }
  destruct Hbs as [bs [-> Hlen]]. cbn [bind].
  unfold DiT.initialize_weights. cbv zeta.
  cbn [DiT.x_embedder DiT.pos_embed DiT.temp_embed DiT.extras DiT.y_embedder
       DiT.blocks DiT.t_embedder DiT.zeros shape nth DiT.hidden_size].
  destruct (Nat.eqb_spec hidden_size 0) as [E|_]; [contradiction|].
  rewrite Hg, Nat.sqrt_square.
  destruct (@get_2d_sincos_ok hidden_size g H4) as [pe Epe]. rewrite Epe. cbn [bind].
  assert (Epos : DiT.copy_ (DiT.zeros [1; g * g; hidden_size])
                   (DiT.from_numpy of_real pe hidden_size)
                 = Ok {| shape := [1; g * g; hidden_size];
                         data := map of_real (concat pe) |}).
  { unfold DiT.copy_, DiT.from_numpy, DiT.zeros. cbn [shape data].
    rewrite (get_2d_sincos_length _ _ Epe), shape_eqb_refl. reflexivity. }
  rewrite Epos. cbn [bind].
  assert (H2 : hidden_size mod 2 = 0) by (apply mod4_halves in H4; tauto).
  unfold SinCos.get_1d_sincos_temp_embed.
  rewrite get_1d_sincos_even by exact H2. cbn [bind].
  assert (Etemp : DiT.copy_ (DiT.zeros [1; num_frames; hidden_size])
                    (DiT.from_numpy of_real
                       (SinCos.sincos_1d hidden_size (map INR (seq 0 num_frames)))
                       hidden_size)
                  = Ok {| shape := [1; num_frames; hidden_size];
                          data := map of_real
                                    (concat (SinCos.sincos_1d hidden_size
                                               (map INR (seq 0 num_frames)))) |}).
  { unfold DiT.copy_, DiT.from_numpy, DiT.zeros, SinCos.sincos_1d. cbn [shape data].
    rewrite !length_map, length_seq, shape_eqb_refl. reflexivity. }
  rewrite Etemp. cbn [bind].
  destruct (Nat.eqb extras 2); cbn [bind]; eexists; (split; [reflexivity|]);
    cbn [DiT.blocks]; now rewrite length_map.
Qed.

(** X21. The converse for the constructor: when [hidden_size] is a
    non-zero multiple of 4, the patch grid of timm's [PatchEmbed] is
    square, and either there is no block or [num_heads] is a non-zero
    divisor of [hidden_size], [DiT(...)] returns a model with [depth]
    blocks ([num_classes] and [mlp_ratio] are not negative, so that the
    embedding table and timm's MLP can be allocated; the constructors of
    timm and of VisionRoPE are taken to return).  With
    [hidden_size = 0] the constructor raises instead, also without a
    block: [xavier_uniform_] divides by zero on the square layer of the
    timestep embedder. *)
Theorem DiT_init_succeeds (g : nat) :
  (0 <= num_classes)%Z -> (0 <= mlp_ratio)%Q ->
  hidden_size <> 0 ->
  depth = 0 \/ (num_heads <> 0 /\ hidden_size mod num_heads = 0) ->
  hidden_size mod 4 = 0 ->
  DiT.num_patches (PatchEmbed_init input_size patch_size in_channels hidden_size) = g * g ->
  exists m,
    DiT.init of_real gen xavier normal inv_sqrt Mlp_init mlp_basic_init PatchEmbed_init
      patch_embed_init input_size patch_size patch_size_t in_channels hidden_size depth
      num_heads mlp_ratio num_frames class_dropout_prob num_classes learn_sigma extras
      attention_mode attention_pe_mode = Ok m
    /\ length (DiT.blocks m) = depth.
Proof.
  intros _ _ Hh Hblocks H4 Hg. exact (init_built g Hh Hblocks H4 Hg).
Qed.

(** Without a width the constructor never returns a model. *)
Lemma DiT_init_zero_width :
  hidden_size = 0 -> is_ok new_model = false.
Proof.
  intros Hh. unfold DiT.init.
  destruct (mapM _ (seq 0 depth)) as [bs|]; [|reflexivity].
  cbn [bind]. unfold DiT.initialize_weights. cbn [DiT.hidden_size].
  rewrite Hh. reflexivity.
Qed.

End Construction.

(** The constructor over the integers with one 1x1 patch, for a given
    width, depth and number of heads. *)
Definition tiny_init (hidden_size depth num_heads : nat)
  : result (DiT.module (A:=Z) unit unit) :=
  DiT.init (fun _ => 0%Z) (fun i j => Z.of_nat (i + j)) (fun _ _ => 1%Z) (fun _ _ => 2%Z)
    (fun _ => 1%Z) (fun _ _ => tt) (fun u => u)
    (fun input_size patch_size _ _ =>
       {| DiT.embed_patch_size := (patch_size, patch_size);
          DiT.num_patches := (input_size / patch_size) * (input_size / patch_size);
          DiT.embed_proj := tt |})
    (fun pe => pe)
    1 1 1 1 hidden_size depth num_heads 4%Q 1 (1 # 10)%Q 10%Z true 1 "math" "2d_rope".

Lemma DiT_init_rejects_witness :
  tiny_init 4 1 0 = Raise ZeroDivisionError
  /\ tiny_init 4 1 3 = Raise AssertionError
  /\ (tiny_init 6 0 1 = Raise AssertionError \/ tiny_init 6 0 1 = Raise ZeroDivisionError).
Proof.
  unfold tiny_init.
  split; [|split].
  - refine (proj1 (DiT_init_rejects _ _ _ _ _ _ _ _ _ _ _ _ _ 4 1 0 _ _ _ _ _ _
                     _ _) _ _).
    + discriminate.
    + discriminate.
    + lia.
    + reflexivity.
  - refine (proj1 (proj2 (DiT_init_rejects _ _ _ _ _ _ _ _ _ _ _ _ _ 4 1 3 _ _ _ _ _ _
                            _ _)) _ _ _).
    + discriminate.
    + discriminate.
    + lia.
    + discriminate.
    + discriminate.
  - refine (proj2 (proj2 (DiT_init_rejects _ _ _ _ _ _ _ _ _ _ _ _ _ 6 0 1 _ _ _ _ _ _
                            _ _)) _).
    + discriminate.
    + discriminate.
    + discriminate.
Defined.

Lemma DiT_init_postconditions_witness :
  exists m,
    tiny_init 4 1 1 = Ok m
    /\ length (DiT.blocks m) = 1
    /\ DiT.out_channels m = 2
    /\ DiT.t m = None
    /\ DiT.temp_embed m
       = {| shape := [1; 1; 4];
            data := map (fun _ => 0%Z) (concat (SinCos.sincos_1d 4 (map INR (seq 0 1)))) |}.
Proof.
  assert (Hm : exists m, tiny_init 4 1 1 = Ok m).
  { unfold tiny_init. eexists. reflexivity. }
  destruct Hm as [m Hm]. exists m. split; [exact Hm|].
  unfold tiny_init in Hm.
  pose proof (DiT_init_postconditions _ _ _ _ _ _ _ _ _ _ _ _ _ _ _ _ _ _ _ _ _ _ _ _ Hm)
    as (_ & _ & Hb & _ & Ho & _ & Ht & _ & _ & _ & _ & Hte).
  repeat split; assumption.
Defined.

(** ** The shape of the attention output *)

Section AttentionShape.

Context {A : Type} {SA : Scalar A}.

Local Abbreviation vec := (list A).
Local Abbreviation mat := (list (list A)).
Local Abbreviation t3 := (list (list (list A))).
Local Abbreviation t4 := (list (list (list (list A)))).
Local Abbreviation t5 := (list (list (list (list (list A))))).

Variable softmax : vec -> vec.
Variable drop : Q -> vec -> vec.
Variable scaled_dot_product_attention :
  sdp_kernel -> t4 -> t4 -> t4 -> option t4 -> Q -> A -> result t4.
Variable rope : t5 -> t5.
Variable env : imports A.

Lemma rope_frames_length (self : Attention A) (q : t4) :
  (forall t, same_rows (rope t) t) ->
  length (rope_frames rope self q) = length q.
Proof.
  intros Hr. unfold rope_frames. cbv zeta.
  set (q_t := map (map (chunks (fst (hw self) * snd (hw self)))) q).
  pose proof (Hr q_t) as H. unfold same_rows in H.
  apply (f_equal (@length _)) in H. rewrite !length_map in H.
  rewrite length_map, H. unfold q_t. apply length_map.
Qed.

Lemma dropout_length (p : Q) (tr : bool) (row : vec) :
  (forall p r, length (drop p r) = length r) ->
  length (dropout drop p tr row) = length row.
Proof.
  intros Hd. unfold dropout. destruct (_ && _); [apply Hd | reflexivity].
Qed.

Lemma linear_length (l : Linear A) (C : nat) (v : vec) :
  length (weight l) = C ->
  option_map (@length A) (bias l) = Some C ->
  length (linear l v) = C.
Proof.
  intros Hw Hb. unfold linear. destruct (bias l) as [b|]; [|discriminate Hb].
  injection Hb as Hb. rewrite zip_with_length, length_map, Hw, Hb. apply Nat.min_id.
Qed.

Lemma Attention_forward_math_shape (self : Attention A) (x : t3) (B N C : nat)
    (attn_mask : option t4) :
  attention_mode self = "math"%string ->
  attention_suits self N C ->
  (forall t, same_rows (rope t) t) ->
  (forall p r, length (drop p r) = length r) ->
  0 < B ->
  has_shape3 B N C x ->
  (forall m, attn_mask = Some m -> has_shape4 B 1 N N m) ->
  exists out,
    Attention_forward softmax drop scaled_dot_product_attention rope env self x attn_mask
    = Ok out
    /\ has_shape3 B N C out.
Proof.
  intros Hmode Hsuit Hrope Hdrop HB Hshape Hmask.
  pose proof (rope_view_ok_suits HB Hshape Hsuit) as Hview.
  destruct Hshape as [HxB Hx].
  destruct Hsuit as (_ & _ & _ & _ & Hpw & _ & Hpb & _).
  assert (HN : length (hd [] x) = N).
  { destruct x as [|s x']; [simpl in HxB; lia|]. inversion Hx; subst. tauto. }
  unfold Attention_forward. cbv zeta. rewrite Hmode. simpl String.eqb. cbv iota.
  assert (Hq : forall q0 : t4,
             (if String.eqb (attention_pe_mode self) "2d_rope"
              then apply_rope rope self (length x) (length (hd [] x)) q0
              else Ok q0)
             = Ok (if String.eqb (attention_pe_mode self) "2d_rope"
                   then rope_frames rope self q0 else q0)).
  { intros q0. unfold apply_rope.
    destruct (String.eqb (attention_pe_mode self) "2d_rope"); [|reflexivity].
    now rewrite (Hview eq_refl). }
  rewrite !Hq. clear Hq Hview.
  cbn [bind]. eexists. split; [reflexivity|].
  rewrite HN.
  set (y := linear3 (qkv self) x).
  set (c := length (hd [] (hd [] x)) / num_heads self).
  assert (Hsplit : forall s, length (split_heads (num_heads self) c s y) = B).
  { intros s. unfold split_heads, y, linear3. now rewrite !length_map. }
  assert (HQ : forall s,
             length (if String.eqb (attention_pe_mode self) "2d_rope"
                     then rope_frames rope self (split_heads (num_heads self) c s y)
                     else split_heads (num_heads self) c s y) = B).
  { intros s. destruct (String.eqb _ _); [rewrite rope_frames_length by exact Hrope|];
      apply Hsplit. }
  unfold math_attention. cbv zeta.
  set (q := if String.eqb (attention_pe_mode self) "2d_rope" then _ else _) in *.
  set (k := if String.eqb (attention_pe_mode self) "2d_rope" then _ else _) in *.
  set (mask := option_map _ attn_mask).
  set (attn0 := match mask with Some m => _ | None => _ end).
  assert (Hattn0 : length attn0 = B).
  { unfold attn0, mask. destruct attn_mask as [m|]; cbn [option_map].
    - destruct (Hmask m eq_refl) as [Hm _].
      unfold zip4, make_attn_bias, zip4, map4, scores.
      rewrite !zip_with_length, !length_map.
      fold q k. unfold q at 1, k at 1. rewrite (HQ 0), (HQ 1). lia.
    - unfold scores. rewrite zip_with_length.
      fold q k. unfold q at 1, k at 1. rewrite (HQ 0), (HQ 1). lia. }
  set (attn1 := map (map (map softmax)) attn0).
  set (attn2 := if any_isnan attn1 then _ else attn1).
  assert (Hattn2 : length attn2 = B).
  { unfold attn2, attn1, map4. destruct (any_isnan _); now rewrite ?length_map. }
  split.
  - unfold linear3, merge_heads.
    rewrite !length_map, zip_with_length, length_map, Hattn2, Hsplit. lia.
  - apply Forall_forall. intros sample Hin.
    unfold linear3, merge_heads in Hin. rewrite !map_map in Hin.
    apply in_map_iff in Hin. destruct Hin as [heads [<- _]].
    split; [now rewrite !length_map, length_seq|].
    apply Forall_forall. intros tok Htok. rewrite !map_map in Htok.
    apply in_map_iff in Htok. destruct Htok as [n [<- _]].
    rewrite dropout_length by exact Hdrop.
    apply linear_length; assumption.
Qed.

(** X19. The math backend keeps the shape.  For a layer that suits the
    input, a rotary embedding and a dropout that keep shapes, an input of
    shape [(B, N, C)] with [B >= 1] and no mask or a mask of shape
    [(B, 1, N, N)], [Attention.forward] returns a tensor of shape
    [(B, N, C)]. *)
Theorem attention_math_keeps_shape (self : Attention A) (x : t3) (B N C : nat)
    (attn_mask : option t4) :
  attention_mode self = "math"%string ->
  attention_suits self N C ->
  (forall t, same_rows (rope t) t) ->
  (forall p r, length (drop p r) = length r) ->
  0 < B ->
  has_shape3 B N C x ->
  (forall m, attn_mask = Some m -> has_shape4 B 1 N N m) ->
  exists out,
    Attention_forward softmax drop scaled_dot_product_attention rope env self x attn_mask
    = Ok out
    /\ has_shape3 B N C out.
Proof.
  intros Hmode Hsuit Hrope Hdrop HB Hx Hmask.
  exact (Attention_forward_math_shape Hmode Hsuit Hrope Hdrop HB Hx Hmask).
Qed.

End AttentionShape.

Lemma attention_math_keeps_shape_witness :
  exists out,
    Attention_forward (fun r => r) (fun _ r => r) no_fused_kernel rope_identity no_imports
      (tiny_attention "math") tiny_sequence None
    = Ok out
    /\ has_shape3 1 2 2 out.
Proof.
  apply (attention_math_keeps_shape (fun r => r) (fun _ r => r) no_fused_kernel
           rope_identity no_imports (self := tiny_attention "math") (x := tiny_sequence)
           (B := 1) (N := 2) (C := 2) (attn_mask := None)).
  - reflexivity.
  - unfold attention_suits, tiny_attention.
    cbn [num_heads qkv proj weight bias hw attention_pe_mode fst snd option_map length].
    repeat split; try reflexivity; try discriminate; repeat constructor.
  - intros t. reflexivity.
  - intros p r. reflexivity.
  - lia.
  - unfold has_shape3, tiny_sequence. split; [reflexivity|]. repeat constructor.
  - intros m H. discriminate H.
Defined.

(** ** The pairwise mask, entry by entry *)

Lemma nth_concat_uniform {X : Type} (l : list (list X)) (n i j : nat) (d : X) :
  Forall (fun r => length r = n) l -> i < length l -> j < n ->
  nth (i * n + j) (concat l) d = nth j (nth i l []) d.
Proof.
  revert i; induction l as [|r l IH]; intros i Hf Hi Hj; [simpl in Hi; lia|].
  inversion Hf as [|? ? Hr Hl]; subst. destruct i as [|i]; cbn [concat nth].
  - rewrite Nat.mul_0_l, Nat.add_0_l. apply app_nth1. lia.
  - replace (S i * length r + j) with (length r + (i * length r + j)) by lia.
    rewrite app_nth2_plus. apply IH; [exact Hl | simpl in Hi; lia | exact Hj].
Qed.

Lemma rows_of_nth {X : Type} (count size : nat) (d : list X) (b : nat) :
  b < count ->
  nth b (rows_of count size d) [] = firstn size (skipn (b * size) d).
Proof.
  intros Hb. unfold rows_of.
  rewrite (nth_indep _ [] ((fun i => firstn size (skipn (i * size) d)) 0))
    by (now rewrite length_map, length_seq).
  rewrite (map_nth (fun i => firstn size (skipn (i * size) d))), seq_nth by exact Hb.
  reflexivity.
Qed.

Lemma rows_of_full_rows {X : Type} (count size : nat) (d : list X) :
  length d = count * size ->
  Forall (fun r => length r = size) (rows_of count size d).
Proof.
  intros Hd. apply Forall_forall. intros r Hin. unfold rows_of in Hin.
  apply in_map_iff in Hin. destruct Hin as [i [<- Hi]]. apply in_seq in Hi.
  rewrite length_firstn, length_skipn. nia.
Qed.

Lemma nth_firstn_skipn {X : Type} (size off i : nat) (d : list X) (x : X) :
  i < size -> nth i (firstn size (skipn off d)) x = nth (off + i) d x.
Proof.
  intros Hi. rewrite nth_firstn.
  destruct (Nat.ltb_spec i size) as [_|H]; [|lia]. apply nth_skipn.
Qed.

Section MaskEntries.

Context {A : Type} {SA : Scalar A}.


End MaskEntries.


Lemma DiT_init_succeeds_witness :
  exists m, tiny_init 4 1 1 = Ok m /\ length (DiT.blocks m) = 1.
Proof.
  unfold tiny_init.
  refine (DiT_init_succeeds _ _ _ _ _ _ _ _ _ 1 1 1 1 (hidden_size := 4) (depth := 1)
            (num_heads := 1) _ _ _ _ _ _ 1 _ _ _ _ _ _).
  - discriminate.
  - discriminate.
  - discriminate.
  - right. split; [discriminate | reflexivity].
  - reflexivity.
  - reflexivity.
Defined.

(** ** The preset configurations *)

Section Presets.

Context {A : Type} {SA : Scalar A}.

Variable Mlp : Type.
Variable Conv : Type.
Variable of_real : R -> A.
Variable gen : nat -> nat -> A.
Variable xavier : nat -> nat -> A.
Variable normal : nat -> nat -> A.
Variable inv_sqrt : nat -> A.
Variable Mlp_init : nat -> nat -> Mlp.
Variable mlp_basic_init : Mlp -> Mlp.
Variable PatchEmbed_init : nat -> nat -> nat -> nat -> DiT.PatchEmbed Conv.
Variable patch_embed_init : DiT.PatchEmbed Conv -> DiT.PatchEmbed Conv.

(** The keyword arguments a preset passes on to [DiT]: those of
    [DiT.__init__] that the preset does not fix itself (naming one of the
    fixed ones again is a [TypeError] at the call).  [pt_input_size] and
    [intp_vfreq] only select the rotary tables. *)
Record kwargs : Type := {
  kw_input_size : nat;
  kw_in_channels : nat;
  kw_mlp_ratio : Q;
  kw_num_frames : nat;
  kw_class_dropout_prob : Q;
  kw_num_classes : Z;
  kw_learn_sigma : bool;
  kw_extras : nat;
  kw_attention_mode : string;
  kw_attention_pe_mode : string
}.

(** [DiT(depth=.., hidden_size=.., patch_size_t=.., patch_size=..,
    num_heads=.., **kwargs)]. *)
Definition DiT_call (depth hidden_size patch_size_t patch_size num_heads : nat)
    (kw : kwargs) : result (DiT.module Mlp Conv) :=
  DiT.init of_real gen xavier normal inv_sqrt Mlp_init mlp_basic_init PatchEmbed_init
    patch_embed_init (kw_input_size kw) patch_size patch_size_t (kw_in_channels kw)
    hidden_size depth num_heads (kw_mlp_ratio kw) (kw_num_frames kw)
    (kw_class_dropout_prob kw) (kw_num_classes kw) (kw_learn_sigma kw) (kw_extras kw)
    (kw_attention_mode kw) (kw_attention_pe_mode kw).

(** The preset constructors, lines 509-543. *)
Definition DiT_XL_122 := DiT_call 28 1152 1 2 16.
Definition DiT_XL_144 := DiT_call 28 1152 1 4 16.
Definition DiT_XL_188 := DiT_call 28 1152 1 8 16.
Definition DiT_L_122 := DiT_call 24 1024 1 2 16.
Definition DiT_L_144 := DiT_call 24 1024 1 4 16.
Definition DiT_L_188 := DiT_call 24 1024 1 8 16.
Definition DiT_B_122 := DiT_call 12 768 1 2 12.
Definition DiT_B_144 := DiT_call 12 768 1 4 12.
Definition DiT_B_188 := DiT_call 12 768 1 8 12.
Definition DiT_S_122 := DiT_call 12 384 1 2 6.
Definition DiT_S_144 := DiT_call 12 384 1 4 6.
Definition DiT_S_188 := DiT_call 12 384 1 8 6.

(** The registry [DiT_models], lines 546-551. *)
Definition DiT_models : list (string * (kwargs -> result (DiT.module Mlp Conv))) :=
  [("DiT-XL/122", DiT_XL_122); ("DiT-XL/144", DiT_XL_144); ("DiT-XL/188", DiT_XL_188);
   ("DiT-L/122", DiT_L_122); ("DiT-L/144", DiT_L_144); ("DiT-L/188", DiT_L_188);
   ("DiT-B/122", DiT_B_122); ("DiT-B/144", DiT_B_144); ("DiT-B/188", DiT_B_188);
   ("DiT-S/122", DiT_S_122); ("DiT-S/144", DiT_S_144); ("DiT-S/188", DiT_S_188)]%string.

Lemma DiT_call_built (depth hidden_size patch_size_t patch_size num_heads : nat)
    (kw : kwargs) :
  (forall i p c h, exists g, DiT.num_patches (PatchEmbed_init i p c h) = g * g) ->
  num_heads <> 0 -> hidden_size mod num_heads = 0 -> hidden_size <> 0 ->
  hidden_size mod 4 = 0 ->
  exists m,
    DiT_call depth hidden_size patch_size_t patch_size num_heads kw = Ok m
    /\ length (DiT.blocks m) = depth.
Proof.
  intros Hsq Hn Hm Hh H4. unfold DiT_call.
  destruct (Hsq (kw_input_size kw) patch_size (kw_in_channels kw) hidden_size) as [g Hg].
  apply init_built with (g := g); [exact Hh | right; auto | exact H4 | exact Hg].
Qed.

(** X22. The registry holds twelve distinct names, and every preset is a
    valid configuration: whatever the remaining keyword arguments are
    (with [num_classes] and [mlp_ratio] not negative), the constructor
    passes the divisibility checks of [Attention] and of the positional
    tables and returns a model with the preset's number of blocks (12,
    24 or 28), given that timm's patch grid is square. *)
Theorem DiT_models_construct :
  (forall i p c h, exists g, DiT.num_patches (PatchEmbed_init i p c h) = g * g) ->
  NoDup (map fst DiT_models)
  /\ length DiT_models = 12
  /\ forall name ctor (kw : kwargs),
       (0 <= kw_num_classes kw)%Z -> (0 <= kw_mlp_ratio kw)%Q ->
       In (name, ctor) DiT_models ->
       exists m, ctor kw = Ok m /\ In (length (DiT.blocks m)) [12; 24; 28].
Proof.
  intros Hsq. split; [|split; [reflexivity|]].
  - unfold DiT_models. cbn [map fst].
    repeat (constructor; [cbn [In]; intros H;
                          repeat (destruct H as [H|H]; [discriminate H|]); exact H|]).
    constructor.
  - intros name ctor kw _ _ Hin. unfold DiT_models in Hin. cbn [In] in Hin.
    repeat (destruct Hin as [Hin|Hin];
            [injection Hin as _ <-;
             match goal with
             | |- exists m, ?f kw = _ /\ _ => unfold f
             end;
             match goal with
             | |- exists m, DiT_call ?d ?h ?pt ?p ?n kw = _ /\ _ =>
                 destruct (@DiT_call_built d h pt p n kw Hsq) as [m [Hm Hl]];
                 [discriminate | reflexivity | discriminate | reflexivity |];
                 exists m; split; [exact Hm | rewrite Hl; cbn [In]; auto]
             end|]).
    destruct Hin.
Qed.

End Presets.

Lemma DiT_models_construct_witness :
  exists m,
    DiT_S_188 (fun _ => 0%Z) (fun i j => Z.of_nat (i + j)) (fun _ _ => 1%Z)
      (fun _ _ => 2%Z) (fun _ => 1%Z) (fun _ _ => tt) (fun u => u)
      (fun input_size patch_size _ _ =>
         {| DiT.embed_patch_size := (patch_size, patch_size);
            DiT.num_patches := (input_size / patch_size) * (input_size / patch_size);
            DiT.embed_proj := tt |})
      (fun pe => pe)
      {| kw_input_size := 32; kw_in_channels := 4; kw_mlp_ratio := 4%Q;
         kw_num_frames := 16; kw_class_dropout_prob := (1 # 10)%Q;
         kw_num_classes := 1000%Z; kw_learn_sigma := true; kw_extras := 1;
         kw_attention_mode := "math"; kw_attention_pe_mode := "2d_rope" |}
    = Ok m
    /\ In (length (DiT.blocks m)) [12; 24; 28].
Proof.
  refine (proj2 (proj2 (DiT_models_construct (fun _ => 0%Z) (fun i j => Z.of_nat (i + j))
            (fun _ _ => 1%Z) (fun _ _ => 2%Z) (fun _ => 1%Z) (fun _ _ => tt) (fun u => u)
            (fun input_size patch_size _ _ =>
               {| DiT.embed_patch_size := (patch_size, patch_size);
                  DiT.num_patches := (input_size / patch_size) * (input_size / patch_size);
                  DiT.embed_proj := tt |})
            (fun pe => pe) _)) "DiT-S/188"%string _ _ _ _ _).
  - intros i p c h. exists (i / p). reflexivity.
  - discriminate.
  - discriminate.
  - unfold DiT_models. cbn [In]. do 11 right. left. reflexivity.
Defined.

(** ** The rearrangements around the temporal embedding *)

Lemma nth_error_gather {X : Type} (idxs : list nat) (d : list X) (o : nat) :
  Forall (fun i => i < length d) idxs ->
  nth_error (gather idxs d) o
  = match nth_error idxs o with Some i => nth_error d i | None => None end.
Proof.
  intros Hf. revert o; induction Hf as [|i idxs Hi Hf IH]; intros o.
  - destruct o; reflexivity.
  - unfold gather in *. cbn [flat_map].
    destruct (nth_error d i) as [v|] eqn:Ev.
    + destruct o as [|o]; cbn [app nth_error]; [symmetry; exact Ev | apply IH].
    + apply nth_error_None in Ev. lia.
Qed.

Lemma length_gather {X : Type} (idxs : list nat) (d : list X) :
  Forall (fun i => i < length d) idxs -> length (gather idxs d) = length idxs.
Proof.
  intros Hf. induction Hf as [|i idxs Hi Hf IH]; [reflexivity|].
  unfold gather in *. cbn [flat_map].
  destruct (nth_error d i) as [v|] eqn:Ev.
  - cbn [app length]. now rewrite IH.
  - apply nth_error_None in Ev. lia.
Qed.

Lemma nth_error_flat_map_uniform {X Y : Type} (f : X -> list Y) (l : list X)
    (n i j : nat) :
  (forall x, length (f x) = n) -> j < n ->
  nth_error (flat_map f l) (i * n + j)
  = match nth_error l i with Some x => nth_error (f x) j | None => None end.
Proof.
  intros Hf Hj. revert i; induction l as [|x l IH]; intros i.
  - cbn [flat_map]. destruct i; now destruct (_ + _).
  - cbn [flat_map]. destruct i as [|i]; cbn [nth_error].
    + rewrite Nat.mul_0_l, Nat.add_0_l. apply nth_error_app1. rewrite Hf. exact Hj.
    + rewrite nth_error_app2 by (rewrite Hf; lia).
      replace (S i * n + j - length (f x)) with (i * n + j) by (rewrite Hf; lia).
      apply IH.
Qed.

Lemma nth_error_seq0 (n i : nat) : i < n -> nth_error (seq 0 n) i = Some i.
Proof.
  intros Hi. rewrite nth_error_seq. destruct (Nat.ltb_spec i n); [reflexivity | lia].
Qed.

Lemma digit_bound (x y n m : nat) : x < n -> y < m -> x * m + y < n * m.
Proof. intros Hx Hy. nia. Qed.

(** The positions [swap_middle] reads, in the order it writes them. *)
Definition swap_positions (a p q inner : nat) : list nat :=
  flat_map (fun i =>
    flat_map (fun j =>
      flat_map (fun k =>
        map (fun l => ((i * p + k) * q + j) * inner + l) (seq 0 inner))
        (seq 0 p))
      (seq 0 q))
    (seq 0 a).

Lemma swap_positions_length (a p q inner : nat) :
  length (swap_positions a p q inner) = a * (q * (p * inner)).
Proof.
  unfold swap_positions.
  rewrite flat_map_length_const with (k := q * (p * inner)).
  - now rewrite length_seq.
  - intros i _. rewrite flat_map_length_const with (k := p * inner).
    + now rewrite length_seq.
    + intros j _. rewrite flat_map_length_const with (k := inner).
      * now rewrite length_seq.
      * intros k _. now rewrite length_map, length_seq.
Qed.

Lemma swap_positions_nth (a p q inner i j k l : nat) :
  i < a -> j < q -> k < p -> l < inner ->
  nth_error (swap_positions a p q inner) (((i * q + j) * p + k) * inner + l)
  = Some (((i * p + k) * q + j) * inner + l).
Proof.
  intros Hi Hj Hk Hl. unfold swap_positions.
  assert (L3 : forall i0 j0 k0 : nat,
             length (map (fun l0 => ((i0 * p + k0) * q + j0) * inner + l0) (seq 0 inner))
             = inner).
  { intros. now rewrite length_map, length_seq. }
  assert (L2 : forall i0 j0 : nat,
             length (flat_map (fun k0 =>
                        map (fun l0 => ((i0 * p + k0) * q + j0) * inner + l0)
                            (seq 0 inner)) (seq 0 p))
             = p * inner).
  { intros. rewrite flat_map_length_const with (k := inner).
    - now rewrite length_seq.
    - intros; apply L3. }
  assert (L1 : forall i0 : nat,
             length (flat_map (fun j0 =>
                       flat_map (fun k0 =>
                         map (fun l0 => ((i0 * p + k0) * q + j0) * inner + l0)
                             (seq 0 inner)) (seq 0 p)) (seq 0 q))
             = q * (p * inner)).
  { intros. rewrite flat_map_length_const with (k := p * inner).
    - now rewrite length_seq.
    - intros; apply L2. }
  replace (((i * q + j) * p + k) * inner + l)
    with (i * (q * (p * inner)) + (j * (p * inner) + (k * inner + l))) by ring.
  pose proof (digit_bound Hk Hl) as B3.
  pose proof (digit_bound Hj B3) as B2.
  rewrite (nth_error_flat_map_uniform _ (seq 0 a) i L1) by exact B2.
  rewrite nth_error_seq0 by exact Hi.
  rewrite (nth_error_flat_map_uniform _ (seq 0 q) j (L2 i)) by exact B3.
  rewrite nth_error_seq0 by exact Hj.
  rewrite (nth_error_flat_map_uniform _ (seq 0 p) k (L3 i j)) by exact Hl.
  rewrite nth_error_seq0 by exact Hk.
  rewrite nth_error_map, nth_error_seq0 by exact Hl. reflexivity.
Qed.

Lemma swap_positions_bound (a p q inner : nat) :
  Forall (fun x => x < a * (p * (q * inner))) (swap_positions a p q inner).
Proof.
  apply Forall_forall. intros x Hx. unfold swap_positions in Hx.
  apply in_flat_map in Hx. destruct Hx as [i [Hi Hx]]. apply in_seq in Hi.
  apply in_flat_map in Hx. destruct Hx as [j [Hj Hx]]. apply in_seq in Hj.
  apply in_flat_map in Hx. destruct Hx as [k [Hk Hx]]. apply in_seq in Hk.
  apply in_map_iff in Hx. destruct Hx as [l [<- Hl]]. apply in_seq in Hl.
  assert (Hi' : i < a) by lia. assert (Hj' : j < q) by lia.
  assert (Hk' : k < p) by lia. assert (Hl' : l < inner) by lia.
  pose proof (digit_bound Hi' (digit_bound Hk' (digit_bound Hj' Hl'))) as B.
  replace (((i * p + k) * q + j) * inner + l)
    with (i * (p * (q * inner)) + (k * (q * inner) + (j * inner + l))) by ring.
  lia.
Qed.

(** Splitting a position of a tensor of shape [(a, p, q, inner)] into
    its four indices. *)
Lemma index_split4 (a p q inner o : nat) :
  o < a * (p * (q * inner)) ->
  exists i j k l,
    i < a /\ j < p /\ k < q /\ l < inner
    /\ o = ((i * p + j) * q + k) * inner + l.
Proof.
  intros Ho.
  destruct (digit_split inner (a * p * q) (x:=o)) as [E1 [B1 L1]]; [nia|].
  set (o1 := o / inner) in *.
  destruct (digit_split q (a * p) (x:=o1)) as [E2 [B2 L2]]; [nia|].
  set (o2 := o1 / q) in *.
  destruct (digit_split p a (x:=o2)) as [E3 [B3 L3]]; [nia|].
  exists (o2 / p), (o2 mod p), (o1 mod q), (o mod inner).
  repeat split; try assumption.
  rewrite <- E3, <- E2. exact E1.
Qed.

Lemma swap_middle_nth {X : Type} (a p q inner i j k l : nat) (d : list X) :
  length d = a * (p * (q * inner)) ->
  i < a -> j < q -> k < p -> l < inner ->
  nth_error (gather (swap_positions a p q inner) d) (((i * q + j) * p + k) * inner + l)
  = nth_error d (((i * p + k) * q + j) * inner + l).
Proof.
  intros Hd Hi Hj Hk Hl.
  rewrite nth_error_gather by (rewrite Hd; apply swap_positions_bound).
  now rewrite swap_positions_nth.
Qed.

Lemma swap_middle_length {X : Type} (a p q inner : nat) (d : list X) :
  length d = a * (p * (q * inner)) ->
  length (gather (swap_positions a p q inner) d) = a * (q * (p * inner)).
Proof.
  intros Hd. rewrite length_gather by (rewrite Hd; apply swap_positions_bound).
  apply swap_positions_length.
Qed.

(** Exchanging the middle axes twice gives the tensor back. *)
Lemma swap_middle_twice {X : Type} (a p q inner : nat) (d : list X) :
  length d = a * (p * (q * inner)) ->
  gather (swap_positions a q p inner) (gather (swap_positions a p q inner) d) = d.
Proof.
  intros Hd. pose proof (@swap_middle_length _ a p q inner d Hd) as H1.
  pose proof (@swap_middle_length _ a q p inner _ H1) as H2.
  apply nth_error_ext. intros o.
  destruct (Nat.lt_ge_cases o (a * (p * (q * inner)))) as [Ho|Ho].
  - destruct (@index_split4 a p q inner o Ho) as (i & j & k & l & Hi & Hj & Hk & Hl & ->).
    rewrite (@swap_middle_nth _ a q p inner i j k l _ H1) by assumption.
    apply swap_middle_nth; assumption.
  - transitivity (@None X); [|symmetry]; apply nth_error_None; lia.
Qed.

Lemma nth_of_nth_error {X : Type} (l l' : list X) (n m : nat) (d : X) :
  nth_error l n = nth_error l' m -> nth n l d = nth m l' d.
Proof.
  intros H. destruct (nth_error l n) as [v|] eqn:E.
  - symmetry in H. rewrite (nth_error_nth _ _ d E), (nth_error_nth _ _ d H). reflexivity.
  - symmetry in H. apply nth_error_None in E, H.
    rewrite !nth_overflow by assumption. reflexivity.
Qed.

Lemma nth_zip_with {X Y Z : Type} (f : X -> Y -> Z) (a : list X) (b : list Y) (i : nat)
    (dx : X) (dy : Y) (dz : Z) :
  i < length a -> i < length b ->
  nth i (zip_with f a b) dz = f (nth i a dx) (nth i b dy).
Proof.
  revert b i; induction a as [|x a IH]; intros [|y b] i Ha Hb; simpl in *; try lia.
  destruct i as [|i]; [reflexivity|]. apply IH; lia.
Qed.

Section TemporalEmbedding.

Context {A : Type} {SA : Scalar A}.

(** The broadcast addition, entry by entry: row [r] of [d] plus [v]. *)
Lemma nth_rows_plus (rows size r o : nat) (d v : list A) :
  length d = rows * size -> length v = size -> r < rows -> o < size ->
  nth (r * size + o)
      (concat (map (fun row => zip_with s_add row v) (rows_of rows size d))) s_zero
  = s_add (nth (r * size + o) d s_zero) (nth o v s_zero).
Proof.
  intros Hd Hv Hr Ho.
  pose proof (@rows_of_full_rows _ rows size d Hd) as Hrows.
  assert (Hf : Forall (fun row => length row = size)
                 (map (fun row => zip_with s_add row v) (rows_of rows size d))).
  { apply Forall_forall. intros row Hin. apply in_map_iff in Hin.
    destruct Hin as [r0 [<- Hr0]]. rewrite Forall_forall in Hrows.
    rewrite zip_with_length, (Hrows r0 Hr0), Hv. apply Nat.min_id. }
  rewrite (nth_concat_uniform s_zero Hf);
    [| unfold rows_of; now rewrite !length_map, length_seq | exact Ho].
  rewrite (nth_indep _ [] ((fun row => zip_with s_add row v) []))
    by (unfold rows_of; now rewrite !length_map, length_seq).
  rewrite (map_nth (fun row => zip_with s_add row v)), rows_of_nth by exact Hr.
  rewrite (nth_zip_with _ _ _ s_zero s_zero);
    [| rewrite length_firstn, length_skipn; nia | lia].
  now rewrite nth_firstn_skipn by exact Ho.
Qed.

Lemma length_rows_plus (rows size : nat) (d v : list A) :
  length d = rows * size -> length v = size ->
  length (concat (map (fun row => zip_with s_add row v) (rows_of rows size d)))
  = rows * size.
Proof.
  intros Hd Hv. rewrite <- flat_map_concat_map.
  rewrite flat_map_length_const with (k := size).
  - unfold rows_of. now rewrite length_map, length_seq.
  - intros row Hin. pose proof (@rows_of_full_rows _ rows size d Hd) as Hrows.
    rewrite Forall_forall in Hrows.
    rewrite zip_with_length, (Hrows row Hin), Hv. apply Nat.min_id.
Qed.

(** X23. The two rearrangements around the temporal embedding,
    ['(b t) n c -> (b n) t c'] and ['(b n) t c -> b (t n) c'], compose to
    a plain reshape: the second undoes the transposition of the first, so
    the tokens reach the blocks in the order of the input, frame after
    frame. *)
Theorem temporal_rearranges_are_a_reshape (x : Tensor A) (b t n c : nat) :
  shape x = [b * t; n; c] ->
  length (data x) = b * (t * (n * c)) ->
  0 < b -> 0 < t ->
  exists x1,
    rearrange_bt_n_c t x = Ok x1
    /\ shape x1 = [b * n; t; c]
    /\ rearrange_bn_t_c b x1 = Ok {| shape := [b; t * n; c]; data := data x |}.
Proof.
  intros Hs Hd Hb Ht.
  assert (E1 : (b * t) mod t = 0) by (apply Nat.Div0.mod_mul).
  assert (E2 : b * t / t = b) by (apply Nat.div_mul; lia).
  assert (E3 : (b * n) mod b = 0) by (rewrite Nat.mul_comm; apply Nat.Div0.mod_mul).
  assert (E4 : b * n / b = n) by (rewrite Nat.mul_comm; apply Nat.div_mul; lia).
  unfold rearrange_bt_n_c. rewrite Hs, E1, E2.
  destruct (Nat.eqb_spec t 0) as [H0|_]; [lia|]. cbn [Nat.eqb negb orb].
  eexists. split; [reflexivity|]. split; [reflexivity|].
  unfold rearrange_bn_t_c. cbn [shape data]. rewrite E3, E4.
  destruct (Nat.eqb_spec b 0) as [H0|_]; [lia|]. cbn [Nat.eqb negb orb].
  f_equal. f_equal. apply (swap_middle_twice b t n c (data x) Hd).
Qed.

(** X24. Each token receives the temporal embedding of its own frame.
    Lines 403-405 of [forward] rearrange the tokens to [(b n) t c], add
    [temp_embed] of shape [(1, t, c)], and rearrange to [b (t n) c]; in
    the result, channel [ic] of token [jn] of frame [it] of sample [ib]
    is the input value plus [temp_embed[0, it, ic]]. *)
Theorem temporal_embedding_placement (x temp : Tensor A) (b t n c : nat) :
  shape x = [b * t; n; c] ->
  length (data x) = b * (t * (n * c)) ->
  shape temp = [1; t; c] ->
  length (data temp) = t * c ->
  0 < b -> 0 < t ->
  exists x1 x2 x3,
    rearrange_bt_n_c t x = Ok x1
    /\ add_broadcast0 x1 temp = Ok x2
    /\ rearrange_bn_t_c b x2 = Ok x3
    /\ shape x3 = [b; t * n; c]
    /\ forall ib it jn ic,
         ib < b -> it < t -> jn < n -> ic < c ->
         nth (((ib * t + it) * n + jn) * c + ic) (data x3) s_zero
         = s_add (nth (((ib * t + it) * n + jn) * c + ic) (data x) s_zero)
                 (nth (it * c + ic) (data temp) s_zero).
Proof.
  intros Hs Hd Hts Htd Hb Ht.
  assert (E1 : (b * t) mod t = 0) by (apply Nat.Div0.mod_mul).
  assert (E2 : b * t / t = b) by (apply Nat.div_mul; lia).
  assert (E3 : (b * n) mod b = 0) by (rewrite Nat.mul_comm; apply Nat.Div0.mod_mul).
  assert (E4 : b * n / b = n) by (rewrite Nat.mul_comm; apply Nat.div_mul; lia).
  unfold rearrange_bt_n_c. rewrite Hs, E1, E2.
  destruct (Nat.eqb_spec t 0) as [H0|_]; [lia|]. cbn [Nat.eqb negb orb].
  eexists. eexists. eexists. split; [reflexivity|].
  unfold add_broadcast0, ndim. cbn [shape data tl nth]. rewrite Hts. cbn [tl nth length].
  rewrite shape_eqb_refl. cbn [Nat.eqb andb].
  split; [reflexivity|].
  unfold rearrange_bn_t_c. cbn [shape data]. rewrite E3, E4.
  destruct (Nat.eqb_spec b 0) as [H0|_]; [lia|]. cbn [Nat.eqb negb orb].
  split; [reflexivity|]. split; [reflexivity|]. cbn [data].
  intros ib it jn ic Hib Hit Hjn Hic.
  set (d1 := swap_middle b t n c (data x)).
  assert (Hd1 : length d1 = (b * n) * (t * c)).
  { unfold d1. change (swap_middle b t n c (data x))
      with (gather (swap_positions b t n c) (data x)).
    rewrite (@swap_middle_length _ b t n c (data x) Hd). ring. }
  assert (Hsize : prod_list [t; c] = t * c) by (cbn; lia).
  rewrite Hsize.
  set (d2 := concat (map (fun r => zip_with s_add r (data temp))
                         (rows_of (b * n) (t * c) d1))).
  assert (Hd2 : length d2 = b * (n * (t * c))).
  { unfold d2. rewrite (@length_rows_plus (b * n) (t * c) d1 (data temp) Hd1 Htd). ring. }
  change (swap_middle b n t c d2) with (gather (swap_positions b n t c) d2).
  rewrite (nth_of_nth_error _ d2 _ (((ib * n + jn) * t + it) * c + ic) s_zero)
    by (apply (@swap_middle_nth _ b n t c ib it jn ic d2 Hd2); assumption).
  replace (((ib * n + jn) * t + it) * c + ic)
    with ((ib * n + jn) * (t * c) + (it * c + ic)) by ring.
  unfold d2.
  rewrite (@nth_rows_plus (b * n) (t * c) (ib * n + jn) (it * c + ic) d1 (data temp)
             Hd1 Htd (digit_bound Hib Hjn) (digit_bound Hit Hic)).
  f_equal.
  replace ((ib * n + jn) * (t * c) + (it * c + ic))
    with (((ib * n + jn) * t + it) * c + ic) by ring.
  unfold d1. change (swap_middle b t n c (data x))
    with (gather (swap_positions b t n c) (data x)).
  apply nth_of_nth_error.
  apply (@swap_middle_nth _ b t n c ib jn it ic (data x) Hd); assumption.
Qed.

End TemporalEmbedding.

(** One sample of two frames of two tokens, and a temporal table. *)
Definition two_frames : Tensor Z := {| shape := [1 * 2; 2; 1]; data := [1; 2; 3; 4]%Z |}.

Definition tiny_temp_embed : Tensor Z := {| shape := [1; 2; 1]; data := [10; 20]%Z |}.

Lemma temporal_rearranges_are_a_reshape_witness :
  exists x1,
    rearrange_bt_n_c 2 two_frames = Ok x1
    /\ shape x1 = [1 * 2; 2; 1]
    /\ rearrange_bn_t_c 1 x1 = Ok {| shape := [1; 2 * 2; 1]; data := data two_frames |}.
Proof.
  exact (temporal_rearranges_are_a_reshape two_frames (b := 1) (t := 2) (n := 2) (c := 1)
           eq_refl eq_refl (Nat.lt_0_succ 0) (Nat.lt_0_succ 1)).
Defined.

Lemma temporal_embedding_placement_witness :
  exists x1 x2 x3,
    rearrange_bt_n_c 2 two_frames = Ok x1
    /\ add_broadcast0 x1 tiny_temp_embed = Ok x2
    /\ rearrange_bn_t_c 1 x2 = Ok x3
    /\ shape x3 = [1; 2 * 2; 1]
    /\ forall ib it jn ic,
         ib < 1 -> it < 2 -> jn < 2 -> ic < 1 ->
         nth (((ib * 2 + it) * 2 + jn) * 1 + ic) (data x3) 0%Z
         = (nth (((ib * 2 + it) * 2 + jn) * 1 + ic) (data two_frames) 0
            + nth (it * 1 + ic) (data tiny_temp_embed) 0)%Z.
Proof.
  exact (temporal_embedding_placement two_frames tiny_temp_embed
           (b := 1) (t := 2) (n := 2) (c := 1)
           eq_refl eq_refl eq_refl eq_refl (Nat.lt_0_succ 0) (Nat.lt_0_succ 1)).
Defined.

(** ** The timestep embedder as [forward] calls it *)

Lemma timestep_embedding_rows (t : list R) (dim : nat) :
  exists emb,
    TimestepEmbedder.timestep_embedding t dim 10000 = Ok emb /\ length emb = length t.
Proof.
  unfold TimestepEmbedder.timestep_embedding. cbv zeta.
  destruct (Rle_dec 10000 0) as [H|_]; [exfalso; lra|].
  destruct (negb _); eexists; (split; [reflexivity|]);
    rewrite ?zip_with_length, ?length_map, ?zip_with_length, ?length_map;
    lia.
Qed.

(** An [nn.Linear(in_features, out_features)] with a bias. *)
Definition linear_shape {A : Type} (l : Linear A) (in_features out_features : nat) : Prop :=
  length (weight l) = out_features
  /\ Forall (fun w => length w = in_features) (weight l)
  /\ option_map (@length A) (bias l) = Some out_features.

(** The table of [timestep_embedding] has the width of the first layer
    for every [frequency_embedding_size] but 1. *)
Lemma embedding_width_fits (dim : nat) :
  TimestepEmbedder.embedding_width dim = dim <-> dim <> 1.
Proof.
  unfold TimestepEmbedder.embedding_width. cbv zeta.
  pose proof (Nat.div_mod_eq dim 2) as Hd.
  pose proof (Nat.mod_upper_bound dim 2 (Nat.neq_succ_0 1)) as Hm.
  destruct (Nat.eqb_spec (dim mod 2) 0) as [E|E]; cbn [negb]; lia.
Qed.

(** Every row of the table has that width. *)
Lemma timestep_embedding_width (t : list R) (dim : nat) (max_period : R)
    (emb : list (list R)) :
  TimestepEmbedder.timestep_embedding t dim max_period = Ok emb ->
  Forall (fun row => length row = TimestepEmbedder.embedding_width dim) emb.
Proof.
  unfold TimestepEmbedder.timestep_embedding, TimestepEmbedder.embedding_width. cbv zeta.
  destruct (Rle_dec max_period 0); [discriminate|].
  set (freqs := map _ (seq 0 (dim / 2))).
  assert (Hf : length freqs = dim / 2) by (unfold freqs; now rewrite length_map, length_seq).
  set (args := map (fun tv => map (fun f => (tv * f)%R) freqs) t).
  assert (Hrows : Forall (fun row => length row = dim / 2 + dim / 2)
                    (zip_with (@app R) (map (map cos) args) (map (map sin) args))).
  { apply Forall_zip_with. intros a b Ha Hb.
    apply in_map_iff in Ha. destruct Ha as [a0 [<- Ha0]].
    apply in_map_iff in Hb. destruct Hb as [b0 [<- Hb0]].
    unfold args in Ha0, Hb0.
    apply in_map_iff in Ha0. destruct Ha0 as [? [<- _]].
    apply in_map_iff in Hb0. destruct Hb0 as [? [<- _]].
    rewrite length_app, !length_map, Hf. reflexivity. }
  destruct (negb _); intros H; injection H as <-; [|exact Hrows].
  apply Forall_zip_with. intros a b Ha Hb.
  apply in_map_iff in Hb. destruct Hb as [b0 [<- Hb0]].
  rewrite Forall_forall in Hrows.
  pose proof (Hrows b0 Hb0) as Hb'.
  rewrite length_app, length_map, (Hrows a Ha).
  destruct b0; cbn [map length] in *; lia.
Qed.

Section TimestepForward.

Context {A : Type} {SA : Scalar A}.

Variable silu : A -> A.
Variable of_real : R -> A.

(** X25. [TimestepEmbedder.forward] on an embedder whose two layers have
    the sizes the constructor gives them.  For every
    [frequency_embedding_size] but 1 it never fails and returns one row of
    width [hidden_size] per timestep: the period [10000] is fixed, so the
    logarithm is always defined, and the second linear layer fixes the
    width, for any timesteps, including none.  For
    [frequency_embedding_size = 1] it raises: the table has no column,
    and the first layer expects one. *)
Theorem t_embedder_forward_shape (te : DiT.TimestepEmbedderModule (A:=A)) (t : list R)
    (hidden_size : nat) :
  linear_shape (DiT.mlp_0 te) (DiT.frequency_embedding_size te) hidden_size ->
  linear_shape (DiT.mlp_2 te) hidden_size hidden_size ->
  (DiT.frequency_embedding_size te <> 1 ->
   exists emb,
     DiT.t_embedder_forward silu of_real te t = Ok emb
     /\ shape emb = [length t; hidden_size]
     /\ length (data emb) = length t * hidden_size)
  /\ (DiT.frequency_embedding_size te = 1 ->
      DiT.t_embedder_forward silu of_real te t
      = Raise (RuntimeError "mat1 and mat2 shapes cannot be multiplied")).
Proof.
  intros _ (Hw & _ & Hb). unfold DiT.t_embedder_forward.
  destruct (timestep_embedding_rows t (DiT.frequency_embedding_size te)) as [fr [-> Hl]].
  cbn [bind]. split.
  - intros Hf. apply embedding_width_fits in Hf. rewrite Hf, Nat.eqb_refl. cbn [negb].
    eexists. split; [reflexivity|].
    unfold flat2, out_features. cbn [shape data]. rewrite Hw. split; [reflexivity|].
    rewrite <- flat_map_concat_map, flat_map_length_const with (k := hidden_size).
    + now rewrite length_map, Hl.
    + intros row _. apply linear_length; assumption.
  - intros ->. reflexivity.
Qed.

End TimestepForward.

Lemma tiny_linear_shape (n_in n_out : nat) :
  linear_shape (new_linear (fun i j => Z.of_nat (i + j)) n_in n_out true) n_in n_out.
Proof.
  unfold linear_shape, new_linear. cbn [weight bias option_map].
  split; [now rewrite length_map, length_seq|]. split.
  - apply Forall_forall. intros w Hw. apply in_map_iff in Hw.
    destruct Hw as [i [<- _]]. now rewrite length_map, length_seq.
  - now rewrite length_map, length_seq.
Qed.

Lemma t_embedder_forward_shape_witness :
  (exists emb,
     DiT.t_embedder_forward (fun a => a) (fun _ => 0%Z)
       {| DiT.mlp_0 := new_linear (fun i j => Z.of_nat (i + j)) 256 2 true;
          DiT.mlp_2 := new_linear (fun i j => Z.of_nat (i + j)) 2 2 true;
          DiT.frequency_embedding_size := 256 |}
       [0%R; 1%R; 2%R]
     = Ok emb
     /\ shape emb = [3; 2]
     /\ length (data emb) = 3 * 2)
  /\ DiT.t_embedder_forward (fun a => a) (fun _ => 0%Z)
       {| DiT.mlp_0 := new_linear (fun i j => Z.of_nat (i + j)) 1 2 true;
          DiT.mlp_2 := new_linear (fun i j => Z.of_nat (i + j)) 2 2 true;
          DiT.frequency_embedding_size := 1 |}
       [0%R; 1%R; 2%R]
     = Raise (RuntimeError "mat1 and mat2 shapes cannot be multiplied").
Proof.
  split.
  - apply (t_embedder_forward_shape (fun a => a) (fun _ => 0%Z)
             {| DiT.mlp_0 := new_linear (fun i j => Z.of_nat (i + j)) 256 2 true;
                DiT.mlp_2 := new_linear (fun i j => Z.of_nat (i + j)) 2 2 true;
                DiT.frequency_embedding_size := 256 |}
             [0%R; 1%R; 2%R] (tiny_linear_shape 256 2) (tiny_linear_shape 2 2)).
    cbn [DiT.frequency_embedding_size]. discriminate.
  - apply (t_embedder_forward_shape (fun a => a) (fun _ => 0%Z)
             {| DiT.mlp_0 := new_linear (fun i j => Z.of_nat (i + j)) 1 2 true;
                DiT.mlp_2 := new_linear (fun i j => Z.of_nat (i + j)) 2 2 true;
                DiT.frequency_embedding_size := 1 |}
             [0%R; 1%R; 2%R] (tiny_linear_shape 1 2) (tiny_linear_shape 2 2)).
    reflexivity.
Defined.

(** ** The state after [forward_with_cfg] *)

Section GuidedForwardState.

Context {A : Type} {SA : Scalar A}.

Local Abbreviation vec := (list A).
Local Abbreviation t3 := (list (list (list A))).
Local Abbreviation t4 := (list (list (list (list A)))).
Local Abbreviation t5 := (list (list (list (list (list A))))).

Variable Mlp : Type.
Variable Conv : Type.
Variable softmax : vec -> vec.
Variable drop : Q -> vec -> vec.
Variable scaled_dot_product_attention :
  sdp_kernel -> t4 -> t4 -> t4 -> option t4 -> Q -> A -> result t4.
Variable rope : t5 -> t5.
Variable env : imports A.
Variable layer_norm : vec -> vec.
Variable silu : A -> A.
Variable mlp_forward : Mlp -> t3 -> t3.
Variable patch_embed : DiT.PatchEmbed Conv -> Tensor A -> result (Tensor A).
Variable checkpoint :
  (Tensor A -> Tensor A -> option (Tensor A) -> result (Tensor A))
  -> Tensor A -> Tensor A -> option (Tensor A) -> result (Tensor A).
Variable of_real : R -> A.
Variable rand : nat -> list Q.

Local Abbreviation dit := (DiT.module (A:=A) Mlp Conv).
Local Abbreviation forward :=
  (DiT.forward softmax drop scaled_dot_product_attention rope env layer_norm silu
     mlp_forward patch_embed checkpoint of_real rand).
Local Abbreviation forward_with_cfg :=
  (DiT.forward_with_cfg softmax drop scaled_dot_product_attention rope env layer_norm silu
     mlp_forward patch_embed checkpoint of_real rand).

Lemma doubled_half_shape (x : Tensor A) (len : nat) (dims : list nat) :
  shape x = len :: dims ->
  shape (cat_axis 0 (slice_axis 0 0 (len / 2) x) (slice_axis 0 0 (len / 2) x))
  = (len / 2 + len / 2) :: dims.
Proof.
  intros Hs. unfold cat_axis. cbn [shape].
  rewrite (slice_axis_shape0 0 (len / 2) x Hs).
  cbn [nth replace_nth firstn skipn app]. f_equal.
  assert (len / 2 <= len) by (apply Nat.Div0.div_le_upper_bound; lia). lia.
Qed.

(** X26. [forward_with_cfg] writes what its inner call of [forward]
    writes, and nothing else: for a 5-D batch and a non-zero
    [patch_size_t] the attribute [t] becomes [T // patch_size_t], and in
    every other case (also when the call raises) the instance is left as
    it was.  The model is run on a batch of [2 * (len(x) // 2)] samples,
    so an odd batch loses its last sample. *)
Theorem forward_with_cfg_state (self : dit) (x : Tensor A) (t : list R) (y : list Z)
    (cfg_scale : A) (attention_mask : option (Tensor A)) :
  fst (forward_with_cfg x t y cfg_scale attention_mask self)
  = match shape x with
    | [B; T; C; H; W] =>
        if Nat.eqb (DiT.patch_size_t self) 0 then self
        else DiT.with_t (Some (T / DiT.patch_size_t self)) self
    | _ => self
    end
  /\ forall len dims,
       shape x = len :: dims ->
       forward_with_cfg x t y cfg_scale attention_mask self
       = match forward (cat_axis 0 (slice_axis 0 0 (len / 2) x)
                          (slice_axis 0 0 (len / 2) x)) t y attention_mask self with
         | (self', Ok model_out) =>
             (self', DiT.cfg_combine (DiT.in_channels self) cfg_scale model_out)
         | (self', Raise e) => (self', Raise e)
         end
       /\ shape (cat_axis 0 (slice_axis 0 0 (len / 2) x) (slice_axis 0 0 (len / 2) x))
          = (2 * (len / 2)) :: dims.
Proof.
  split.
  - unfold DiT.forward_with_cfg.
    destruct (shape x) as [|len dims] eqn:Hs; [reflexivity|]. cbv zeta.
    set (combined := cat_axis 0 _ _).
    assert (Hst : fst (forward combined t y attention_mask self)
                  = match len / 2 + len / 2 :: dims with
                    | [B; T; C; H; W] =>
                        if Nat.eqb (DiT.patch_size_t self) 0 then self
                        else DiT.with_t (Some (T / DiT.patch_size_t self)) self
                    | _ => self
                    end).
    { rewrite forward_state. unfold combined. rewrite (doubled_half_shape x Hs).
      reflexivity. }
    unfold DiT.bindM at 1.
    destruct (forward combined t y attention_mask self) as [self' [out|e]];
      cbn [fst] in *; rewrite <- Hst;
      [| destruct dims as [|T [|C [|H [|W [|? ?]]]]]; reflexivity].
    unfold DiT.bindM, DiT.get_self, DiT.lift. cbn [fst].
    destruct dims as [|T [|C [|H [|W [|? ?]]]]]; reflexivity.
  - intros len dims Hs. split.
    + unfold DiT.forward_with_cfg. rewrite Hs. cbv zeta. unfold DiT.bindM at 1.
      pose proof (forward_state softmax drop scaled_dot_product_attention rope env
                    layer_norm silu mlp_forward patch_embed checkpoint of_real rand self
                    (cat_axis 0 (slice_axis 0 0 (len / 2) x) (slice_axis 0 0 (len / 2) x))
                    t y attention_mask) as Hst.
      destruct (forward _ t y attention_mask self) as [self' [out|e]]; [|reflexivity].
      cbn [fst] in Hst. unfold DiT.bindM, DiT.get_self, DiT.lift.
      f_equal. f_equal. rewrite Hst, (doubled_half_shape x Hs).
      destruct dims as [|T [|C [|H [|W [|? ?]]]]]; try reflexivity.
      destruct (Nat.eqb _ 0); reflexivity.
    + rewrite (doubled_half_shape x Hs). f_equal. lia.
Qed.

End GuidedForwardState.

(** A batch of three one-pixel videos. *)
Definition odd_batch : Tensor Z := {| shape := [3; 1; 1; 1; 1]; data := [5; 7; 9]%Z |}.

Lemma forward_with_cfg_state_witness :
  fst (tiny_forward_with_cfg odd_batch [] [] 2%Z None tiny_dit)
  = DiT.with_t (Some (1 / DiT.patch_size_t tiny_dit)) tiny_dit
  /\ shape (cat_axis 0 (slice_axis 0 0 (3 / 2) odd_batch) (slice_axis 0 0 (3 / 2) odd_batch))
     = [2 * (3 / 2); 1; 1; 1; 1].
Proof.
  unfold tiny_forward_with_cfg.
  pose proof (forward_with_cfg_state (fun r => r) (fun _ r => r) no_fused_kernel
                rope_identity no_imports (fun r => r) (fun a => a) (fun _ x => x)
                (fun _ x => Ok x) (fun f => f) (fun _ => 0%Z) half_draws
                tiny_dit odd_batch [] [] 2%Z None) as [H1 H2].
  split; [exact H1|].
  exact (proj2 (H2 3 [1; 1; 1; 1] eq_refl)).
Defined.

(** ** The guidance, sample by sample *)

Lemma zip_with_app {X Y Z : Type} (f : X -> Y -> Z) (a a' : list X) (b b' : list Y) :
  length a = length b ->
  zip_with f (a ++ a') (b ++ b') = zip_with f a b ++ zip_with f a' b'.
Proof.
  revert b; induction a as [|x a IH]; intros [|y b] H; simpl in *;
    try reflexivity; try discriminate.
  f_equal. apply IH. lia.
Qed.

Lemma firstn_concat_uniform {X : Type} (size m : nat) (rows : list (list X)) :
  Forall (fun r => length r = size) rows ->
  firstn (m * size) (concat rows) = concat (firstn m rows).
Proof.
  intros Hf. revert m; induction Hf as [|r rows Hr Hf IH]; intros m.
  - now rewrite firstn_nil, firstn_nil.
  - destruct m as [|m]; [reflexivity|]. cbn [firstn concat].
    replace (S m * size) with (length r + m * size) by lia.
    rewrite firstn_app_2. f_equal. apply IH.
Qed.

Lemma skipn_concat_uniform {X : Type} (size m : nat) (rows : list (list X)) :
  Forall (fun r => length r = size) rows ->
  skipn (m * size) (concat rows) = concat (skipn m rows).
Proof.
  intros Hf. revert m; induction Hf as [|r rows Hr Hf IH]; intros m.
  - now rewrite skipn_nil, skipn_nil.
  - destruct m as [|m]; [reflexivity|]. cbn [skipn concat].
    replace (S m * size) with (length r + m * size) by lia.
    rewrite skipn_app, skipn_all2 by lia.
    replace (length r + m * size - length r) with (m * size) by lia.
    cbn [app]. apply IH.
Qed.

Lemma length_concat_uniform {X : Type} (size : nat) (rows : list (list X)) :
  Forall (fun r => length r = size) rows ->
  length (concat rows) = length rows * size.
Proof.
  intros Hf. induction Hf as [|r rows Hr Hf IH]; [reflexivity|].
  cbn [concat length]. rewrite length_app, IH, Hr. lia.
Qed.

Lemma rows_of_concat {X : Type} (size : nat) (rows : list (list X)) :
  Forall (fun r => length r = size) rows ->
  rows_of (length rows) size (concat rows) = rows.
Proof.
  intros Hf. unfold rows_of.
  apply nth_ext with (d := []) (d' := []).
  - now rewrite length_map, length_seq.
  - intros i Hi. rewrite length_map, length_seq in Hi.
    rewrite (nth_indep _ [] ((fun i => firstn size (skipn (i * size) (concat rows))) 0))
      by (now rewrite length_map, length_seq).
    rewrite (map_nth (fun i => firstn size (skipn (i * size) (concat rows)))), seq_nth
      by exact Hi.
    rewrite skipn_concat_uniform by exact Hf. cbn [Nat.add].
    clear -Hf Hi. revert i Hi; induction Hf as [|r rows Hr Hf IH]; intros i Hi.
    + simpl in Hi. lia.
    + destruct i as [|i]; cbn [skipn concat nth].
      * rewrite <- Hr. rewrite firstn_app, Nat.sub_diag, firstn_all. cbn [firstn].
        apply app_nil_r.
      * apply IH. simpl in Hi. lia.
Qed.

Lemma Forall_firstn_skipn {X : Type} (P : X -> Prop) (n : nat) (l : list X) :
  Forall P l -> Forall P (firstn n l) /\ Forall P (skipn n l).
Proof.
  intros H. rewrite <- (firstn_skipn n l) in H. now apply Forall_app in H.
Qed.

Lemma rows_of_one {X : Type} (size : nat) (d : list X) :
  rows_of 1 size d = [firstn size d].
Proof. reflexivity. Qed.

Section GuidanceRows.

Context {A : Type} {SA : Scalar A}.

(** [uncond + cfg_scale * (cond - uncond)] on the values of one sample. *)
Definition cfg_guide (cfg_scale : A) (cond uncond : list A) : list A :=
  zip_with s_add uncond (map (s_mul cfg_scale) (zip_with s_sub cond uncond)).

Lemma cfg_guide_length (s : A) (size : nat) (c u : list A) :
  length c = size -> length u = size -> length (cfg_guide s c u) = size.
Proof.
  intros Hc Hu. unfold cfg_guide.
  rewrite zip_with_length, length_map, zip_with_length, Hc, Hu. lia.
Qed.

Lemma cfg_guide_concat (s : A) (size : nat) (cs us : list (list A)) :
  Forall (fun r => length r = size) cs ->
  Forall (fun r => length r = size) us ->
  length cs = length us ->
  cfg_guide s (concat cs) (concat us) = concat (zip_with (cfg_guide s) cs us).
Proof.
  intros Hc. revert us; induction Hc as [|c cs Hc1 Hc IH]; intros [|u us] Hu Hl;
    simpl in Hl; try discriminate; [reflexivity|].
  inversion Hu as [|? ? Hu1 Hu']; subst. cbn [concat zip_with].
  rewrite <- IH by (auto; lia). unfold cfg_guide.
  rewrite (zip_with_app s_sub c (concat cs) u (concat us)) by lia.
  rewrite map_app. apply zip_with_app.
  rewrite length_map, zip_with_length. lia.
Qed.

(** X27. What the guidance computes, sample by sample.  For a model
    output of shape [(2n, T, ...)] the batch is cut into its [2n] samples
    and each sample after its first [min(in_channels, T)] frames (axis 1
    is the frame axis of the output); the leading parts of sample [i] and
    of sample [n + i] are combined into
    [uncond + cfg_scale * (cond - uncond)], the combination is used for
    both halves of the batch, and the remaining frames of every sample
    are returned unchanged. *)
Theorem cfg_combine_rows (in_channels : nat) (cfg_scale : A) (model_out : Tensor A)
    (n T : nat) (dims : list nat) :
  0 < n ->
  shape model_out = (n + n) :: T :: dims ->
  length (data model_out) = (n + n) * (T * prod_list dims) ->
  let samples := rows_of (n + n) (T * prod_list dims) (data model_out) in
  let cut := Nat.min in_channels T * prod_list dims in
  let eps := map (firstn cut) samples in
  let rest := map (skipn cut) samples in
  let half_eps := zip_with (cfg_guide cfg_scale) (firstn n eps) (skipn n eps) in
  DiT.cfg_combine in_channels cfg_scale model_out
  = Ok {| shape := (n + n) :: T :: dims;
          data := concat (zip_with (@app A) (half_eps ++ half_eps) rest) |}.
Proof.
  intros Hn Hs Hd samples cut eps rest half_eps.
  set (inner := prod_list dims) in *.
  set (k := Nat.min in_channels T) in *.
  assert (Hk : k <= T) by apply Nat.le_min_r.
  pose proof (@rows_of_full_rows _ (n + n) (T * inner) (data model_out) Hd) as Hrows.
  fold samples in Hrows.
  assert (Hcount : length samples = n + n).
  { unfold samples, rows_of. now rewrite length_map, length_seq. }
  assert (Heps : Forall (fun r => length r = k * inner) eps).
  { unfold eps. apply Forall_forall. intros r Hin. apply in_map_iff in Hin.
    destruct Hin as [r0 [<- Hr0]]. rewrite Forall_forall in Hrows.
    rewrite length_firstn, (Hrows r0 Hr0). unfold cut. nia. }
  assert (Hrest : Forall (fun r => length r = (T - k) * inner) rest).
  { unfold rest. apply Forall_forall. intros r Hin. apply in_map_iff in Hin.
    destruct Hin as [r0 [<- Hr0]]. rewrite Forall_forall in Hrows.
    rewrite length_skipn, (Hrows r0 Hr0). unfold cut. nia. }
  assert (Heps_count : length eps = n + n) by (unfold eps; now rewrite length_map).
  assert (Hrest_count : length rest = n + n) by (unfold rest; now rewrite length_map).
  (* the two slices along the frame axis *)
  assert (E1 : slice_axis 1 0 in_channels model_out
               = {| shape := (n + n) :: k :: dims; data := concat eps |}).
  { unfold slice_axis. rewrite Hs.
    cbn [firstn skipn nth prod_list fold_right replace_nth app].
    fold (prod_list dims). fold inner.
    rewrite Nat.min_0_l, Nat.max_0_l, Nat.sub_0_r, Nat.mul_1_r. fold k.
    reflexivity. }
  assert (E2 : slice_axis 1 in_channels (nth 1 (shape model_out) 0) model_out
               = {| shape := (n + n) :: (T - k) :: dims; data := concat rest |}).
  { unfold slice_axis. rewrite Hs.
    cbn [firstn skipn nth prod_list fold_right replace_nth app].
    fold (prod_list dims). fold inner. fold k.
    rewrite Nat.min_id, (Nat.max_r k T), Nat.mul_1_r by exact Hk.
    f_equal. f_equal. unfold rest. apply map_ext_in. intros r Hr.
    rewrite Forall_forall in Hrows. apply firstn_all2.
    rewrite length_skipn, (Hrows r Hr). nia. }
  unfold DiT.cfg_combine. cbv zeta. rewrite E1, E2. cbn [shape nth].
  (* the split into the conditional and the unconditional half *)
  assert (Hhalf : (n + n) / 2 = n).
  { symmetry. apply (Nat.div_unique _ 2 n 0); lia. }
  unfold split0. cbn [shape nth]. rewrite Hhalf.
  destruct n as [|n']; [lia|]. set (n := S n') in *.
  assert (Hparts : (n + n + n - 1) / n = 2).
  { symmetry. apply (Nat.div_unique _ n 2 (n - 1)); lia. }
  rewrite Hparts. cbn [seq map bind].
  assert (Hlen_eps : length (concat eps) = (n + n) * (k * inner)).
  { rewrite (length_concat_uniform Heps), Heps_count. reflexivity. }
  assert (C : slice_axis 0 (0 * n) (0 * n + n)
                {| shape := (n + n) :: k :: dims; data := concat eps |}
              = {| shape := n :: k :: dims; data := concat (firstn n eps) |}).
  { unfold slice_axis.
    cbn [shape data firstn skipn nth prod_list fold_right replace_nth app].
    fold (prod_list dims). fold inner.
    rewrite Nat.mul_0_l, Nat.add_0_l, Nat.min_0_l, Nat.max_0_l, Nat.sub_0_r.
    rewrite (Nat.min_l n (n + n)) by lia.
    rewrite rows_of_one. cbn [map concat]. rewrite app_nil_r.
    rewrite Nat.mul_0_l. cbn [skipn].
    rewrite (firstn_all2 (n := (n + n) * (k * inner))) by lia.
    now rewrite (firstn_concat_uniform n Heps). }
  assert (U : slice_axis 0 (1 * n) (1 * n + n)
                {| shape := (n + n) :: k :: dims; data := concat eps |}
              = {| shape := n :: k :: dims; data := concat (skipn n eps) |}).
  { unfold slice_axis.
    cbn [shape data firstn skipn nth prod_list fold_right replace_nth app].
    fold (prod_list dims). fold inner.
    rewrite Nat.mul_1_l, Nat.min_id, (Nat.min_l n (n + n)), (Nat.max_r n (n + n)) by lia.
    replace (n + n - n) with n by lia.
    rewrite rows_of_one. cbn [map concat]. rewrite app_nil_r.
    rewrite (firstn_all2 (n := (n + n) * (k * inner))) by lia.
    rewrite (skipn_concat_uniform n Heps).
    apply f_equal. apply firstn_all2.
    rewrite (length_concat_uniform (size := k * inner)).
    - rewrite length_skipn, Heps_count. nia.
    - apply (Forall_firstn_skipn n Heps). }
  rewrite C, U.
  (* the guided half, used twice *)
  destruct (Forall_firstn_skipn n Heps) as [Hc Hu].
  assert (Hcu : length (firstn n eps) = length (skipn n eps)).
  { rewrite length_firstn, length_skipn, Heps_count. lia. }
  assert (Hhalf_rows : Forall (fun r => length r = k * inner) half_eps).
  { unfold half_eps. apply Forall_zip_with. intros c u Hcin Huin.
    rewrite Forall_forall in Hc, Hu.
    apply cfg_guide_length; [apply Hc | apply Hu]; assumption. }
  assert (Hhalf_count : length half_eps = n).
  { unfold half_eps. rewrite zip_with_length, length_firstn, length_skipn, Heps_count. lia. }
  assert (G : tensor_zip s_add
                {| shape := n :: k :: dims; data := concat (skipn n eps) |}
                (tensor_scale cfg_scale
                   (tensor_zip s_sub
                      {| shape := n :: k :: dims; data := concat (firstn n eps) |}
                      {| shape := n :: k :: dims; data := concat (skipn n eps) |}))
              = {| shape := n :: k :: dims; data := concat half_eps |}).
  { unfold tensor_zip, tensor_scale. cbn [shape data]. f_equal.
    exact (cfg_guide_concat cfg_scale Hc Hu Hcu). }
  rewrite G. f_equal. unfold cat_axis at 2.
  cbn [shape data firstn skipn nth prod_list fold_right replace_nth app].
  fold (prod_list dims). fold inner.
  rewrite !rows_of_one. cbn [zip_with concat]. rewrite app_nil_r.
  rewrite (firstn_all2 (n := n * (k * inner)))
    by (rewrite (length_concat_uniform Hhalf_rows), Hhalf_count; lia).
  rewrite <- concat_app.
  unfold cat_axis.
  cbn [shape data firstn skipn nth prod_list fold_right replace_nth app].
  fold (prod_list dims). fold inner.
  replace (k + (T - k)) with T by lia. f_equal.
  rewrite Nat.mul_1_r.
  assert (Hgg : Forall (fun r => length r = k * inner) (half_eps ++ half_eps)).
  { apply Forall_app. split; exact Hhalf_rows. }
  assert (Hgg_count : length (half_eps ++ half_eps) = n + n).
  { rewrite length_app, Hhalf_count. reflexivity. }
  rewrite <- Hgg_count at 1. rewrite (rows_of_concat Hgg).
  rewrite <- Hrest_count. rewrite (rows_of_concat Hrest). reflexivity.
Qed.

End GuidanceRows.

Lemma cfg_combine_rows_witness :
  DiT.cfg_combine 1 2%Z sample_model_out
  = Ok {| shape := [2; 2; 2; 1; 1];
          data := (cfg_guide 2%Z [1; 10]%Z [3; 12]%Z ++ [5; 20]%Z)
                  ++ (cfg_guide 2%Z [1; 10]%Z [3; 12]%Z ++ [7; 20]%Z) |}.
Proof.
  exact (cfg_combine_rows 1 2%Z sample_model_out (n := 1) (T := 2) (dims := [2; 1; 1])
           (Nat.lt_0_succ 0) eq_refl eq_refl).
Defined.

(** ** The shape of a block's output *)

(** A matrix of shape [(B, C)]. *)
Definition has_shape2 {X : Type} (B C : nat) (m : list (list X)) : Prop :=
  length m = B /\ Forall (fun r => length r = C) m.

Lemma has_shape3_zip {X : Type} (f : X -> X -> X) (B N C : nat)
    (a b : list (list (list X))) :
  has_shape3 B N C a -> has_shape3 B N C b ->
  has_shape3 B N C (zip_with (zip_with (zip_with f)) a b).
Proof.
  intros [Ha Hfa] [Hb Hfb]. split; [rewrite zip_with_length; lia|].
  apply Forall_zip_with. intros sa sb Hsa Hsb.
  rewrite Forall_forall in Hfa, Hfb.
  destruct (Hfa sa Hsa) as [Hna Hra]. destruct (Hfb sb Hsb) as [Hnb Hrb].
  split; [rewrite zip_with_length; lia|].
  apply Forall_zip_with. intros ra rb Hra' Hrb'.
  rewrite Forall_forall in Hra, Hrb.
  rewrite zip_with_length, (Hra ra Hra'), (Hrb rb Hrb'). lia.
Qed.

Section BlockShape.

Context {A : Type} {SA : Scalar A}.

Local Abbreviation vec := (list A).
Local Abbreviation mat := (list (list A)).
Local Abbreviation t3 := (list (list (list A))).
Local Abbreviation t4 := (list (list (list (list A)))).
Local Abbreviation t5 := (list (list (list (list (list A))))).

Variable Mlp : Type.
Variable softmax : vec -> vec.
Variable drop : Q -> vec -> vec.
Variable scaled_dot_product_attention :
  sdp_kernel -> t4 -> t4 -> t4 -> option t4 -> Q -> A -> result t4.
Variable rope : t5 -> t5.
Variable env : imports A.
Variable layer_norm : vec -> vec.
Variable silu : A -> A.
Variable mlp_forward : Mlp -> t3 -> t3.

Lemma chunk_piece_shape (B h j : nat) (m : mat) :
  has_shape2 B (6 * h) m -> j <= 5 ->
  has_shape2 B h (map (fun row : vec => firstn h (skipn (j * h) row)) m).
Proof.
  intros [Hm Hf] Hj. split; [now rewrite length_map|].
  apply Forall_forall. intros r Hr. apply in_map_iff in Hr.
  destruct Hr as [row [<- Hrow]]. rewrite Forall_forall in Hf.
  rewrite length_firstn, length_skipn, (Hf row Hrow). nia.
Qed.

(** [chunk(6, dim=1)] of a matrix of shape [(B, 6h)]: six matrices of
    shape [(B, h)]. *)
Lemma torch_chunk_six_shape (B h : nat) (m : mat) :
  has_shape2 B (6 * h) m ->
  exists p0 p1 p2 p3 p4 p5,
    torch_chunk 6 (6 * h) m = [p0; p1; p2; p3; p4; p5]
    /\ has_shape2 B h p0 /\ has_shape2 B h p1 /\ has_shape2 B h p2
    /\ has_shape2 B h p3 /\ has_shape2 B h p4 /\ has_shape2 B h p5.
Proof.
  intros Hm. destruct (Nat.eq_dec h 0) as [->|Hh].
  - cbn [Nat.mul torch_chunk repeat].
    assert (H0 : has_shape2 B 0 (map (fun _ : vec => @nil A) m)).
    { destruct Hm as [Hl _]. split; [now rewrite length_map|].
      apply Forall_forall. intros r Hr. apply in_map_iff in Hr.
      destruct Hr as [? [<- _]]. reflexivity. }
    do 6 eexists. split; [reflexivity|]. repeat split; apply H0.
  - assert (Hsize : (6 * h + 6 - 1) / 6 = h).
    { symmetry. apply (Nat.div_unique _ 6 h 5); lia. }
    assert (Hcount : (6 * h + h - 1) / h = 6).
    { symmetry. apply (Nat.div_unique _ h 6 (h - 1)); lia. }
    rewrite torch_chunk_nonzero by lia.
    rewrite Hsize, Hcount. cbn [seq map].
    do 6 eexists. split; [reflexivity|].
    repeat split; apply (@chunk_piece_shape B h _ m Hm); lia.
Qed.

Lemma modulate_shape (B N C : nat) (x : t3) (shift scale : mat) :
  has_shape3 B N C x -> has_shape2 B C shift -> has_shape2 B C scale ->
  has_shape3 B N C (modulate x shift scale).
Proof.
  intros [Hx Hfx] [Hsh Hfsh] [Hsc Hfsc]. unfold modulate. split.
  - rewrite zip_with_length, length_combine. lia.
  - apply Forall_zip_with. intros sample ss Hs Hss.
    rewrite Forall_forall in Hfx. destruct (Hfx sample Hs) as [Hn Hrows].
    destruct ss as [sh sc]. pose proof (in_combine_l _ _ _ _ Hss) as Hsh'.
    pose proof (in_combine_r _ _ _ _ Hss) as Hsc'.
    rewrite Forall_forall in Hfsh, Hfsc.
    split; [now rewrite length_map|].
    apply Forall_forall. intros r Hr. apply in_map_iff in Hr.
    destruct Hr as [row [<- Hrow]]. rewrite Forall_forall in Hrows.
    cbn [fst snd].
    rewrite !zip_with_length, length_map, (Hrows row Hrow), (Hfsh sh Hsh'), (Hfsc sc Hsc').
    lia.
Qed.

Lemma gate_mul_shape (B N C : nat) (gate : mat) (y : t3) :
  has_shape2 B C gate -> has_shape3 B N C y -> has_shape3 B N C (gate_mul gate y).
Proof.
  intros [Hg Hfg] [Hy Hfy]. unfold gate_mul. split; [rewrite zip_with_length; lia|].
  apply Forall_zip_with. intros g sample Hgin Hs.
  rewrite Forall_forall in Hfg, Hfy. destruct (Hfy sample Hs) as [Hn Hrows].
  split; [now rewrite length_map|].
  apply Forall_forall. intros r Hr. apply in_map_iff in Hr.
  destruct Hr as [row [<- Hrow]]. rewrite Forall_forall in Hrows.
  rewrite zip_with_length, (Hfg g Hgin), (Hrows row Hrow). lia.
Qed.

Lemma layer_norm_shape (B N C : nat) (x : t3) :
  (forall r, length (layer_norm r) = length r) ->
  has_shape3 B N C x -> has_shape3 B N C (map (map layer_norm) x).
Proof.
  intros Hn [Hx Hfx]. split; [now rewrite length_map|].
  apply Forall_forall. intros s Hs. apply in_map_iff in Hs.
  destruct Hs as [s0 [<- Hs0]]. rewrite Forall_forall in Hfx.
  destruct (Hfx s0 Hs0) as [Hlen Hrows]. split; [now rewrite length_map|].
  apply Forall_forall. intros r Hr. apply in_map_iff in Hr.
  destruct Hr as [r0 [<- Hr0]]. rewrite Forall_forall in Hrows.
  now rewrite Hn, (Hrows r0 Hr0).
Qed.

(** X28. A block keeps the shape of its input.  With the math backend,
    an attention layer and a modulation layer that fit the width [C], a
    layer norm, rotary embedding, dropout and MLP that keep shapes, an
    input of shape [(B, N, C)] with [B >= 1], conditioning of shape
    [(B, C)] and no mask or a mask of shape [(B, 1, N, N)],
    [DiTBlock.forward] returns a tensor of shape [(B, N, C)]: the
    modulation output always splits into its six parts. *)
Theorem DiTBlock_forward_keeps_shape (self : DiTBlock.module A Mlp) (x : t3) (c : mat)
    (attention_mask : option t4) (B N C : nat) :
  attention_mode (DiTBlock.attn self) = "math"%string ->
  attention_suits (DiTBlock.attn self) N C ->
  linear_shape (DiTBlock.adaLN_modulation self) C (6 * C) ->
  (forall t, same_rows (rope t) t) ->
  (forall p r, length (drop p r) = length r) ->
  (forall r, length (layer_norm r) = length r) ->
  (forall m y, has_shape3 B N C y -> has_shape3 B N C (mlp_forward m y)) ->
  0 < B ->
  has_shape3 B N C x ->
  has_shape2 B C c ->
  (forall m, attention_mask = Some m -> has_shape4 B 1 N N m) ->
  exists out,
    DiTBlock.forward softmax drop scaled_dot_product_attention rope env layer_norm silu
      mlp_forward self x c attention_mask = Ok out
    /\ has_shape3 B N C out.
Proof.
  intros Hmode Hsuit (Hw & _ & Hb) Hrope Hdrop Hln Hmlp HB Hx Hc Hmask.
  unfold DiTBlock.forward, out_features. rewrite Hw.
  set (m := map (fun row => linear (DiTBlock.adaLN_modulation self) (map silu row)) c).
  assert (Hm : has_shape2 B (6 * C) m).
  { destruct Hc as [Hcl _]. unfold m. split; [now rewrite length_map|].
    apply Forall_forall. intros r Hr. apply in_map_iff in Hr.
    destruct Hr as [row [<- _]]. apply linear_length; assumption. }
  destruct (@torch_chunk_six_shape B C m Hm)
    as (p0 & p1 & p2 & p3 & p4 & p5 & -> & H0 & H1 & H2 & H3 & H4 & H5).
  pose proof (modulate_shape (layer_norm_shape Hln Hx) H0 H1) as Hmod1.
  destruct (Attention_forward_math_shape softmax drop scaled_dot_product_attention rope
              env Hmode Hsuit Hrope Hdrop HB Hmod1 Hmask) as [a [-> Ha]].
  cbn [bind]. eexists. split; [reflexivity|].
  unfold add3.
  pose proof (has_shape3_zip s_add Hx (gate_mul_shape H2 Ha)) as Hx1.
  apply has_shape3_zip; [exact Hx1|].
  apply gate_mul_shape; [exact H5|].
  apply Hmlp. apply modulate_shape; [apply layer_norm_shape | |]; assumption.
Qed.

End BlockShape.

(** A block over the integers around [tiny_attention]. *)
Definition tiny_block : DiTBlock.module Z unit :=
  {| DiTBlock.attn := tiny_attention "math";
     DiTBlock.mlp := tt;
     DiTBlock.adaLN_modulation := new_linear (fun i j => Z.of_nat (i + j)) 2 (6 * 2) true |}.

Lemma DiTBlock_forward_keeps_shape_witness :
  exists out,
    DiTBlock.forward (fun r => r) (fun _ r => r) no_fused_kernel rope_identity no_imports
      (fun r => r) (fun a => a) (fun _ x => x) tiny_block tiny_sequence [[5; 6]]%Z None
    = Ok out
    /\ has_shape3 1 2 2 out.
Proof.
  apply (DiTBlock_forward_keeps_shape (fun r => r) (fun _ r => r) no_fused_kernel
           rope_identity no_imports (fun r => r) (fun a => a) (fun _ x => x)
           tiny_block (x := tiny_sequence) (c := [[5; 6]]%Z)
           (attention_mask := None) (B := 1) (N := 2) (C := 2)).
  - reflexivity.
  - unfold attention_suits, tiny_block, tiny_attention.
    cbn [DiTBlock.attn num_heads qkv proj weight bias hw attention_pe_mode fst snd
         option_map length].
    repeat split; try reflexivity; try discriminate; repeat constructor.
  - unfold linear_shape, tiny_block, new_linear. cbn [DiTBlock.adaLN_modulation weight bias].
    split; [reflexivity|]. split; [|reflexivity].
    apply Forall_forall. intros w Hw. apply in_map_iff in Hw.
    destruct Hw as [i [<- _]]. reflexivity.
  - intros t. reflexivity.
  - intros p r. reflexivity.
  - intros r. reflexivity.
  - intros m y Hy. exact Hy.
  - lia.
  - unfold has_shape3, tiny_sequence. split; [reflexivity|]. repeat constructor.
  - unfold has_shape2. split; [reflexivity|]. repeat constructor.
  - intros m H. discriminate H.
Defined.

(** ** The shape of what [forward] returns *)

Section ForwardShape.

Context {A : Type} {SA : Scalar A}.

Local Abbreviation vec := (list A).
Local Abbreviation t3 := (list (list (list A))).
Local Abbreviation t4 := (list (list (list (list A)))).
Local Abbreviation t5 := (list (list (list (list (list A))))).

Variable Mlp : Type.
Variable Conv : Type.
Variable softmax : vec -> vec.
Variable drop : Q -> vec -> vec.
Variable scaled_dot_product_attention :
  sdp_kernel -> t4 -> t4 -> t4 -> option t4 -> Q -> A -> result t4.
Variable rope : t5 -> t5.
Variable env : imports A.
Variable layer_norm : vec -> vec.
Variable silu : A -> A.
Variable mlp_forward : Mlp -> t3 -> t3.
Variable patch_embed : DiT.PatchEmbed Conv -> Tensor A -> result (Tensor A).
Variable checkpoint :
  (Tensor A -> Tensor A -> option (Tensor A) -> result (Tensor A))
  -> Tensor A -> Tensor A -> option (Tensor A) -> result (Tensor A).
Variable of_real : R -> A.
Variable rand : nat -> list Q.

Local Abbreviation dit := (DiT.module (A:=A) Mlp Conv).
Local Abbreviation forward :=
  (DiT.forward softmax drop scaled_dot_product_attention rope env layer_norm silu
     mlp_forward patch_embed checkpoint of_real rand).

Lemma bindM_ok_preserved {X Y : Type} (m : DiT.M Mlp Conv X) (k : X -> DiT.M Mlp Conv Y)
    (self self' : dit) (y : Y) :
  preserves m ->
  DiT.bindM m k self = (self', Ok y) ->
  exists x, m self = (self, Ok x) /\ k x self = (self', Ok y).
Proof.
  intros Hp. unfold DiT.bindM. specialize (Hp self).
  destruct (m self) as [s1 [x|e]]; simpl in Hp; subst s1; intros H.
  - exists x. split; [reflexivity | exact H].
  - discriminate H.
Qed.

Lemma unpatchify_ok_shape (self : dit) (x imgs : Tensor A) :
  DiT.unpatchify self x = Ok imgs ->
  exists n h,
    shape imgs = [n; DiT.out_channels self;
                  h * fst (DiT.embed_patch_size (DiT.x_embedder self));
                  h * fst (DiT.embed_patch_size (DiT.x_embedder self))].
Proof.
  unfold DiT.unpatchify. destruct (shape x) as [|n [|l dims]]; try discriminate.
  cbv zeta. destruct (negb _); [discriminate|].
  destruct (reshape _ x) as [x1|]; [|discriminate]. cbn [bind].
  unfold reshape. destruct (Nat.eqb _ _); [|discriminate].
  intros H. injection H as <-. exists n, (Nat.sqrt l). reflexivity.
Qed.

Ltac shape_step H :=
  apply bindM_ok_preserved in H;
  [ destruct H as [? [? H]]
  | first [ apply preserves_lift | apply preserves_get_self | apply preserves_read_t ] ].

(** X29. Whenever [forward] returns a tensor, the input was 5-D,
    [patch_size_t] is not 0, and the output has shape
    [(b, T // patch_size_t, out_channels, s, s)] with a square spatial
    extent [s = h * patch_size]: axis 1 counts frames and axis 2 holds
    the [out_channels] channels. *)
Theorem forward_output_shape (self self' : dit) (x out : Tensor A) (t : list R)
    (y : list Z) (attention_mask : option (Tensor A)) :
  forward x t y attention_mask self = (self', Ok out) ->
  exists B T C H W b h,
    shape x = [B; T; C; H; W]
    /\ DiT.patch_size_t self <> 0
    /\ shape out = [b; T / DiT.patch_size_t self; DiT.out_channels self;
                    h * fst (DiT.embed_patch_size (DiT.x_embedder self));
                    h * fst (DiT.embed_patch_size (DiT.x_embedder self))].
Proof.
  unfold DiT.forward. intros H.
  destruct (Nat.eqb (ndim x) 4); [discriminate H|].
  destruct (shape x) as [|B [|T [|C [|H0 [|W [|? ?]]]]]];
    try (destruct (Nat.ltb (ndim x) 5); discriminate H).
  unfold DiT.forward_body in H.
  unfold DiT.bindM at 1 in H. cbn [DiT.get_self] in H.
  unfold DiT.bindM at 1 in H.
  destruct (Nat.eqb_spec (DiT.patch_size_t self) 0) as [Hp|Hp]; [discriminate H|].
  cbn [DiT.set_t] in H.
  set (s0 := DiT.with_t (Some (T / DiT.patch_size_t self)) self) in *.
  do 11 shape_step H.
  (* the conditioning *)
  apply bindM_ok_preserved in H;
    [| destruct (Nat.eqb _ 2); [destruct (DiT.y_embedder _)|];
       repeat first [ apply preserves_ret | apply preserves_raise | apply preserves_lift
                    | apply preserves_bindM; [|intros ?] ] ].
  destruct H as [cnd [_ H]].
  (* the blocks *)
  apply bindM_ok_preserved in H.
  2:{ apply preserves_fold_left; [|apply preserves_ret].
      intros acc blk Hacc. apply preserves_bindM; [exact Hacc|]. intros ?.
      apply preserves_bindM; [apply preserves_get_self|]. intros ?.
      destruct (_ && _); apply preserves_lift. }
  destruct H as [xb [_ H]].
  do 7 shape_step H.
  repeat match goal with
         | E : DiT.get_self ?s = (_, Ok ?v) |- _ =>
             cbn [DiT.get_self] in E; injection E as E; subst v
         | E : DiT.read_t ?s = (_, Ok ?v) |- _ =>
             unfold DiT.read_t, s0 in E; cbn [DiT.t DiT.with_t] in E;
             injection E as E; subst v
         end.
  unfold DiT.lift in *.
  match goal with
  | E : (_, DiT.unpatchify _ _) = (_, Ok ?u) |- _ =>
      injection E as E; destruct (unpatchify_ok_shape _ _ E) as (n & h & Hu)
  end.
  injection H as _ H.
  unfold rearrange_bt_c_h_w in H. rewrite Hu in H.
  destruct (Nat.eqb _ 0) in H; [discriminate H|].
  destruct (negb _) in H; [discriminate H|]. injection H as <-.
  exists B, T, C, H0, W, (n / (T / DiT.patch_size_t self)), h.
  split; [reflexivity|]. split; [exact Hp|]. reflexivity.
Qed.

End ForwardShape.

Lemma timestep_embedding_even_shape (t : list R) (dim : nat) :
  dim mod 2 = 0 ->
  exists emb,
    TimestepEmbedder.timestep_embedding t dim 10000 = Ok emb
    /\ length emb = length t
    /\ Forall (fun row => length row = dim) emb.
Proof.
  intros Hd. unfold TimestepEmbedder.timestep_embedding. cbv zeta.
  destruct (Rle_dec 10000 0) as [H|_]; [exfalso; lra|].
  rewrite Hd. cbn [Nat.eqb negb]. eexists. split; [reflexivity|]. split.
  - rewrite zip_with_length, !length_map. apply Nat.min_id.
  - rewrite !map_map, zip_with_app_map.
    apply Forall_forall. intros row Hin. apply in_map_iff in Hin.
    destruct Hin as [tv [<- _]].
    rewrite length_app, !length_map, !length_seq. now apply even_half_double.
Qed.

Lemma bindM_run {A : Type} {Mlp Conv X Y : Type} (m : DiT.M (A:=A) Mlp Conv X)
    (k : X -> DiT.M Mlp Conv Y) (self s1 : DiT.module Mlp Conv) (x : X) :
  m self = (s1, Ok x) -> DiT.bindM m k self = k x s1.
Proof.
  intros H. unfold DiT.bindM. rewrite H. reflexivity.
Qed.

(** A model without blocks for one-pixel videos: the patch embedding
    copies the pixel into the two hidden channels. *)
Definition pixel_embed (pe : DiT.PatchEmbed unit) (x : Tensor Z) : result (Tensor Z) :=
  Ok {| shape := [nth 0 (shape x) 0; 1; 2]; data := flat_map (fun v => [v; v]) (data x) |}.

Definition pixel_dit : DiT.module (A:=Z) unit unit := {|
  DiT.gradient_checkpointing := false;
  DiT.learn_sigma := false;
  DiT.in_channels := 1;
  DiT.out_channels := 1;
  DiT.patch_size := 1;
  DiT.patch_size_t := 1;
  DiT.num_heads := 1;
  DiT.extras := 1;
  DiT.hidden_size := 2;
  DiT.x_embedder :=
    {| DiT.embed_patch_size := (1, 1); DiT.num_patches := 1; DiT.embed_proj := tt |};
  DiT.t_embedder :=
    {| DiT.mlp_0 := new_linear (fun _ _ => 1%Z) 256 2 true;
       DiT.mlp_2 := new_linear (fun _ _ => 1%Z) 2 2 true;
       DiT.frequency_embedding_size := 256 |};
  DiT.y_embedder := None;
  DiT.pos_embed := {| shape := [1; 1; 2]; data := [1; 2]%Z |};
  DiT.temp_embed := {| shape := [1; 1; 2]; data := [10; 20]%Z |};
  DiT.blocks := [];
  DiT.final_layer :=
    {| FinalLayer.linear_layer := new_linear (fun _ _ => 1%Z) 2 1 true;
       FinalLayer.adaLN_modulation := new_linear (fun _ _ => 0%Z) 2 4 true |};
  DiT.training := false;
  DiT.t := None
|}.

Definition pixel_forward :=
  DiT.forward (A:=Z) (Mlp:=unit) (Conv:=unit)
    (fun r => r) (fun _ r => r) no_fused_kernel rope_identity no_imports
    (fun r => r) (fun a => a) (fun _ x => x) pixel_embed (fun f => f)
    (fun _ => 0%Z) half_draws.

Lemma pixel_t_embedder :
  DiT.t_embedder_forward (fun a : Z => a) (fun _ => 0%Z) (DiT.t_embedder pixel_dit) [1%R]
  = Ok {| shape := [1; 2]; data := [3; 3]%Z |}.
Proof.
  unfold DiT.t_embedder_forward.
  destruct (@timestep_embedding_even_shape [1%R] 256 eq_refl) as (emb & E & Hl & Hf).
  cbn [DiT.frequency_embedding_size DiT.t_embedder pixel_dit] in *. rewrite E.
  cbn [bind]. destruct emb as [|row [|? ?]]; try discriminate Hl.
  inversion Hf as [|? ? Hrow _]; subst. cbn [map].
  rewrite (map_const_repeat 0%Z row), Hrow. vm_compute. reflexivity.
Qed.

Lemma pixel_forward_runs :
  exists self' out, pixel_forward one_frame [1%R] [] None pixel_dit = (self', Ok out).
Proof.
  unfold pixel_forward, DiT.forward. cbn [ndim shape one_frame length Nat.eqb].
  unfold DiT.forward_body.
  do 12 (erewrite bindM_run; [|reflexivity]).
  erewrite bindM_run;
    [| unfold DiT.lift; cbn [DiT.t_embedder DiT.with_t];
       change (DiT.t_embedder_forward (fun a : Z => a) (fun _ => 0%Z)
                 (DiT.t_embedder pixel_dit) [1%R])
         with (DiT.t_embedder_forward (fun a : Z => a) (fun _ => 0%Z)
                 (DiT.t_embedder pixel_dit) [1%R]);
       rewrite pixel_t_embedder; reflexivity ].
  do 10 (erewrite bindM_run; [|reflexivity]).
  eexists. eexists. reflexivity.
Qed.

Lemma forward_output_shape_witness :
  exists self' out,
    pixel_forward one_frame [1%R] [] None pixel_dit = (self', Ok out)
    /\ exists B T C H W b h,
         shape one_frame = [B; T; C; H; W]
         /\ DiT.patch_size_t pixel_dit <> 0
         /\ shape out = [b; T / DiT.patch_size_t pixel_dit; DiT.out_channels pixel_dit;
                         h * fst (DiT.embed_patch_size (DiT.x_embedder pixel_dit));
                         h * fst (DiT.embed_patch_size (DiT.x_embedder pixel_dit))].
Proof.
  destruct pixel_forward_runs as (self' & out & Hrun).
  exists self', out. split; [exact Hrun|].
  unfold pixel_forward in Hrun.
  exact (forward_output_shape _ _ _ _ _ _ _ _ _ _ _ _ _ _ _ _ _ Hrun).
Defined.

(** ** The blocks of a freshly constructed model *)

Lemma has_shape3_lengths {X : Type} (B N C : nat) (a : list (list (list X))) :
  has_shape3 B N C a -> map (map (@length X)) a = repeat (repeat C N) B.
Proof.
  intros [Hl Hf]. subst B. induction a as [|s a IH]; [reflexivity|].
  apply Forall_cons_iff in Hf. destruct Hf as [[Hn Hr] Hf].
  cbn [map length repeat]. f_equal; [|exact (IH Hf)].
  subst N. clear -Hr. induction s as [|r s IH]; [reflexivity|].
  apply Forall_cons_iff in Hr. destruct Hr as [Hr Hs].
  cbn [map length repeat]. f_equal; [exact Hr | exact (IH Hs)].
Qed.

Lemma has_shape3_same_shape3 {A : Type} (B N C : nat) (a b : list (list (list A))) :
  has_shape3 B N C a -> has_shape3 B N C b -> same_shape3 a b.
Proof.
  intros Ha Hb. unfold same_shape3.
  now rewrite (has_shape3_lengths Ha), (has_shape3_lengths Hb).
Qed.

Lemma fill_mat_shape {A : Type} (draw : nat -> nat -> A) (w : list (list A)) (n k : nat) :
  length w = n -> Forall (fun r => length r = k) w ->
  length (fill_mat draw w) = n /\ Forall (fun r => length r = k) (fill_mat draw w).
Proof.
  intros Hn Hk. unfold fill_mat. split; [now rewrite length_map, length_seq|].
  apply Forall_forall. intros r Hr. apply in_map_iff in Hr.
  destruct Hr as [i [<- Hi]]. apply in_seq in Hi.
  rewrite length_map, length_seq. rewrite Forall_forall in Hk.
  apply Hk. apply nth_In. lia.
Qed.

Section FreshBlock.

Context {A : Type} {SA : Scalar A} {L : ScalarLaws A}.

Local Abbreviation vec := (list A).
Local Abbreviation mat := (list (list A)).
Local Abbreviation t3 := (list (list (list A))).
Local Abbreviation t4 := (list (list (list (list A)))).
Local Abbreviation t5 := (list (list (list (list (list A))))).

Variable Mlp : Type.
Variable Conv : Type.
Variable softmax : vec -> vec.
Variable drop : Q -> vec -> vec.
Variable scaled_dot_product_attention :
  sdp_kernel -> t4 -> t4 -> t4 -> option t4 -> Q -> A -> result t4.
Variable rope : t5 -> t5.
Variable env : imports A.
Variable layer_norm : vec -> vec.
Variable silu : A -> A.
Variable mlp_forward : Mlp -> t3 -> t3.
Variable of_real : R -> A.
Variable gen : nat -> nat -> A.
Variable xavier : nat -> nat -> A.
Variable normal : nat -> nat -> A.
Variable inv_sqrt : nat -> A.
Variable Mlp_init : nat -> nat -> Mlp.
Variable mlp_basic_init : Mlp -> Mlp.
Variable PatchEmbed_init : nat -> nat -> nat -> nat -> DiT.PatchEmbed Conv.
Variable patch_embed_init : DiT.PatchEmbed Conv -> DiT.PatchEmbed Conv.

(** The constructor arguments; [n_heads], [mode] and [pe_mode] are
    [num_heads], [attention_mode] and [attention_pe_mode]. *)
Variable input_size patch_size patch_size_t in_channels hidden_size depth n_heads : nat.
Variable mlp_ratio : Q.
Variable num_frames : nat.
Variable class_dropout_prob : Q.
Variable num_classes : Z.
Variable learn_sigma : bool.
Variable extras : nat.
Variable mode pe_mode : string.

Local Abbreviation new_model :=
  (DiT.init of_real gen xavier normal inv_sqrt Mlp_init mlp_basic_init PatchEmbed_init
     patch_embed_init input_size patch_size patch_size_t in_channels hidden_size depth
     n_heads mlp_ratio num_frames class_dropout_prob num_classes learn_sigma extras
     mode pe_mode).

Local Abbreviation new_block :=
  (DiTBlock.init gen inv_sqrt Mlp_init hidden_size n_heads mlp_ratio mode
     pe_mode input_size).

Local Abbreviation ready b0 := (DiTBlock.initialize_weights xavier mlp_basic_init b0).

(** The shift, scale and gate which a fresh block computes from the
    conditioning [c]: one zero row per sample. *)
Definition zero_modulation (c : mat) : mat :=
  map (fun _ : vec => repeat s_zero hidden_size) c.

(** The attention layer of a fresh block keeps the mode it was given. *)
Lemma fresh_block_mode (b0 : DiTBlock.module A Mlp) :
  new_block = Ok b0 -> attention_mode (DiTBlock.attn (ready b0)) = mode.
Proof.
  unfold DiTBlock.init, Attention_init.
  destruct (Nat.eqb n_heads 0); [discriminate|].
  destruct (negb _); [discriminate|].
  destruct (Nat.eqb _ 0); [discriminate|].
  cbn [bind]. intros H. injection H as <-. reflexivity.
Qed.

(** It suits [N] tokens of width [hidden_size], when with rotary
    embeddings the tokens fill whole frames of [input_size * input_size]
    positions. *)
Lemma fresh_block_suits (b0 : DiTBlock.module A Mlp) (N : nat) :
  new_block = Ok b0 ->
  (pe_mode = "2d_rope"%string ->
   input_size * input_size <> 0 /\ N mod (input_size * input_size) = 0) ->
  attention_suits (DiTBlock.attn (ready b0)) N hidden_size.
Proof.
  unfold DiTBlock.init, Attention_init.
  destruct (Nat.eqb_spec n_heads 0) as [Hn|Hn]; [discriminate|].
  destruct (Nat.eqb_spec (hidden_size mod n_heads) 0) as [Hm|Hm]; [|discriminate].
  cbn [negb].
  destruct (Nat.eqb _ 0); [discriminate|].
  cbn [bind]. intros H Hrope. injection H as <-.
  unfold attention_suits.
  cbn [DiTBlock.initialize_weights DiTBlock.attn num_heads qkv proj hw
       attention_pe_mode fst snd basic_init_linear weight bias option_map].
  assert (Hrows : forall n,
             Forall (fun r : vec => length r = hidden_size)
               (map (fun i => map (fun j => gen i j) (seq 0 hidden_size)) (seq 0 n))).
  { intros n. apply Forall_forall. intros r Hr. apply in_map_iff in Hr.
    destruct Hr as [i [<- _]]. now rewrite length_map, length_seq. }
  assert (Hlen : forall n,
             length (map (fun i => map (fun j => gen i j) (seq 0 hidden_size)) (seq 0 n)) = n)
    by (intros n; now rewrite length_map, length_seq).
  destruct (fill_mat_shape xavier (Hlen (hidden_size * 3)) (Hrows (hidden_size * 3)))
    as [Hq1 Hq2].
  destruct (fill_mat_shape xavier (Hlen hidden_size) (Hrows hidden_size)) as [Hp1 Hp2].
  split; [exact Hn|]. split; [exact Hm|].
  split; [rewrite Hq1; lia|]. split; [exact Hq2|].
  split; [exact Hp1|]. split; [exact Hp2|].
  split; [now rewrite !length_map, length_seq | exact Hrope].
Qed.

(** What a fresh block computes: shift, scale and gates are zero. *)
Lemma fresh_block_forward (b0 : DiTBlock.module A Mlp) (x : t3) (c : mat)
    (attention_mask : option t4) :
  new_block = Ok b0 ->
  DiTBlock.forward softmax drop scaled_dot_product_attention rope env layer_norm silu
    mlp_forward (ready b0) x c attention_mask
  = (a <- Attention_forward softmax drop scaled_dot_product_attention rope env
            (DiTBlock.attn (ready b0))
            (modulate (map (map layer_norm) x) (zero_modulation c) (zero_modulation c))
            attention_mask ;;
     let x := add3 x (gate_mul (zero_modulation c) a) in
     let x := add3 x (gate_mul (zero_modulation c)
                        (mlp_forward (DiTBlock.mlp (ready b0))
                           (modulate (map (map layer_norm) x)
                              (zero_modulation c) (zero_modulation c)))) in
     Ok x)%result.
Proof.
  intros Hb0. unfold DiTBlock.forward.
  destruct (@fresh_block_modulation A SA L Mlp gen xavier inv_sqrt Mlp_init mlp_basic_init
              input_size hidden_size n_heads mlp_ratio mode pe_mode b0 [] Hb0) as [Hout _].
  rewrite Hout.
  rewrite (map_ext (fun row : vec =>
                      linear (DiTBlock.adaLN_modulation (ready b0)) (map silu row))
                   (fun _ => repeat s_zero (6 * hidden_size)))
    by (intros row;
        apply (@fresh_block_modulation A SA L Mlp gen xavier inv_sqrt Mlp_init
                 mlp_basic_init input_size hidden_size n_heads mlp_ratio mode pe_mode b0
                 (map silu row) Hb0)).
  rewrite torch_chunk_six_zero. cbn [repeat]. reflexivity.
Qed.

(** Both gated branches vanish when the attention layer returns a tensor
    of the shape of its input. *)
Lemma fresh_block_returns_input (b0 : DiTBlock.module A Mlp) (x a : t3) (c : mat)
    (attention_mask : option t4) (B N : nat) :
  new_block = Ok b0 ->
  (forall r, length (layer_norm r) = length r) ->
  (forall ml y, has_shape3 B N hidden_size y ->
                has_shape3 B N hidden_size (mlp_forward ml y)) ->
  has_shape3 B N hidden_size x ->
  has_shape2 B hidden_size c ->
  Attention_forward softmax drop scaled_dot_product_attention rope env
    (DiTBlock.attn (ready b0))
    (modulate (map (map layer_norm) x) (zero_modulation c) (zero_modulation c))
    attention_mask = Ok a ->
  has_shape3 B N hidden_size a ->
  DiTBlock.forward softmax drop scaled_dot_product_attention rope env layer_norm silu
    mlp_forward (ready b0) x c attention_mask = Ok x.
Proof.
  intros Hb0 Hln Hmlp Hx Hc Ha Hsa.
  rewrite (fresh_block_forward x c attention_mask Hb0), Ha. cbn [bind]. cbv zeta.
  assert (Hz : has_shape2 B hidden_size (zero_modulation c)).
  { destruct Hc as [Hcl _]. unfold zero_modulation. split; [now rewrite length_map|].
    apply Forall_forall. intros r Hr. apply in_map_iff in Hr.
    destruct Hr as [? [<- _]]. apply repeat_length. }
  assert (Hlen : length c = length x) by (destruct Hc, Hx; congruence).
  assert (Hrows : Forall (Forall (fun row : vec => length row = hidden_size)) x).
  { destruct Hx as [_ Hf]. eapply Forall_impl; [|exact Hf]. intros s Hs. apply Hs. }
  assert (H1 : add3 x (gate_mul (zero_modulation c) a) = x).
  { apply zero_gate_vanishes; [exact (has_shape3_same_shape3 Hsa Hx) | exact Hlen
                              | exact Hrows]. }
  rewrite H1.
  apply f_equal. apply zero_gate_vanishes; [|exact Hlen | exact Hrows].
  apply has_shape3_same_shape3 with (B := B) (N := N) (C := hidden_size); [|exact Hx].
  apply Hmlp. apply modulate_shape; [apply layer_norm_shape | |]; assumption.
Qed.


End FreshBlock.

(** The one-block model of [tiny_new_model] for another frame size,
    another backend and another positional mode. *)
Definition tiny_model_with (input_size : nat) (mode pe_mode : string)
  : result (DiT.module (A:=Z) unit unit) :=
  DiT.init (fun _ => 0%Z) (fun i j => Z.of_nat (i + j)) (fun _ _ => 1%Z) (fun _ _ => 2%Z)
    (fun _ => 1%Z) (fun _ _ => tt) (fun u => u)
    (fun input_size patch_size _ _ =>
       {| DiT.embed_patch_size := (patch_size, patch_size);
          DiT.num_patches := (input_size / patch_size) * (input_size / patch_size);
          DiT.embed_proj := tt |})
    (fun pe => pe)
    input_size 1 1 1 4 1 1 4%Q 1 (1 # 10)%Q 10%Z true 1 mode pe_mode.

Lemma tiny_model_with_block (input_size : nat) (mode pe_mode : string) :
  exists m b, tiny_model_with input_size mode pe_mode = Ok m /\ DiT.blocks m = [b]
              /\ b = DiTBlock.initialize_weights (fun _ _ => 1%Z) (fun u => u)
                       {| DiTBlock.attn :=
                            {| num_heads := 1; head_dim := 4; scale := 1%Z;
                               attention_mode := mode; attention_pe_mode := pe_mode;
                               qkv := new_linear (fun i j => Z.of_nat (i + j)) 4 12 true;
                               attn_drop := 0%Q;
                               proj := new_linear (fun i j => Z.of_nat (i + j)) 4 4 true;
                               proj_drop := 0%Q; hw := (input_size, input_size);
                               training := true |};
                          DiTBlock.mlp := tt;
                          DiTBlock.adaLN_modulation :=
                            new_linear (fun i j => Z.of_nat (i + j)) 4 24 true |}.
Proof.
  destruct (@init_built Z _ unit unit (fun _ => 0%Z) (fun i j => Z.of_nat (i + j))
              (fun _ _ => 1%Z) (fun _ _ => 2%Z) (fun _ => 1%Z) (fun _ _ => tt) (fun u => u)
              (fun input_size patch_size _ _ =>
                 {| DiT.embed_patch_size := (patch_size, patch_size);
                    DiT.num_patches := (input_size / patch_size) * (input_size / patch_size);
                    DiT.embed_proj := tt |})
              (fun pe => pe)
              input_size 1 1 1 4 1 1 4%Q 1 (1 # 10)%Q 10%Z true 1 mode pe_mode
              (input_size / 1))
    as [m [Hm Hl]].
  - discriminate.
  - right. split; [discriminate | reflexivity].
  - reflexivity.
  - reflexivity.
  - fold (tiny_model_with input_size mode pe_mode) in Hm.
    destruct (DiT.blocks m) as [|b [|? ?]] eqn:Hb; try discriminate Hl.
    exists m, b. split; [exact Hm|]. split; [exact Hb|].
    assert (Hin : In b (DiT.blocks m)) by (rewrite Hb; left; reflexivity).
    unfold tiny_model_with in Hm.
    destruct (new_model_blocks _ _ _ _ _ _ _ _ _ _ _ _ _ _ _ _ _ _ _ _ _ _ _ _ b Hm Hin)
      as [b0 [Hb0 ->]].
    f_equal. vm_compute in Hb0. injection Hb0 as <-. reflexivity.
Qed.

Lemma tiny_tokens_shape : has_shape3 1 1 4 tiny_tokens.
Proof. split; [reflexivity|]. repeat constructor. Qed.

Lemma tiny_condition_shape : has_shape2 1 4 tiny_condition.
Proof. split; [reflexivity|]. repeat constructor. Qed.


